(** * A verification development for the TikTok info bot

    The development embeds these parts of the repository:

    - [bot.py]: the per-user rate limiter ([check_rate_limit]) with its
      three constants and its process-wide dictionary [rate_limit];
    - [scraper.py]: the [TikTokScraper] methods that resolve a profile
      ([get_user_by_username], [_scrape_tiktok_page], [_format_user] and
      its helpers) and a video ([get_video_no_watermark],
      [_ytdlp_download]), and the lookup by id ([get_user_by_id]);
    - [bot.py] again: the search history ([save_to_history] and what
      [history_command] lists), the favourites (the add and remove
      blocks of [fav_command] and [callback_handler], and the parsing of
      the [/fav] message), the decoding of callback data in
      [callback_handler], and the messages ([t], [build_user_response]).

    Python dictionaries keyed by user id are [gmap Z _]; values decoded
    from JSON are an inductive type of Python values; the network and
    the third-party libraries are oracles collected in a record, and the
    code that talks to them runs in a small monad that records every
    outbound call and carries Python exceptions. *)

From Stdlib Require Import ZArith QArith Lia Ascii String List DecimalString Sorted
  DecimalN.
From stdpp Require Import base gmap strings list.

Local Open Scope Z_scope.
Set Warnings "-register-all".


(** ** Part I: the rate limiter of [bot.py] *)

Module RateLimit.

(** [datetime] values carry microseconds; a point in time is its number
    of microseconds since the epoch, and the difference of two
    [datetime]s is an exact number of microseconds. *)
Definition usec : Z := 1000000.

Definition RATE_LIMIT_COUNT : Z := 20.
Definition RATE_LIMIT_WINDOW : Z := 300.
Definition RATE_LIMIT_COOLDOWN : Z := 600.

(** One entry of [rate_limit]: [{"count": int, "start_time": datetime}]. *)
Record user_data := mk_user_data { count : Z; start_time : Z }.

#[global] Instance user_data_eq_dec : EqDecision user_data.
Proof. solve_decision. Defined.

(** The result tuple [(is_limited, minutes, seconds)]. *)
Definition verdict : Type := bool * Z * Z.

Definition Allowed : verdict := (false, 0, 0).
Definition Limited (minutes seconds : Z) : verdict := (true, minutes, seconds).

(** [(current_time - start_time).total_seconds()], kept in microseconds.
    The source compares the float number of seconds with the integer
    constants; both sides scaled by [usec] give the same comparison as
    long as the difference is below 2^53 microseconds (285 years). *)
Definition elapsed_us (current_time : Z) (d : user_data) : Z :=
  current_time - start_time d.

(** [RATE_LIMIT_COOLDOWN - elapsed], in microseconds. *)
Definition remaining_us (current_time : Z) (d : user_data) : Z :=
  RATE_LIMIT_COOLDOWN * usec - elapsed_us current_time d.

(** [int(remaining // 60)] and [int(remaining % 60)]. *)
Definition minutes_of (remaining : Z) : Z := remaining / (60 * usec).
Definition seconds_of (remaining : Z) : Z := (remaining mod (60 * usec)) / usec.

(** [check_rate_limit(user_id)]: the clock reading [current_time] is an
    argument and the dictionary [rate_limit] is threaded through. *)
Definition check_rate_limit (current_time user_id : Z)
    (rate_limit : gmap Z user_data) : verdict * gmap Z user_data :=
  let rate_limit :=
    match rate_limit !! user_id with
    | None => <[user_id := mk_user_data 0 current_time]> rate_limit
    | Some _ => rate_limit
    end in
  match rate_limit !! user_id with
  | None => (Allowed, rate_limit) (* no such path: the key was just set *)
  | Some user_data =>
      let elapsed := elapsed_us current_time user_data in
      if decide (elapsed > RATE_LIMIT_WINDOW * usec) then
        (Allowed, <[user_id := mk_user_data 1 current_time]> rate_limit)
      else if decide (count user_data >= RATE_LIMIT_COUNT) then
        let remaining := remaining_us current_time user_data in
        if decide (remaining <= 0) then
          (Allowed, <[user_id := mk_user_data 1 current_time]> rate_limit)
        else
          (Limited (minutes_of remaining) (seconds_of remaining), rate_limit)
      else
        (Allowed,
         <[user_id := mk_user_data (count user_data + 1) (start_time user_data)]>
           rate_limit)
  end.

(** The four ways out of [check_rate_limit], by source line. *)
Inductive branch :=
  | WindowReset      (* lines 88-91 *)
  | CooldownExpired  (* lines 95-98 *)
  | Denied           (* lines 99-101 *)
  | Counted.         (* lines 103-104 *)

#[global] Instance branch_eq_dec : EqDecision branch.
Proof. solve_decision. Defined.

(** The entry the body of [check_rate_limit] works on. *)
Definition entry (current_time user_id : Z) (rate_limit : gmap Z user_data)
    : user_data :=
  default (mk_user_data 0 current_time) (rate_limit !! user_id).

(** The branch a call takes, from the same tests in the same order. *)
Definition branch_of (current_time user_id : Z) (rate_limit : gmap Z user_data)
    : branch :=
  let d := entry current_time user_id rate_limit in
  if decide (elapsed_us current_time d > RATE_LIMIT_WINDOW * usec) then WindowReset
  else if decide (count d >= RATE_LIMIT_COUNT) then
    if decide (remaining_us current_time d <= 0) then CooldownExpired else Denied
  else Counted.

(** Successive calls of one user at the given clock readings. *)
Fixpoint calls (times : list Z) (user_id : Z) (rate_limit : gmap Z user_data)
    : list verdict * gmap Z user_data :=
  match times with
  | [] => ([], rate_limit)
  | t :: times =>
      let '(v, rate_limit) := check_rate_limit t user_id rate_limit in
      let '(vs, rate_limit) := calls times user_id rate_limit in
      (v :: vs, rate_limit)
  end.

(** States that [check_rate_limit] alone produces from the empty
    dictionary. *)
Definition is_limited (v : verdict) : bool := fst (fst v).

Inductive reachable : gmap Z user_data -> Prop :=
  | reachable_empty : reachable ∅
  | reachable_call t u m :
      reachable m -> reachable (snd (check_rate_limit t u m)).

(** The next call of [user_id], made at [t], opens a window: the user
    has no entry yet (fresh), or the stored window is over (reset). *)
Definition opens_window (t user_id : Z) (rate_limit : gmap Z user_data) : Prop :=
  match rate_limit !! user_id with
  | None => True
  | Some d => elapsed_us t d > RATE_LIMIT_WINDOW * usec
  end.

End RateLimit.

(** ** Part II: Python values, strings and exceptions used by [scraper.py] *)

Module Py.

Local Open Scope string_scope.

(** A [float] as [json.loads] can produce it. *)
Inductive pyfloat :=
  | FFinite (q : Q)
  | FInf (negative : bool)
  | FNan.

(** The values [json.loads] and [yt_dlp] hand to the scraper. A [dict]
    keeps its items in insertion order; [lookup_key] reads the first
    item with the key. *)
Inductive pyval :=
  | PNone
  | PBool (b : bool)
  | PInt (n : Z)
  | PFloat (f : pyfloat)
  | PStr (s : string)
  | PList (l : list pyval)
  | PDict (d : list (string * pyval)).

(** The exception classes the scraper tells apart, and [LibraryError]
    for whatever [httpx] and [yt_dlp] raise. All derive from
    [Exception]. *)
Inductive exn :=
  | AttributeError
  | TypeError
  | ValueError
  | KeyError
  | OverflowError
  | OSError
  | LibraryError.

Inductive outcome (A : Type) :=
  | Return (a : A)
  | Raise (e : exn).
Arguments Return {A} a.
Arguments Raise {A} e.

Definition bind {A B} (m : outcome A) (k : A -> outcome B) : outcome B :=
  match m with
  | Return a => k a
  | Raise e => Raise e
  end.

Notation "x <~ m ;; k" := (bind m (fun x => k))
  (at level 100, m at next level, right associativity).

(** *** Dictionaries *)

Fixpoint lookup_key {A} (k : string) (d : list (string * A)) : option A :=
  match d with
  | [] => None
  | (k', v) :: d => if String.eqb k k' then Some v else lookup_key k d
  end.

(** [v.get(k, dflt)]: only a [dict] has the method. *)
Definition py_get (v : pyval) (k : string) (dflt : pyval) : outcome pyval :=
  match v with
  | PDict d => Return (default dflt (lookup_key k d))
  | _ => Raise AttributeError
  end.

(** [v[k]] for a string key. *)
Definition py_index (v : pyval) (k : string) : outcome pyval :=
  match v with
  | PDict d =>
      match lookup_key k d with
      | Some x => Return x
      | None => Raise KeyError
      end
  | _ => Raise TypeError
  end.

(** *** Truth value, [or], [== n] *)

Definition float_is_zero (f : pyfloat) : bool :=
  match f with
  | FFinite q => Z.eqb (Qnum q) 0
  | _ => false
  end.

Definition truthy (v : pyval) : bool :=
  match v with
  | PNone => false
  | PBool b => b
  | PInt n => negb (Z.eqb n 0)
  | PFloat f => negb (float_is_zero f)
  | PStr s => negb (String.eqb s EmptyString)
  | PList l => match l with [] => false | _ => true end
  | PDict d => match d with [] => false | _ => true end
  end.

Definition py_or (a b : pyval) : pyval := if truthy a then a else b.

(** [v == n] for an integer literal [n]: [True == 1] and [0.0 == 0]
    hold in Python. *)
Definition py_eq_int (v : pyval) (n : Z) : bool :=
  match v with
  | PInt m => Z.eqb m n
  | PBool b => Z.eqb (if b then 1 else 0) n
  | PFloat (FFinite q) => Qeq_bool q (inject_Z n)
  | _ => false
  end.

(** *** Strings

    A [str] is modelled by the bytes of its UTF-8 encoding. The white
    space that [strip] and [split] remove and the letters that [upper]
    and [lower] map are those of the ASCII range. On a text of ASCII
    characters ([ascii_text]) the definitions below are the built-ins.
    On other texts the built-ins also remove white space such as U+00A0
    and U+3000 and map letters outside A-Z and a-z, which the
    definitions leave alone: a statement that depends on which
    characters are stripped or mapped is made for ASCII texts. *)

Definition dquote : string := String "034" EmptyString.

(** The characters below U+0080, and the texts made of them. *)
Definition is_ascii (c : ascii) : bool := (nat_of_ascii c <? 128)%nat.

Fixpoint ascii_text (s : string) : bool :=
  match s with
  | EmptyString => true
  | String c s' => is_ascii c && ascii_text s'
  end.

Definition is_space (c : ascii) : bool :=
  let n := nat_of_ascii c in
  ((9 <=? n) && (n <=? 13) || (28 <=? n) && (n <=? 32))%nat.

Definition is_char (x c : ascii) : bool := Ascii.eqb x c.

Fixpoint lstrip_by (p : ascii -> bool) (s : string) : string :=
  match s with
  | EmptyString => EmptyString
  | String c s' => if p c then lstrip_by p s' else s
  end.

Fixpoint rstrip_by (p : ascii -> bool) (s : string) : string :=
  match s with
  | EmptyString => EmptyString
  | String c s' =>
      match rstrip_by p s' with
      | EmptyString => if p c then EmptyString else String c EmptyString
      | r => String c r
      end
  end.

Definition strip_by (p : ascii -> bool) (s : string) : string :=
  rstrip_by p (lstrip_by p s).

(** [s.strip()], [s.lstrip(c)], [s.strip(c)]. *)
Definition strip (s : string) : string := strip_by is_space s.
Definition lstrip_char (c : ascii) (s : string) : string := lstrip_by (is_char c) s.
Definition strip_char (c : ascii) (s : string) : string := strip_by (is_char c) s.

Fixpoint drop_chars (n : nat) (s : string) : string :=
  match n, s with
  | O, _ => s
  | S n, String _ s' => drop_chars n s'
  | S _, EmptyString => EmptyString
  end.

(** The longest prefix of characters satisfying [p]. *)
Fixpoint take_while (p : ascii -> bool) (s : string) : string :=
  match s with
  | EmptyString => EmptyString
  | String c s' => if p c then String c (take_while p s') else EmptyString
  end.

(** [needle in s]. *)
Fixpoint contains (needle s : string) : bool :=
  if String.prefix needle s then true
  else match s with
       | EmptyString => false
       | String _ s' => contains needle s'
       end.

(** The text after the first occurrence of [needle] in [s], with the
    text before it. *)
Fixpoint find_sub (needle s : string) : option (string * string) :=
  if String.prefix needle s then
    Some (EmptyString, drop_chars (String.length needle) s)
  else match s with
       | EmptyString => None
       | String c s' =>
           match find_sub needle s' with
           | Some (before, after) => Some (String c before, after)
           | None => None
           end
       end.

Definition upper_char (c : ascii) : ascii :=
  let n := nat_of_ascii c in
  if ((97 <=? n) && (n <=? 122))%nat then ascii_of_nat (n - 32) else c.

Definition lower_char (c : ascii) : ascii :=
  let n := nat_of_ascii c in
  if ((65 <=? n) && (n <=? 90))%nat then ascii_of_nat (n + 32) else c.

Fixpoint map_chars (f : ascii -> ascii) (s : string) : string :=
  match s with
  | EmptyString => EmptyString
  | String c s' => String (f c) (map_chars f s')
  end.

Definition upper (s : string) : string := map_chars upper_char s.
Definition lower (s : string) : string := map_chars lower_char s.

(** [v.upper()] and [v.lower()]: only a [str] has the methods. *)
Definition py_upper (v : pyval) : outcome string :=
  match v with
  | PStr s => Return (upper s)
  | _ => Raise AttributeError
  end.

Definition py_lower (v : pyval) : outcome string :=
  match v with
  | PStr s => Return (lower s)
  | _ => Raise AttributeError
  end.

(** *** [int(v)] and [f"{n:,}"] *)

Definition is_digit (c : ascii) : bool :=
  let n := nat_of_ascii c in ((48 <=? n) && (n <=? 57))%nat.

Definition digit_value (c : ascii) : Z := Z.of_nat (nat_of_ascii c) - 48.

(** Decimal digits with single underscores between them. *)
Fixpoint digits_acc (s : string) (acc : Z) (after_digit : bool) : option Z :=
  match s with
  | EmptyString => if after_digit then Some acc else None
  | String c s' =>
      if is_digit c then digits_acc s' (10 * acc + digit_value c) true
      else if is_char "_" c && after_digit then digits_acc s' acc false
      else None
  end.

(** The white space [int] skips around the digits of an ASCII text:
    tab, line feed, vertical tab, form feed, carriage return and space
    (not U+001C to U+001F, which [strip] removes). *)
Definition is_int_space (c : ascii) : bool :=
  let n := nat_of_ascii c in ((9 <=? n) && (n <=? 13) || (n =? 32))%nat.

(** The number of decimal digits up to which an interpreter with the
    default setting ([sys.int_info.default_max_str_digits]) converts
    between [int] and [str]; beyond it the conversion raises
    [ValueError]. *)
Definition INT_MAX_STR_DIGITS : nat := 4300.

(** The number of digits in a text, leading zeros included. *)
Fixpoint digit_count (s : string) : nat :=
  match s with
  | EmptyString => 0
  | String c s' => (if is_digit c then 1 else 0) + digit_count s'
  end%nat.

(** [int(s)] for a [str] of ASCII characters: white space around an
    optional sign and at most [INT_MAX_STR_DIGITS] digits. [None] is
    [ValueError]. The decimal digits of other scripts, which [int] also
    reads, are left out. *)
Definition int_of_str (s : string) : option Z :=
  let text := strip_by is_int_space s in
  if (INT_MAX_STR_DIGITS <? digit_count text)%nat then None
  else
    match text with
    | String "-" body => Z.opp <$> digits_acc body 0 false
    | String "+" body => digits_acc body 0 false
    | body => digits_acc body 0 false
    end.

Definition py_int (v : pyval) : outcome Z :=
  match v with
  | PInt n => Return n
  | PBool b => Return (if b then 1 else 0)
  | PFloat (FFinite q) => Return (Z.quot (Qnum q) (Z.pos (Qden q)))
  | PFloat (FInf _) => Raise OverflowError
  | PFloat FNan => Raise ValueError
  | PStr s =>
      match int_of_str s with
      | Some n => Return n
      | None => Raise ValueError
      end
  | PNone | PList _ | PDict _ => Raise TypeError
  end.

Definition decimal (n : N) : string :=
  DecimalString.NilZero.string_of_uint (N.to_uint n).

(** Walks the digits from the least significant one and puts a comma
    before every fourth. *)
Fixpoint commas (rev_digits : list ascii) (i : nat) : list ascii :=
  match rev_digits with
  | [] => []
  | d :: r =>
      if (i =? 3)%nat then "," :: d :: commas r 1
      else d :: commas r (S i)
  end%char.

(** [f"{n:,}"]. *)
Definition format_grouped (n : Z) : string :=
  let digits := list_ascii_of_string (decimal (Z.abs_N n)) in
  let body := string_of_list_ascii (rev (commas (rev digits) 0)) in
  if (n <? 0)%Z then String "-" body else body.

(** The text of [str(n)] for an [int]. *)
Definition str_of_int (n : Z) : string :=
  if (n <? 0)%Z then String "-" (decimal (Z.abs_N n)) else decimal (Z.abs_N n).

(** Whether [n] has at most [INT_MAX_STR_DIGITS] digits: [str(n)],
    [repr(n)] and the formats of [n] raise [ValueError] otherwise. *)
Definition str_digits_ok (n : Z) : bool :=
  (String.length (decimal (Z.abs_N n)) <=? INT_MAX_STR_DIGITS)%nat.

(** Whether every [int] in a value, at any depth, has at most
    [INT_MAX_STR_DIGITS] digits. *)
Fixpoint ints_in_range (v : pyval) : bool :=
  match v with
  | PInt n => str_digits_ok n
  | PList l => forallb ints_in_range l
  | PDict d => forallb (fun item => ints_in_range (snd item)) d
  | PNone | PBool _ | PFloat _ | PStr _ => true
  end.

End Py.

(** ** Part III: [scraper.py] *)

Module Scraper.

Import Py.
Local Open Scope string_scope.

(** *** The outside world *)

(** What the scraper reads of an [httpx] response: [status_code],
    [text] and [str(response.url)]. *)
Record response := mk_response {
  status_code : Z;
  text : string;
  final_url : string
}.

(** The network and the libraries. Each field answers one call of the
    source; an answer is a value or a raised exception. *)
Record world := mk_world {
  (** the module flag set by [import yt_dlp] *)
  HAS_YTDLP : bool;
  (** [client.get(url)], [client.head(url)], [client.post(url, data=...)] *)
  client_get : string -> outcome response;
  client_head : string -> outcome response;
  client_post : string -> list (string * pyval) -> outcome response;
  (** [ydl.extract_info(url, download=False)] *)
  extract_info : string -> outcome pyval;
  (** [json.loads(s)], also behind [response.json()] *)
  json_loads : string -> outcome pyval;
  (** [datetime.fromtimestamp(n, tz=timezone.utc).strftime("%d %b %Y %H:%M UTC")] *)
  utc_strftime : Z -> outcome string;
  (** [str(v)] of a float, a list or a dict *)
  py_repr : pyval -> string
}.

(** An outbound call. *)
Inductive call :=
  | CallHead (url : string)
  | CallYtdlp (url : string)
  | CallGet (url : string)
  | CallPost (url : string) (data : list (string * pyval)).

(** A computation that talks to the world: its outcome and the calls it
    made, in order. *)
Definition io (A : Type) : Type := outcome A * list call.

Definition io_ret {A} (a : A) : io A := (Return a, []).

Definition io_bind {A B} (m : io A) (k : A -> io B) : io B :=
  match m with
  | (Return a, made) => let '(r, more) := k a in (r, (made ++ more)%list)
  | (Raise e, made) => (Raise e, made)
  end.

(** A step that makes no call. *)
Definition pure {A} (o : outcome A) : io A := (o, []).

(** One call and its answer. *)
Definition perform {A} (c : call) (answer : outcome A) : io A := (answer, [c]).

(** [try: body / except Exception: handler]. *)
Definition try_except {A} (body handler : io A) : io A :=
  match body with
  | (Return a, made) => (Return a, made)
  | (Raise _, made) => let '(r, more) := handler in (r, (made ++ more)%list)
  end.

Notation "x <- m ;; k" := (io_bind m (fun x => k))
  (at level 100, m at next level, right associativity).

(** *** The two patterns given to [re.search] *)

Definition REHYDRATION_TAG : string :=
  "<script id=" +:+ dquote +:+ "__UNIVERSAL_DATA_FOR_REHYDRATION__" +:+ dquote.

(** The pattern at the start of [s]: the tag, [[^>]*], [>], then the
    shortest text up to [</script>]. *)
Definition rehydration_here (s : string) : option string :=
  if String.prefix REHYDRATION_TAG s then
    let rest := drop_chars (String.length REHYDRATION_TAG) s in
    let attrs := take_while (fun c => negb (is_char ">" c)) rest in
    match drop_chars (String.length attrs) rest with
    | String ">" body => fst <$> find_sub "</script>" body
    | _ => None
    end
  else None.

(** [re.search(r'<script id="__UNIVERSAL_DATA_FOR_REHYDRATION__"[^>]*>(.*?)</script>',
    html, re.DOTALL)], giving [match.group(1)]: the match at the
    leftmost position that has one. *)
Fixpoint search_rehydration (html : string) : option string :=
  match rehydration_here html with
  | Some group1 => Some group1
  | None =>
      match html with
      | EmptyString => None
      | String _ html' => search_rehydration html'
      end
  end.

Definition segment_char (c : ascii) : bool :=
  negb (is_char "/" c || is_char "?" c).

(** The pattern [tiktok\.com/@([^/?]+)] at the start of [s]. *)
Definition profile_here (s : string) : option string :=
  if String.prefix "tiktok.com/@" s then
    match take_while segment_char (drop_chars 12 s) with
    | EmptyString => None
    | group1 => Some group1
    end
  else None.

(** [re.search(r'tiktok\.com/@([^/?]+)', username)], giving
    [match.group(1)]. *)
Fixpoint search_profile (username : string) : option string :=
  match profile_here username with
  | Some group1 => Some group1
  | None =>
      match username with
      | EmptyString => None
      | String _ username' => search_profile username'
      end
  end.

(** *** Normalisation helpers *)

Definition REGION_MAP : list (string * string) := [
    ("US", "United States 🇺🇸"); ("GB", "United Kingdom 🇬🇧");
    ("CA", "Canada 🇨🇦"); ("AU", "Australia 🇦🇺");
    ("DE", "Germany 🇩🇪"); ("FR", "France 🇫🇷");
    ("SA", "Saudi Arabia 🇸🇦"); ("AE", "UAE 🇦🇪");
    ("EG", "Egypt 🇪🇬"); ("KW", "Kuwait 🇰🇼");
    ("QA", "Qatar 🇶🇦"); ("BH", "Bahrain 🇧🇭");
    ("OM", "Oman 🇴🇲"); ("JO", "Jordan 🇯🇴");
    ("IQ", "Iraq 🇮🇶"); ("LB", "Lebanon 🇱🇧");
    ("MA", "Morocco 🇲🇦"); ("DZ", "Algeria 🇩🇿");
    ("TN", "Tunisia 🇹🇳"); ("LY", "Libya 🇱🇾");
    ("SD", "Sudan 🇸🇩"); ("YE", "Yemen 🇾🇪");
    ("PS", "Palestine 🇵🇸"); ("SY", "Syria 🇸🇾");
    ("TR", "Turkey 🇹🇷"); ("IN", "India 🇮🇳");
    ("BR", "Brazil 🇧🇷"); ("MX", "Mexico 🇲🇽");
    ("JP", "Japan 🇯🇵"); ("KR", "South Korea 🇰🇷");
    ("ID", "Indonesia 🇮🇩"); ("PH", "Philippines 🇵🇭");
    ("TH", "Thailand 🇹🇭"); ("VN", "Vietnam 🇻🇳");
    ("MY", "Malaysia 🇲🇾"); ("PK", "Pakistan 🇵🇰");
    ("RU", "Russia 🇷🇺"); ("IT", "Italy 🇮🇹");
    ("ES", "Spain 🇪🇸"); ("NL", "Netherlands 🇳🇱");
    ("PL", "Poland 🇵🇱"); ("SE", "Sweden 🇸🇪");
    ("NG", "Nigeria 🇳🇬"); ("ZA", "South Africa 🇿🇦");
    ("CO", "Colombia 🇨🇴"); ("AR", "Argentina 🇦🇷");
    ("CL", "Chile 🇨🇱"); ("PE", "Peru 🇵🇪")
  ].

Definition LANG_MAP : list (string * string) := [
    ("en", "English 🇺🇸"); ("ar", "العربية 🇸🇦");
    ("fr", "Français 🇫🇷"); ("de", "Deutsch 🇩🇪");
    ("es", "Español 🇪🇸"); ("pt", "Português 🇧🇷");
    ("ja", "日本語 🇯🇵"); ("ko", "한국어 🇰🇷");
    ("zh", "中文 🇨🇳"); ("hi", "हिन्दी 🇮🇳");
    ("tr", "Türkçe 🇹🇷"); ("ru", "Русский 🇷🇺");
    ("id", "Bahasa Indonesia 🇮🇩"); ("th", "ไทย 🇹🇭");
    ("vi", "Tiếng Việt 🇻🇳"); ("it", "Italiano 🇮🇹");
    ("nl", "Nederlands 🇳🇱"); ("pl", "Polski 🇵🇱");
    ("ms", "Bahasa Melayu 🇲🇾"); ("tl", "Filipino 🇵🇭");
    ("ur", "اردو 🇵🇰"); ("fa", "فارسی 🇮🇷")
  ].

(** [_resolve_region(region, language)]; [language] is not read. *)
Definition _resolve_region (region language : pyval) : outcome string :=
  if truthy region then
    code <~ py_upper region ;;
    match lookup_key code REGION_MAP with
    | Some label => Return label
    | None => Return code
    end
  else Return "N/A".

(** [_lang_code_to_name(code)]: [LANG_MAP.get(code.lower(), code)]. *)
Definition _lang_code_to_name (code : pyval) : outcome pyval :=
  if negb (truthy code) then Return (PStr "N/A")
  else
    key <~ py_lower code ;;
    Return (default code (PStr <$> lookup_key key LANG_MAP)).

(** Line 60 of [get_user_by_username]:
    [username.strip().lstrip("@").strip("/")]. *)
Definition clean_username (username : string) : string :=
  strip_char "/" (lstrip_char "@" (strip username)).

(** The text holds [tiktok.com/@] followed by a character other than
    [/] and [?]: a username segment for the pattern to extract. *)
Definition has_username_segment (s : string) : Prop :=
  exists before c after,
    s = before +:+ "tiktok.com/@" +:+ String c after /\ segment_char c = true.

(** The strategy an outbound call belongs to, numbered as in the source
    comments ([# Method 1] to [# Method 3]); the redirect lookup of a
    short link belongs to none. *)
Definition strategy_of (c : call) : option nat :=
  match c with
  | CallHead _ => None
  | CallYtdlp _ => Some 1%nat
  | CallGet _ => Some 2%nat
  | CallPost _ _ => Some 3%nat
  end.

Definition strategies (made : list call) : list nat := omap strategy_of made.

(** The keys of the record [_format_user] builds, in order. *)
Definition record_keys : list string := [
  "error"; "username"; "nickname"; "user_id"; "bio"; "verified"; "private";
  "followers"; "following"; "likes"; "videos"; "friends"; "digg"; "created";
  "region"; "language"; "bio_link"; "profile_pic"; "profile_link";
  "raw_user"; "raw_stats"
].

(** No item of the dict is [None]. *)
Definition no_null (d : list (string * pyval)) : Prop :=
  Forall (fun item => snd item <> PNone) d.

(** The language of the payload, where it has one, is a string. *)
Definition language_is_text (user : list (string * pyval)) : Prop :=
  forall v, lookup_key "language" user = Some v ->
            truthy v = true -> exists s, v = PStr s.

(** The keys of [user] whose values [_format_user] puts into the
    record as they are. *)
Definition copied_keys : list string :=
  ["uniqueId"; "nickname"; "verified"; "privateAccount"; "avatarLarger"].

(** None of the copied fields is [None]. *)
Definition copied_not_null (user : list (string * pyval)) : Prop :=
  forall k, k ∈ copied_keys -> lookup_key k user <> Some PNone.

(** The keys of [stats] that [_format_user] reads. *)
Definition counter_keys : list string :=
  ["friendCount"; "diggCount"; "followerCount"; "followingCount";
   "heartCount"; "videoCount"].

(** No counter of the payload is an infinite float. *)
Definition counters_finite (stats : list (string * pyval)) : Prop :=
  forall k negative,
    k ∈ counter_keys -> lookup_key k stats <> Some (PFloat (FInf negative)).

(** The keys of [user] whose values [_format_user] turns into text, by
    [str] or inside an f-string. *)
Definition text_keys : list string := ["id"; "uniqueId"].

(** The values that [_format_user] turns into text, those two and the
    counters, hold no [int] of more than [INT_MAX_STR_DIGITS] digits. *)
Definition ints_within_limit (user stats : list (string * pyval)) : Prop :=
  (forall k v, k ∈ text_keys -> lookup_key k user = Some v ->
               ints_in_range v = true) /\
  (forall k v, k ∈ counter_keys -> lookup_key k stats = Some v ->
               ints_in_range v = true).

Section WithWorld.

Variable w : world.

(** [str(v)]. *)
Definition py_str (v : pyval) : string :=
  match v with
  | PNone => "None"
  | PBool b => if b then "True" else "False"
  | PInt n => str_of_int n
  | PStr s => s
  | PFloat _ | PList _ | PDict _ => py_repr w v
  end.

(** [str(v)] and [f"{v}"] as statements that can fail: [ValueError]
    where [v] is, or holds, an [int] of more than [INT_MAX_STR_DIGITS]
    digits. *)
Definition py_str_checked (v : pyval) : outcome string :=
  if ints_in_range v then Return (py_str v) else Raise ValueError.

(** [_format_number(num)]: [f"{int(num):,}"], or [str(num)] on
    [ValueError] and [TypeError]. The format itself raises [ValueError]
    on more than [INT_MAX_STR_DIGITS] digits, and the handler runs. *)
Definition _format_number (num : pyval) : outcome string :=
  match py_int num with
  | Return n =>
      if str_digits_ok n then Return (format_grouped n)
      else py_str_checked num
  | Raise ValueError | Raise TypeError => py_str_checked num
  | Raise e => Raise e
  end.

(** The [created_str] block of [_format_user]. *)
Definition created_of (create_time : pyval) : outcome string :=
  if truthy create_time then
    match (n <~ py_int create_time ;; utc_strftime w n) with
    | Return s => Return s
    | Raise ValueError | Raise OSError => Return "N/A"
    | Raise e => Raise e
    end
  else Return "N/A".

(** The [bio_link] block of [_format_user]. *)
Definition bio_link_of (bio_link_data : pyval) : outcome pyval :=
  match bio_link_data with
  | PDict _ => py_get bio_link_data "link" (PStr EmptyString)
  | PStr _ => Return bio_link_data
  | _ => Return (PStr EmptyString)
  end.

(** [_format_user(user, stats)]. *)
Definition _format_user (user stats : pyval) : outcome pyval :=
  create_time <~ py_get user "createTime" (PInt 0) ;;
  created_str <~ created_of create_time ;;
  region_raw <~ py_get user "region" PNone ;;
  let region := py_or region_raw PNone in
  language_raw <~ py_get user "language" PNone ;;
  let language := py_or language_raw PNone in
  region_display <~ _resolve_region region language ;;
  bio_link_data <~ py_get user "bioLink" PNone ;;
  bio_link <~ bio_link_of bio_link_data ;;
  friend_count <~ py_get stats "friendCount" (PInt 0) ;;
  friends <~ _format_number friend_count ;;
  digg_count <~ py_get stats "diggCount" (PInt 0) ;;
  digg <~ _format_number digg_count ;;
  username <~ py_get user "uniqueId" (PStr "N/A") ;;
  nickname <~ py_get user "nickname" (PStr "N/A") ;;
  user_id <~ py_get user "id" (PStr "N/A") ;;
  user_id_text <~ py_str_checked user_id ;;
  signature <~ py_get user "signature" (PStr "N/A") ;;
  verified <~ py_get user "verified" (PBool false) ;;
  private <~ py_get user "privateAccount" (PBool false) ;;
  follower_count <~ py_get stats "followerCount" (PInt 0) ;;
  followers <~ _format_number follower_count ;;
  following_count <~ py_get stats "followingCount" (PInt 0) ;;
  following <~ _format_number following_count ;;
  heart_count <~ py_get stats "heartCount" (PInt 0) ;;
  likes <~ _format_number heart_count ;;
  video_count <~ py_get stats "videoCount" (PInt 0) ;;
  videos <~ _format_number video_count ;;
  language_name <~ _lang_code_to_name language ;;
  profile_pic <~ py_get user "avatarLarger" (PStr EmptyString) ;;
  link_id <~ py_get user "uniqueId" (PStr EmptyString) ;;
  link_text <~ py_str_checked link_id ;;
  Return (PDict [
    ("error", PBool false);
    ("username", username);
    ("nickname", nickname);
    ("user_id", PStr user_id_text);
    ("bio", py_or signature (PStr "N/A"));
    ("verified", verified);
    ("private", private);
    ("followers", PStr followers);
    ("following", PStr following);
    ("likes", PStr likes);
    ("videos", PStr videos);
    ("friends", PStr friends);
    ("digg", PStr digg);
    ("created", PStr created_str);
    ("region", PStr region_display);
    ("language", language_name);
    ("bio_link", py_or bio_link (PStr "N/A"));
    ("profile_pic", profile_pic);
    ("profile_link", PStr ("https://www.tiktok.com/@" +:+ link_text));
    ("raw_user", user);
    ("raw_stats", stats)
  ]).

(** The failure result [{"error": True}]. *)
Definition error_result : pyval := PDict [("error", PBool true)].

(** The steps of [_scrape_tiktok_page] after [json.loads]. *)
Definition user_info_of (data : pyval) : outcome pyval :=
  scope <~ py_get data "__DEFAULT_SCOPE__" (PDict []) ;;
  user_detail <~ py_get scope "webapp.user-detail" (PDict []) ;;
  user_info <~ py_get user_detail "userInfo" PNone ;;
  status <~ py_get user_detail "statusCode" PNone ;;
  if negb (truthy user_info) || negb (py_eq_int status 0) then Return PNone
  else Return user_info.

(** [_scrape_tiktok_page(url)]. *)
Definition _scrape_tiktok_page (url : string) : io pyval :=
  try_except
    (response <- perform (CallGet url) (client_get w url) ;;
     if negb (status_code response =? 200)%Z then io_ret PNone
     else
       let html := text response in
       match search_rehydration html with
       | None => io_ret PNone
       | Some group1 =>
           pure (data <~ json_loads w group1 ;; user_info_of data)
       end)
    (io_ret PNone).

(** Lines 60-71 of [get_user_by_username]: the name to look up, or
    [None] where the source returns the failure result at once. *)
Definition normalize_username (username : string) : option string :=
  let username := clean_username username in
  if contains "tiktok.com" username then
    match search_profile username with
    | Some group1 => Some (lstrip_char "@" group1)
    | None => None
    end
  else Some (lstrip_char "@" username).

Definition profile_page (username : string) : string :=
  "https://www.tiktok.com/@" +:+ username.

(** [get_user_by_username(username)]. *)
Definition get_user_by_username (username : string) : io pyval :=
  match normalize_username username with
  | None => io_ret error_result
  | Some username =>
      user_info <- _scrape_tiktok_page (profile_page username) ;;
      if negb (truthy user_info) then io_ret error_result
      else
        pure (user <~ py_get user_info "user" (PDict []) ;;
              stats <~ py_get user_info "stats" (PDict []) ;;
              _format_user user stats)
  end.

(** *** Video download *)

Definition TIKWM_API : string := "https://www.tikwm.com/api".

(** The loop of [_ytdlp_download] over [reversed(info["formats"])]:
    [video_url] is [fmt["url"]] of the first [fmt] whose [url] is
    truthy, and keeps its value when there is none. *)
Fixpoint first_format_url (formats : list pyval) (video_url : pyval)
    : outcome pyval :=
  match formats with
  | [] => Return video_url
  | fmt :: formats =>
      url <~ py_get fmt "url" PNone ;;
      if truthy url then py_index fmt "url"
      else first_format_url formats video_url
  end.

(** [reversed(v)] as the loop consumes it: a list gives its items; the
    items of a dict or a str are strings, on which [fmt.get] raises;
    other values are not reversible. *)
Definition scan_formats (formats video_url : pyval) : outcome pyval :=
  match formats with
  | PList l => first_format_url (rev l) video_url
  | PDict _ | PStr _ => Raise AttributeError
  | _ => Raise TypeError
  end.

(** The body of [_ytdlp_download] under [try], from [if info:] on. *)
Definition ytdlp_result (info : pyval) : outcome pyval :=
  if truthy info then
    video_url <~ py_get info "url" PNone ;;
    formats <~ py_get info "formats" PNone ;;
    video_url <~
      (if negb (truthy video_url) && truthy formats then
         formats <~ py_index info "formats" ;;
         scan_formats formats video_url
       else Return video_url) ;;
    if truthy video_url then
      title <~ py_get info "title" (PStr EmptyString) ;;
      author <~ py_get info "uploader" (PStr EmptyString) ;;
      duration <~ py_get info "duration" (PInt 0) ;;
      cover <~ py_get info "thumbnail" PNone ;;
      Return (PDict [
        ("error", PBool false);
        ("video_url", video_url);
        ("music_url", PNone);
        ("title", title);
        ("author", author);
        ("duration", duration);
        ("cover", cover)
      ])
    else Return PNone
  else Return PNone.

(** [_ytdlp_download(url)]. *)
Definition _ytdlp_download (url : string) : io pyval :=
  try_except
    (info <- perform (CallYtdlp url) (extract_info w url) ;;
     pure (ytdlp_result info))
    (io_ret PNone).

(** The short-link step of [get_video_no_watermark]: the url the
    methods work on. *)
Definition resolve_short_link (url : string) : io string :=
  if contains "vm.tiktok.com" url || contains "vt.tiktok.com" url then
    try_except
      (response <- perform (CallHead url) (client_head w url) ;;
       io_ret (final_url response))
      (io_ret url)
  else io_ret url.

(** Each method is a block of [get_video_no_watermark] under its own
    [try]: [Some result] where the block returns from the function,
    [None] where control falls through to the next block. *)

(** Method 1: yt-dlp. *)
Definition method_ytdlp (url : string) : io (option pyval) :=
  if HAS_YTDLP w then
    try_except
      (result <- _ytdlp_download url ;;
       if truthy result then
         pure (error <~ py_get result "error" PNone ;;
               Return (if negb (truthy error) then Some result else None))
       else io_ret None)
      (io_ret None)
  else io_ret None.

(** What Method 2 makes of the decoded page payload. *)
Definition page_result (data : pyval) : outcome (option pyval) :=
  scope <~ py_get data "__DEFAULT_SCOPE__" (PDict []) ;;
  item_detail <~ py_get scope "webapp.video-detail" (PDict []) ;;
  item_info0 <~ py_get item_detail "itemInfo" (PDict []) ;;
  item_info <~ py_get item_info0 "itemStruct" (PDict []) ;;
  video <~ py_get item_info "video" (PDict []) ;;
  download_addr <~ py_get video "downloadAddr" PNone ;;
  play_addr <~ py_get video "playAddr" PNone ;;
  let download_url := py_or download_addr play_addr in
  if truthy download_url then
    music <~ py_get item_info "music" (PDict []) ;;
    music_url <~ py_get music "playUrl" PNone ;;
    title <~ py_get item_info "desc" (PStr EmptyString) ;;
    author0 <~ py_get item_info "author" (PDict []) ;;
    author <~ py_get author0 "uniqueId" (PStr EmptyString) ;;
    duration <~ py_get video "duration" (PInt 0) ;;
    cover <~ py_get video "cover" PNone ;;
    Return (Some (PDict [
      ("error", PBool false);
      ("video_url", download_url);
      ("music_url", music_url);
      ("title", title);
      ("author", author);
      ("duration", duration);
      ("cover", cover)
    ]))
  else Return None.

(** Method 2: direct page scraping. *)
Definition method_page (url : string) : io (option pyval) :=
  try_except
    (response <- perform (CallGet url) (client_get w url) ;;
     let html := text response in
     match search_rehydration html with
     | Some group1 =>
         pure (data <~ json_loads w group1 ;; page_result data)
     | None => io_ret None
     end)
    (io_ret None).

(** What Method 3 makes of [response.json()]. *)
Definition tikwm_result (data : pyval) : outcome (option pyval) :=
  code <~ py_get data "code" PNone ;;
  payload <~ py_get data "data" PNone ;;
  if py_eq_int code 0 && truthy payload then
    video_data <~ py_index data "data" ;;
    hdplay <~ py_get video_data "hdplay" PNone ;;
    play <~ py_get video_data "play" PNone ;;
    music <~ py_get video_data "music" PNone ;;
    title <~ py_get video_data "title" (PStr EmptyString) ;;
    author0 <~ py_get video_data "author" (PDict []) ;;
    author <~ py_get author0 "unique_id" (PStr EmptyString) ;;
    duration <~ py_get video_data "duration" (PInt 0) ;;
    cover <~ py_get video_data "cover" PNone ;;
    Return (Some (PDict [
      ("error", PBool false);
      ("video_url", py_or hdplay play);
      ("music_url", music);
      ("title", title);
      ("author", author);
      ("duration", duration);
      ("cover", cover)
    ]))
  else Return None.

Definition tikwm_form (url : string) : list (string * pyval) :=
  [("url", PStr url); ("hd", PInt 1)].

(** Method 3: the tikwm API. *)
Definition method_tikwm (url : string) : io (option pyval) :=
  try_except
    (response <- perform (CallPost (TIKWM_API +:+ "/") (tikwm_form url))
                   (client_post w (TIKWM_API +:+ "/") (tikwm_form url)) ;;
     pure (data <~ json_loads w (text response) ;; tikwm_result data))
    (io_ret None).

(** The three blocks in the order of the source, from the first one on
    that is still to run. *)
Definition methods_from_page (url : string) : io pyval :=
  r2 <- method_page url ;;
  match r2 with
  | Some result => io_ret result
  | None =>
      r3 <- method_tikwm url ;;
      match r3 with
      | Some result => io_ret result
      | None => io_ret error_result
      end
  end.

(** [get_video_no_watermark(url)]. *)
Definition get_video_no_watermark (url : string) : io pyval :=
  url <- resolve_short_link (strip url) ;;
  r1 <- method_ytdlp url ;;
  match r1 with
  | Some result => io_ret result
  | None => methods_from_page url
  end.

(** *** Vocabulary of the properties *)

(** The block of strategy [k]. *)
Definition method (k : nat) (url : string) : io (option pyval) :=
  match k with
  | 1%nat => method_ytdlp url
  | 2%nat => method_page url
  | 3%nat => method_tikwm url
  | _ => io_ret None
  end.

(** Strategy [k] succeeds on [url]: its block returns a result. *)
Definition succeeds (k : nat) (url : string) : bool :=
  match fst (method k url) with
  | Return (Some _) => true
  | _ => false
  end.

(** The url the strategies are given: the stripped input, or the
    target of the redirect when the input is a short link. *)
Definition working_url (url : string) : string :=
  match fst (resolve_short_link (strip url)) with
  | Return resolved => resolved
  | Raise _ => strip url
  end.

(** The status field [_scrape_tiktok_page] checks in a decoded
    payload. *)
Definition status_code_field (data : pyval) : outcome pyval :=
  scope <~ py_get data "__DEFAULT_SCOPE__" (PDict []) ;;
  user_detail <~ py_get scope "webapp.user-detail" (PDict []) ;;
  py_get user_detail "statusCode" PNone.

(** The ways the profile page at [url] can fail upstream. *)
Inductive page_failure (url : string) : Prop :=
  | network_error e :
      client_get w url = Raise e -> page_failure url
  | not_200 r :
      client_get w url = Return r -> status_code r <> 200%Z -> page_failure url
  | script_tag_missing r :
      client_get w url = Return r ->
      search_rehydration (text r) = None -> page_failure url
  | payload_unparsable r group1 e :
      client_get w url = Return r ->
      search_rehydration (text r) = Some group1 ->
      json_loads w group1 = Raise e -> page_failure url
  | status_not_zero r group1 data status :
      client_get w url = Return r ->
      search_rehydration (text r) = Some group1 ->
      json_loads w group1 = Return data ->
      status_code_field data = Return status ->
      py_eq_int status 0 = false -> page_failure url.

End WithWorld.

End Scraper.

(** ** Part III': sample worlds and payloads *)

Module Samples.

Import Py Scraper.
Local Open Scope string_scope.

Definition sample_video_url : string := "https://www.tiktok.com/@u/video/1".

(** No network and no yt-dlp: every call raises. *)
Definition offline : world := {|
  HAS_YTDLP := false;
  client_get := fun _ => Raise LibraryError;
  client_head := fun _ => Raise LibraryError;
  client_post := fun _ _ => Raise LibraryError;
  extract_info := fun _ => Raise LibraryError;
  json_loads := fun _ => Raise ValueError;
  utc_strftime := fun _ => Raise OSError;
  py_repr := fun _ => EmptyString
|}.

(** The body [{"code": 0, "data": {"title": "clip"}}] and its decoding. *)
Definition tikwm_body : string :=
  "{" +:+ dquote +:+ "code" +:+ dquote +:+ ": 0, " +:+
  dquote +:+ "data" +:+ dquote +:+ ": {" +:+
  dquote +:+ "title" +:+ dquote +:+ ": " +:+ dquote +:+ "clip" +:+ dquote +:+ "}}".

Definition tikwm_payload : pyval :=
  PDict [("code", PInt 0); ("data", PDict [("title", PStr "clip")])].

(** yt-dlp raises, the video page carries no payload tag, and tikwm
    answers code 0 with data that has neither [hdplay] nor [play]. *)
Definition tikwm_without_play : world := {|
  HAS_YTDLP := true;
  client_get := fun url => Return (mk_response 200 "<html></html>" url);
  client_head := fun url => Return (mk_response 200 EmptyString url);
  client_post := fun url _ => Return (mk_response 200 tikwm_body url);
  extract_info := fun _ => Raise LibraryError;
  json_loads := fun s =>
    if String.eqb s tikwm_body then Return tikwm_payload else Raise ValueError;
  utc_strftime := fun _ => Raise OSError;
  py_repr := fun _ => EmptyString
|}.

(** yt-dlp answers with a direct media url. *)
Definition ytdlp_works : world := {|
  HAS_YTDLP := true;
  client_get := fun _ => Raise LibraryError;
  client_head := fun _ => Raise LibraryError;
  client_post := fun _ _ => Raise LibraryError;
  extract_info := fun _ =>
    Return (PDict [("url", PStr "https://cdn.example/v.mp4");
                   ("title", PStr "clip")]);
  json_loads := fun _ => Raise ValueError;
  utc_strftime := fun _ => Raise OSError;
  py_repr := fun _ => EmptyString
|}.

(** Every page is served with status 200 and no payload tag. *)
Definition plain_pages : world := {|
  HAS_YTDLP := false;
  client_get := fun url => Return (mk_response 200 "<html></html>" url);
  client_head := fun url => Return (mk_response 200 EmptyString url);
  client_post := fun _ _ => Raise LibraryError;
  extract_info := fun _ => Raise LibraryError;
  json_loads := fun _ => Raise ValueError;
  utc_strftime := fun _ => Raise OSError;
  py_repr := fun _ => EmptyString
|}.

(** The payload with [createTime = 0], [followerCount = 0] and no
    region. *)
Definition bare_user : list (string * pyval) := [("createTime", PInt 0)].
Definition bare_stats : list (string * pyval) := [("followerCount", PInt 0)].

(** A payload that carries [null] for the region, the bio, the bio
    link, the language and the id, and for one counter. *)
Definition null_user : list (string * pyval) :=
  [("uniqueId", PStr "alice"); ("createTime", PInt 0); ("region", PNone);
   ("signature", PNone); ("bioLink", PNone); ("language", PNone);
   ("id", PNone)].

Definition null_stats : list (string * pyval) :=
  [("followerCount", PInt 0); ("heartCount", PNone)].

End Samples.

(** ** Part III-a: runs of the rate limiter *)

Module RateLimitRuns.

Import RateLimit.

(** The number of calls let through among the verdicts. *)
Fixpoint allowed_count (vs : list verdict) : nat :=
  match vs with
  | [] => 0
  | v :: vs => (if is_limited v then 0 else 1) + allowed_count vs
  end%nat.

(** Calls of several users, each a clock reading and a user id, in the
    order they reach [check_rate_limit]. *)
Fixpoint run (events : list (Z * Z)) (rate_limit : gmap Z user_data)
    : list (Z * verdict) * gmap Z user_data :=
  match events with
  | [] => ([], rate_limit)
  | (t, user_id) :: events =>
      let '(v, rate_limit) := check_rate_limit t user_id rate_limit in
      let '(vs, rate_limit) := run events rate_limit in
      ((user_id, v) :: vs, rate_limit)
  end.

(** The verdicts [run] gave to one user, and the clock readings of that
    user's calls. *)
Definition verdicts_of (user_id : Z) (vs : list (Z * verdict)) : list verdict :=
  snd <$> filter (fun uv => fst uv = user_id) vs.

Definition times_of (user_id : Z) (events : list (Z * Z)) : list Z :=
  fst <$> filter (fun tu => snd tu = user_id) events.

(** States produced from the empty dictionary by calls whose clock
    readings are all at most [T]. *)
Inductive reachable_by (T : Z) : gmap Z user_data -> Prop :=
  | reachable_by_empty : reachable_by T ∅
  | reachable_by_call t u m :
      t <= T -> reachable_by T m ->
      reachable_by T (snd (check_rate_limit t u m)).

End RateLimitRuns.

(** ** Part III-b: the lookup by id of [scraper.py] *)

Module ScraperById.

Import Py Scraper.
Local Open Scope string_scope.

Section WithWorld.

Variable w : world.

(** What [get_user_by_id] makes of [response.json()] under its [try]:
    [Some record] where the block returns from the function. *)
Definition tikwm_user (data : pyval) : outcome (option pyval) :=
  code <~ py_get data "code" PNone ;;
  payload <~ py_get data "data" PNone ;;
  if py_eq_int code 0 && truthy payload then
    for_user <~ py_index data "data" ;;
    user <~ py_index for_user "user" ;;
    for_stats <~ py_index data "data" ;;
    stats <~ py_index for_stats "stats" ;;
    record <~ _format_user w user stats ;;
    Return (Some record)
  else Return None.

Definition user_info_form (user_id : string) : list (string * pyval) :=
  [("user_id", PStr user_id)].

(** The tikwm block of [get_user_by_id], on the stripped id. *)
Definition lookup_by_api (user_id : string) : io (option pyval) :=
  try_except
    (response <- perform (CallPost (TIKWM_API +:+ "/user/info") (user_info_form user_id))
                   (client_post w (TIKWM_API +:+ "/user/info") (user_info_form user_id)) ;;
     pure (data <~ json_loads w (text response) ;; tikwm_user data))
    (io_ret None).

(** The page block of [get_user_by_id], on the stripped id. *)
Definition lookup_by_page (user_id : string) : io pyval :=
  user_info <- _scrape_tiktok_page w (profile_page user_id) ;;
  if truthy user_info then
    pure (user <~ py_get user_info "user" (PDict []) ;;
          stats <~ py_get user_info "stats" (PDict []) ;;
          _format_user w user stats)
  else io_ret error_result.

(** [get_user_by_id(user_id)]. *)
Definition get_user_by_id (user_id : string) : io pyval :=
  let user_id := strip user_id in
  r <- lookup_by_api user_id ;;
  match r with
  | Some record => io_ret record
  | None => lookup_by_page user_id
  end.


End WithWorld.

(** The text without the occurrences of one character. *)
Fixpoint without_char (x : ascii) (s : string) : string :=
  match s with
  | EmptyString => EmptyString
  | String c s' =>
      if is_char x c then without_char x s' else String c (without_char x s')
  end.

(** The keys of a video result, in order. *)
Definition video_keys : list string :=
  ["error"; "video_url"; "music_url"; "title"; "author"; "duration"; "cover"].

(** A result of one of the three methods: the seven keys, with
    ["error": False]. *)
Definition is_video_record (result : pyval) : Prop :=
  exists fields,
    result = PDict fields /\ fst <$> fields = video_keys /\
    lookup_key "error" fields = Some (PBool false).

(** A profile page whose payload has status 0 and a [userInfo] that is
    the string ["x"]. *)
Definition odd_payload : pyval :=
  PDict [("__DEFAULT_SCOPE__",
          PDict [("webapp.user-detail",
                  PDict [("userInfo", PStr "x"); ("statusCode", PInt 0)])])].

Definition odd_user_info : world := {|
  HAS_YTDLP := false;
  client_get := fun url =>
    Return (mk_response 200 (REHYDRATION_TAG +:+ ">payload</script>") url);
  client_head := fun _ => Raise LibraryError;
  client_post := fun _ _ => Raise LibraryError;
  extract_info := fun _ => Raise LibraryError;
  json_loads := fun _ => Return odd_payload;
  utc_strftime := fun _ => Raise OSError;
  py_repr := fun _ => EmptyString
|}.

(** A profile page with a payload for user [alice], and a tikwm answer
    for the same user. *)
Definition alice_user : pyval :=
  PDict [("uniqueId", PStr "alice"); ("id", PStr "42"); ("region", PStr "sa")].

Definition alice_stats : pyval := PDict [("followerCount", PInt 1234567)].

Definition alice_payload : pyval :=
  PDict [("__DEFAULT_SCOPE__",
          PDict [("webapp.user-detail",
                  PDict [("userInfo",
                          PDict [("user", alice_user); ("stats", alice_stats)]);
                         ("statusCode", PInt 0)])]);
         ("code", PInt 0);
         ("data", PDict [("user", alice_user); ("stats", alice_stats)])].

Definition alice_online : world := {|
  HAS_YTDLP := false;
  client_get := fun url =>
    Return (mk_response 200 (REHYDRATION_TAG +:+ ">payload</script>") url);
  client_head := fun _ => Raise LibraryError;
  client_post := fun url _ => Return (mk_response 200 "payload" url);
  extract_info := fun _ => Raise LibraryError;
  json_loads := fun _ => Return alice_payload;
  utc_strftime := fun _ => Raise OSError;
  py_repr := fun _ => EmptyString
|}.

End ScraperById.

(** ** Part III-c: histories, favourites and messages of [bot.py] *)

Module Bot.

Import Py Scraper.
Local Open Scope string_scope.

(** *** Search history *)

(** One entry of [search_history[user_id]]:
    [{"username": ..., "time": ...}]. *)
Record history_entry := mk_history_entry {
  entry_username : string;
  entry_time : string
}.

#[global] Instance history_entry_eq_dec : EqDecision history_entry.
Proof. solve_decision. Defined.

(** [save_to_history(user_id, username)]; [now] is the text
    [datetime.now(timezone.utc).strftime("%Y-%m-%d %H:%M")]. *)
Definition save_to_history (now : string) (user_id : Z) (username : string)
    (search_history : gmap Z (list history_entry))
    : gmap Z (list history_entry) :=
  let search_history :=
    match search_history !! user_id with
    | None => <[user_id := []]> search_history
    | Some _ => search_history
    end in
  let entries := default [] (search_history !! user_id) in
  let entries := mk_history_entry username now :: entries in
  let search_history := <[user_id := entries]> search_history in
  if decide (20 < length entries)%nat
  then <[user_id := take 20 entries]> search_history
  else search_history.

(** What [history_command] lists: nothing where the user has no entry
    or an empty one, else [search_history[user_id][:10]]. *)
Definition history_shown (user_id : Z)
    (search_history : gmap Z (list history_entry))
    : option (list history_entry) :=
  match search_history !! user_id with
  | None | Some [] => None
  | Some entries => Some (take 10 entries)
  end.

(** Successive saves of one user, oldest first, each with its time
    text. *)
Fixpoint saves (items : list (string * string)) (user_id : Z)
    (search_history : gmap Z (list history_entry))
    : gmap Z (list history_entry) :=
  match items with
  | [] => search_history
  | (now, username) :: items =>
      saves items user_id (save_to_history now user_id username search_history)
  end.

(** The entries the saves add, oldest first. *)
Definition entries_of (items : list (string * string)) : list history_entry :=
  (fun item => mk_history_entry (snd item) (fst item)) <$> items.

(** *** Favourites *)

(** [username.lower() in [f.lower() for f in favorites[user_id]]]. *)
Definition fav_known (username : string) (fav_list : list string) : bool :=
  bool_decide (lower username ∈ lower <$> fav_list).

(** The add block (lines 490-496 and 831-837): the key of the message
    sent and the dictionary afterwards. *)
Definition fav_add (user_id : Z) (username : string)
    (favorites : gmap Z (list string)) : string * gmap Z (list string) :=
  let favorites :=
    match favorites !! user_id with
    | None => <[user_id := []]> favorites
    | Some _ => favorites
    end in
  let fav_list := default [] (favorites !! user_id) in
  if fav_known username fav_list then ("fav_exists", favorites)
  else ("fav_added", <[user_id := (fav_list ++ [username])%list]> favorites).

(** The remove block (lines 843-845). *)
Definition fav_remove (user_id : Z) (username : string)
    (favorites : gmap Z (list string)) : string * gmap Z (list string) :=
  ("fav_removed",
   match favorites !! user_id with
   | Some fav_list =>
       <[user_id := filter (fun f => lower f <> lower username) fav_list]> favorites
   | None => favorites
   end).

(** [s.split(maxsplit=n)]: words between runs of white space, the
    text after the [n]th word kept whole (less its leading white
    space). *)
Fixpoint split_ws (maxsplit : nat) (s : string) : list string :=
  match lstrip_by is_space s with
  | EmptyString => []
  | rest =>
      match maxsplit with
      | O => [rest]
      | S maxsplit =>
          let word := take_while (fun c => negb (is_space c)) rest in
          word :: split_ws maxsplit (drop_chars (String.length word) rest)
      end
  end.

(** What [fav_command] answers: a message key with its [username]
    argument, or the list to show. *)
Inductive fav_reply :=
  | FavMessage (key username : string)
  | FavEmpty
  | FavList (fav_list : list string).

(** [fav_command] on the message text: the reply and the dictionary
    afterwards. *)
Definition fav_command (text : string) (user_id : Z)
    (favorites : gmap Z (list string)) : fav_reply * gmap Z (list string) :=
  let args := split_ws 2 (strip text) in
  let show :=
    match favorites !! user_id with
    | None | Some [] => (FavEmpty, favorites)
    | Some fav_list => (FavList fav_list, favorites)
    end in
  match args with
  | [_; sub; name] =>
      if String.eqb (lower sub) "add" then
        let username := lstrip_char "@" name in
        let '(key, favorites) := fav_add user_id username favorites in
        (FavMessage key username, favorites)
      else if bool_decide (lower sub ∈ ["remove"; "del"; "rm"]) then
        let username := lstrip_char "@" name in
        let '(key, favorites) := fav_remove user_id username favorites in
        (FavMessage key username, favorites)
      else show
  | _ => show
  end.

(** Dictionaries produced from the empty one by the two blocks. *)
Inductive fav_reachable : gmap Z (list string) -> Prop :=
  | fav_reachable_empty : fav_reachable ∅
  | fav_reachable_add u name m :
      fav_reachable m -> fav_reachable (snd (fav_add u name m))
  | fav_reachable_remove u name m :
      fav_reachable m -> fav_reachable (snd (fav_remove u name m)).

(** *** Callback data *)

(** [s.split(":")]. *)
Fixpoint split_colon (s : string) : list string :=
  match s with
  | EmptyString => [EmptyString]
  | String c s' =>
      if is_char ":" c then EmptyString :: split_colon s'
      else match split_colon s' with
           | part :: parts => String c part :: parts
           | [] => [String c EmptyString]
           end
  end.

(** [s.split(":", 1)]. *)
Definition split_colon_once (s : string) : list string :=
  match find_sub ":" s with
  | Some (before, after) => [before; after]
  | None => [s]
  end.

(** The text up to the first colon. *)
Definition before_colon (s : string) : string :=
  take_while (fun c => negb (is_char ":" c)) s.

(** The branch of [callback_handler] that the callback data selects,
    with the arguments the branch decodes from the data. *)
Inductive route :=
  | RouteLang (lang_code : string)
  | RouteAction (action : string)
  | RouteRefresh (search_type identifier : string)
  | RouteAddFav (username : string)
  | RouteFavSearch (username : string)
  | RouteRaw (search_type identifier : string)
  | RouteNone.

(** The tests of [callback_handler] on [query.data], in order, and the
    decoding at the head of each branch; [parts[i]] is [parts !! i],
    and [None] is its [IndexError]. *)
Definition callback_route (data : string) : option route :=
  if String.prefix "lang:" data then
    lang_code ← split_colon data !! 1%nat; Some (RouteLang lang_code)
  else if String.prefix "action:" data then
    action ← split_colon data !! 1%nat; Some (RouteAction action)
  else if String.prefix "refresh:" data then
    search_type ← split_colon data !! 1%nat;
    identifier ← split_colon data !! 2%nat;
    Some (RouteRefresh search_type identifier)
  else if String.prefix "addfav:" data then
    username ← split_colon_once data !! 1%nat; Some (RouteAddFav username)
  else if String.prefix "favsearch:" data then
    username ← split_colon_once data !! 1%nat; Some (RouteFavSearch username)
  else if String.prefix "raw:" data then
    search_type ← split_colon data !! 1%nat;
    identifier ← split_colon data !! 2%nat;
    Some (RouteRaw search_type identifier)
  else Some RouteNone.

(** *** Messages *)


Section Messages.

(** The dictionaries [user_langs] and [lang_strings]; the latter is
    filled from the files under [lang/], which the repository loads at
    start. *)
Variable user_langs : gmap Z string.
Variable lang_strings : gmap string (gmap string string).

(** [text.format] applied to the keyword arguments. *)
Variable str_format : string -> list (string * pyval) -> outcome string.

(** [telegram.helpers.escape_markdown(text, version=2)]. *)
Variable escape_markdown : string -> string.

Variable w : world.

(** [t(user_id, key, **kwargs)]. The default of the first [get],
    [lang_strings["ar"]], is evaluated before the call. *)
Definition t (user_id : Z) (key : string) (kwargs : list (string * pyval))
    : outcome string :=
  let lang := default "ar" (user_langs !! user_id) in
  match lang_strings !! "ar" with
  | None => Raise KeyError
  | Some arabic =>
      let text := default key (default arabic (lang_strings !! lang) !! key) in
      match kwargs with
      | [] => Return text
      | _ => str_format text kwargs
      end
  end.





End Messages.

End Bot.

(** ** Part IV: properties of the rate limiter *)

Section RateLimitFacts.

Import RateLimit.

Implicit Types (rl : gmap Z user_data) (d : user_data) (t u : Z).

(** What a call returns, branch by branch. *)
Lemma check_rate_limit_by_branch t u rl :
  check_rate_limit t u rl =
    let d := entry t u rl in
    match branch_of t u rl with
    | WindowReset | CooldownExpired => (Allowed, <[u := mk_user_data 1 t]> rl)
    | Denied =>
        (Limited (minutes_of (remaining_us t d)) (seconds_of (remaining_us t d)), rl)
    | Counted =>
        (Allowed, <[u := mk_user_data (count d + 1) (start_time d)]> rl)
    end.
Proof.
  unfold check_rate_limit, branch_of, entry.
  destruct (rl !! u) as [d|] eqn:Hu; simpl.
  - rewrite Hu. repeat case_decide; reflexivity.
  - rewrite lookup_insert_eq. unfold elapsed_us, remaining_us; simpl.
    rewrite Z.sub_diag.
    repeat case_decide; try (exfalso; unfold RATE_LIMIT_WINDOW, RATE_LIMIT_COUNT, usec in *; lia);
      by rewrite insert_insert_eq.
Qed.

(** The first call of a user creates the entry with count 1. *)
Lemma check_rate_limit_fresh t u rl :
  rl !! u = None ->
  check_rate_limit t u rl = (Allowed, <[u := mk_user_data 1 t]> rl).
Proof.
  intros Hu. rewrite check_rate_limit_by_branch.
  unfold branch_of, entry. rewrite Hu. simpl.
  unfold elapsed_us. simpl. rewrite Z.sub_diag.
  repeat case_decide; try reflexivity;
    exfalso; unfold RATE_LIMIT_WINDOW, RATE_LIMIT_COUNT, usec in *; lia.
Qed.

(** A call after the window is over restarts the entry, whatever the
    count was. *)
Lemma check_rate_limit_stale t u rl d :
  rl !! u = Some d ->
  elapsed_us t d > RATE_LIMIT_WINDOW * usec ->
  check_rate_limit t u rl = (Allowed, <[u := mk_user_data 1 t]> rl).
Proof.
  intros Hu He. rewrite check_rate_limit_by_branch.
  unfold branch_of, entry. rewrite Hu. simpl.
  by rewrite decide_True.
Qed.

(** A call inside the window below the limit is counted. *)
Lemma check_rate_limit_counted t u rl d :
  rl !! u = Some d ->
  elapsed_us t d <= RATE_LIMIT_WINDOW * usec ->
  count d < RATE_LIMIT_COUNT ->
  check_rate_limit t u rl =
    (Allowed, <[u := mk_user_data (count d + 1) (start_time d)]> rl).
Proof.
  intros Hu He Hc. rewrite check_rate_limit_by_branch.
  unfold branch_of, entry. rewrite Hu. simpl.
  rewrite decide_False by lia. by rewrite decide_False by lia.
Qed.

(** A call inside the window at the limit is denied and changes
    nothing. *)
Lemma check_rate_limit_denied t u rl d :
  rl !! u = Some d ->
  elapsed_us t d <= RATE_LIMIT_WINDOW * usec ->
  count d >= RATE_LIMIT_COUNT ->
  check_rate_limit t u rl =
    (Limited (minutes_of (remaining_us t d)) (seconds_of (remaining_us t d)), rl).
Proof.
  intros Hu He Hc. rewrite check_rate_limit_by_branch.
  unfold branch_of, entry. rewrite Hu. simpl.
  rewrite decide_False by lia. rewrite decide_True by lia.
  rewrite decide_False; [reflexivity|].
  unfold remaining_us, RATE_LIMIT_COOLDOWN, RATE_LIMIT_WINDOW, usec in *. lia.
Qed.

(** The tests of the expired-cooldown branch contradict each other. *)
Lemma cooldown_branch_dead t u rl : branch_of t u rl <> CooldownExpired.
Proof.
  unfold branch_of. repeat case_decide; try discriminate.
  unfold remaining_us, RATE_LIMIT_COOLDOWN, RATE_LIMIT_WINDOW, usec in *. lia.
Qed.

(** Calls inside one window are all allowed while the count stays
    within the limit. *)
Lemma calls_in_window ts : forall rl u c t0,
  rl !! u = Some (mk_user_data c t0) ->
  c + Z.of_nat (length ts) <= RATE_LIMIT_COUNT ->
  Forall (fun t => t - t0 <= RATE_LIMIT_WINDOW * usec) ts ->
  calls ts u rl =
    (replicate (length ts) Allowed,
     <[u := mk_user_data (c + Z.of_nat (length ts)) t0]> rl).
Proof.
  induction ts as [|t ts IH]; intros rl u c t0 Hu Hc Hts.
  - simpl. rewrite Z.add_0_r. by rewrite insert_id.
  - apply Forall_cons in Hts as [Ht Hts]. cbn [calls length] in *.
    rewrite (check_rate_limit_counted t u rl _ Hu); simpl; [|exact Ht|lia].
    rewrite (IH _ u (c + 1) t0); [|apply lookup_insert_eq|lia|exact Hts].
    rewrite insert_insert_eq. simpl. do 3 f_equal. lia.
Qed.

(** The dictionary after [calls] is reachable when the one before is. *)
Lemma calls_reachable ts : forall u rl,
  reachable rl -> reachable (snd (calls ts u rl)).
Proof.
  induction ts as [|t ts IH]; intros u rl Hrl; [exact Hrl|].
  simpl. pose proof (reachable_call t u rl Hrl) as H1.
  destruct (check_rate_limit t u rl) as [v rl1]. simpl in H1.
  specialize (IH u rl1 H1). destruct (calls ts u rl1) as [vs rl2]. exact IH.
Qed.

(** The displayed minutes and seconds add up to the whole seconds of
    the remaining time. *)
Lemma minutes_seconds_total r :
  60 * minutes_of r + seconds_of r = r / usec.
Proof.
  unfold minutes_of, seconds_of, usec.
  rewrite (Z.div_mod r (60 * 1000000)) at 3 by lia.
  replace (60 * 1000000 * (r / (60 * 1000000)))
    with (60 * (r / (60 * 1000000)) * 1000000) by lia.
  rewrite Z.div_add_l by lia. reflexivity.
Qed.

(** ** C1 *)

(** C1: a user whose next call opens a window (no entry yet, or the
    stored window is over) is allowed N = 20 calls, the first at [t1]
    and the others less than W = 300 s after [t1]; the 21st call in the
    same window is limited, with the cooldown counted from [t1]. *)
Theorem c1_window_allows_N_then_limits rl u t1 ts t' :
  opens_window t1 u rl ->
  length (t1 :: ts) = Z.to_nat RATE_LIMIT_COUNT ->
  Forall (fun t => t - t1 < RATE_LIMIT_WINDOW * usec) ts ->
  t' - t1 < RATE_LIMIT_WINDOW * usec ->
  exists rl',
    calls (t1 :: ts) u rl = (replicate (Z.to_nat RATE_LIMIT_COUNT) Allowed, rl') /\
    rl' !! u = Some (mk_user_data RATE_LIMIT_COUNT t1) /\
    check_rate_limit t' u rl' =
      (Limited (minutes_of (RATE_LIMIT_COOLDOWN * usec - (t' - t1)))
               (seconds_of (RATE_LIMIT_COOLDOWN * usec - (t' - t1))), rl').
Proof.
  intros Hopen Hlen Hts Ht'.
  assert (Hfirst : check_rate_limit t1 u rl = (Allowed, <[u := mk_user_data 1 t1]> rl)).
  { unfold opens_window in Hopen. destruct (rl !! u) as [d|] eqn:Hu.
    - by apply (check_rate_limit_stale _ _ _ d).
    - by apply check_rate_limit_fresh. }
  assert (Hn : length ts = 19%nat).
  { simpl in Hlen. unfold RATE_LIMIT_COUNT in Hlen. lia. }
  exists (<[u := mk_user_data RATE_LIMIT_COUNT t1]> rl).
  split; [|split].
  - cbn [calls]. rewrite Hfirst.
    rewrite (calls_in_window ts _ u 1 t1).
    + rewrite insert_insert_eq, Hn. reflexivity.
    + apply lookup_insert_eq.
    + rewrite Hn. unfold RATE_LIMIT_COUNT. lia.
    + eapply Forall_impl; [exact Hts|]. simpl. intros. lia.
  - apply lookup_insert_eq.
  - rewrite (check_rate_limit_denied t' u _ (mk_user_data RATE_LIMIT_COUNT t1)).
    + reflexivity.
    + apply lookup_insert_eq.
    + unfold elapsed_us. simpl. lia.
    + simpl. lia.
Qed.

Lemma c1_witness :
  exists rl',
    calls (0 :: replicate 19 usec) 7 ∅ =
      (replicate (Z.to_nat RATE_LIMIT_COUNT) Allowed, rl') /\
    rl' !! 7 = Some (mk_user_data RATE_LIMIT_COUNT 0) /\
    check_rate_limit (2 * usec) 7 rl' =
      (Limited (minutes_of (RATE_LIMIT_COOLDOWN * usec - (2 * usec - 0)))
               (seconds_of (RATE_LIMIT_COOLDOWN * usec - (2 * usec - 0))), rl').
Proof.
  apply (c1_window_allows_N_then_limits ∅ 7 0 (replicate 19 usec) (2 * usec)).
  - reflexivity.
  - reflexivity.
  - repeat constructor.
  - reflexivity.
Defined.

(** The state a reset leaves already holds the resetting call: from
    there the window admits N - 1 further calls, and the next one is
    limited. *)
Lemma after_reset_allows_N_minus_1 rl u t0 ts t' :
  rl !! u = Some (mk_user_data 1 t0) ->
  length ts = 19%nat ->
  Forall (fun t => t - t0 < RATE_LIMIT_WINDOW * usec) ts ->
  t' - t0 < RATE_LIMIT_WINDOW * usec ->
  exists rl',
    calls ts u rl = (replicate 19 Allowed, rl') /\
    is_limited (fst (check_rate_limit t' u rl')) = true.
Proof.
  intros Hu Hn Hts Ht'.
  exists (<[u := mk_user_data RATE_LIMIT_COUNT t0]> rl). split.
  - rewrite (calls_in_window ts rl u 1 t0 Hu).
    + rewrite Hn. reflexivity.
    + rewrite Hn. unfold RATE_LIMIT_COUNT. lia.
    + eapply Forall_impl; [exact Hts|]. simpl. intros. lia.
  - rewrite (check_rate_limit_denied t' u _ (mk_user_data RATE_LIMIT_COUNT t0)).
    + reflexivity.
    + apply lookup_insert_eq.
    + unfold elapsed_us. simpl. lia.
    + simpl. lia.
Qed.

(** ** C2 *)

(** A user at the limit is let in again as soon as the window is over,
    while part of the cooldown is still to run. *)
Lemma cooldown_cut_short t u rl d :
  rl !! u = Some d ->
  count d >= RATE_LIMIT_COUNT ->
  elapsed_us t d > RATE_LIMIT_WINDOW * usec ->
  check_rate_limit t u rl = (Allowed, <[u := mk_user_data 1 t]> rl).
Proof. intros Hu _ He. by apply (check_rate_limit_stale t u rl d). Qed.

(** While a user is denied, the remaining time goes down as the clock
    goes up. *)
Lemma remaining_decreases t1 t2 d :
  t1 < t2 -> remaining_us t2 d < remaining_us t1 d.
Proof. unfold remaining_us, elapsed_us. lia. Qed.

(** The dictionary after 20 calls of user 7 at time 0. *)
Lemma twenty_calls_at_zero :
  snd (calls (replicate 20 0) 7 ∅) = {[7 := mk_user_data 20 0]}.
Proof.
  change (replicate 20 0) with (0 :: replicate 19 0). cbn [calls].
  rewrite check_rate_limit_fresh by apply lookup_empty.
  rewrite (calls_in_window (replicate 19 0) _ 7 1 0).
  - simpl. rewrite insert_insert_eq. reflexivity.
  - apply lookup_insert_eq.
  - simpl. unfold RATE_LIMIT_COUNT. lia.
  - repeat (constructor; [by vm_compute|]). constructor.
Qed.

(** C2: the code at the failing input. A user makes 20 calls at time 0.
    The call at 300 s is denied with 5 min 0 s to wait; the call one
    microsecond later is allowed and restarts the count at 1, 300 s
    before the cooldown of 600 s from the window start is over. *)
Theorem c2_denial_ends_with_window :
  let rl := snd (calls (replicate 20 0) 7 ∅) in
  rl !! 7 = Some (mk_user_data 20 0) /\
  check_rate_limit 0 7 rl = (Limited 10 0, rl) /\
  check_rate_limit (300 * usec) 7 rl = (Limited 5 0, rl) /\
  check_rate_limit (300 * usec + 1) 7 rl =
    (Allowed, <[7 := mk_user_data 1 (300 * usec + 1)]> rl).
Proof.
  cbv zeta. rewrite twenty_calls_at_zero.
  split; [apply lookup_singleton_eq|].
  split; [|split].
  - rewrite (check_rate_limit_denied 0 7 _ (mk_user_data 20 0));
      [reflexivity|apply lookup_singleton_eq|by vm_compute|by vm_compute].
  - rewrite (check_rate_limit_denied (300 * usec) 7 _ (mk_user_data 20 0));
      [reflexivity|apply lookup_singleton_eq|by vm_compute|by vm_compute].
  - apply (check_rate_limit_stale _ _ _ (mk_user_data 20 0));
      [apply lookup_singleton_eq|by vm_compute].
Qed.

(** ** C3 *)

(** C3: for a user below the limit, a call made more than W = 300 s
    after [start_time] sets the count to exactly 1, moves [start_time]
    to the time of the call, and is allowed. *)
Theorem c3_stale_window_restarts_at_one t u rl d :
  rl !! u = Some d ->
  count d < RATE_LIMIT_COUNT ->
  elapsed_us t d > RATE_LIMIT_WINDOW * usec ->
  check_rate_limit t u rl = (Allowed, <[u := mk_user_data 1 t]> rl) /\
  snd (check_rate_limit t u rl) !! u = Some (mk_user_data 1 t).
Proof.
  intros Hu _ He.
  rewrite (check_rate_limit_stale t u rl d Hu He).
  split; [reflexivity|apply lookup_insert_eq].
Qed.

Lemma c3_witness :
  check_rate_limit (301 * usec) 7 {[7 := mk_user_data 12 0]} =
    (Allowed, <[7 := mk_user_data 1 (301 * usec)]> {[7 := mk_user_data 12 0]}) /\
  snd (check_rate_limit (301 * usec) 7 {[7 := mk_user_data 12 0]}) !! 7 =
    Some (mk_user_data 1 (301 * usec)).
Proof.
  apply (c3_stale_window_restarts_at_one (301 * usec) 7
           {[7 := mk_user_data 12 0]} (mk_user_data 12 0)).
  - reflexivity.
  - reflexivity.
  - reflexivity.
Defined.

(** ** C9 *)

(** C9 as stated fails: after 20 calls at time 0 the call at exactly
    300 s is denied, and the wait it reports is 5 min 0 s, which is not
    more than 300 s. *)
Lemma c9_counterexample :
  let rl := snd (calls (replicate 20 0) 7 ∅) in
  reachable rl /\
  fst (check_rate_limit (300 * usec) 7 rl) = Limited 5 0 /\
  remaining_us (300 * usec) (entry (300 * usec) 7 rl) = 300 * usec /\
  ~ (300 < 60 * 5 + 0).
Proof.
  cbv zeta. split; [apply calls_reachable, reachable_empty|].
  rewrite twenty_calls_at_zero.
  split; [|split; [|lia]].
  - rewrite (check_rate_limit_denied (300 * usec) 7 _ (mk_user_data 20 0));
      [reflexivity|apply lookup_singleton_eq|by vm_compute|by vm_compute].
  - unfold entry. rewrite lookup_singleton_eq. reflexivity.
Qed.

(** C9, amended: in every state reachable through [check_rate_limit]
    from the empty dictionary, a denied call reports a wait of at least
    C - W = 300 s (the remaining time itself is at least 300 s), and no
    call takes the expired-cooldown branch of lines 95-98. *)
Theorem c9_denied_wait_at_least_300 rl t u :
  reachable rl ->
  (forall m s,
     fst (check_rate_limit t u rl) = Limited m s ->
     300 <= 60 * m + s /\
     remaining_us t (entry t u rl) >=
       (RATE_LIMIT_COOLDOWN - RATE_LIMIT_WINDOW) * usec) /\
  branch_of t u rl <> CooldownExpired.
Proof.
  intros _. split; [|apply cooldown_branch_dead].
  intros m s. rewrite check_rate_limit_by_branch. cbv zeta.
  unfold branch_of.
  repeat case_decide; simpl; try discriminate.
  intros [= <- <-]. rewrite minutes_seconds_total.
  assert (Hr : remaining_us t (entry t u rl) >= 300 * usec).
  { unfold remaining_us, RATE_LIMIT_COOLDOWN, RATE_LIMIT_WINDOW, usec in *. lia. }
  split; [|exact Hr].
  apply Z.div_le_lower_bound; unfold usec in *; lia.
Qed.

Lemma c9_witness :
  fst (check_rate_limit (100 * usec) 7 (snd (calls (replicate 20 0) 7 ∅)))
    = Limited 8 20 /\
  (300 <= 60 * 8 + 20 /\
   remaining_us (100 * usec)
     (entry (100 * usec) 7 (snd (calls (replicate 20 0) 7 ∅))) >=
     (RATE_LIMIT_COOLDOWN - RATE_LIMIT_WINDOW) * usec) /\
  branch_of (100 * usec) 7 (snd (calls (replicate 20 0) 7 ∅)) <> CooldownExpired.
Proof.
  assert (Hdenied :
            fst (check_rate_limit (100 * usec) 7 (snd (calls (replicate 20 0) 7 ∅)))
              = Limited 8 20) by (vm_compute; reflexivity).
  destruct (c9_denied_wait_at_least_300
              (snd (calls (replicate 20 0) 7 ∅)) (100 * usec) 7) as [Hwait Hbranch].
  - apply calls_reachable, reachable_empty.
  - split; [exact Hdenied|]. split; [exact (Hwait 8 20 Hdenied)|exact Hbranch].
Defined.

(** ** C10 *)

(** C10: a call that returns Limited leaves the whole dictionary, and
    so the user's count and start time, as it was. *)
Theorem c10_denied_call_changes_nothing t u rl :
  is_limited (fst (check_rate_limit t u rl)) = true ->
  snd (check_rate_limit t u rl) = rl /\
  snd (check_rate_limit t u rl) !! u = rl !! u /\
  is_Some (rl !! u).
Proof.
  rewrite check_rate_limit_by_branch. cbv zeta.
  destruct (branch_of t u rl) eqn:Hb; simpl; try discriminate.
  intros _. split; [reflexivity|]. split; [reflexivity|].
  destruct (rl !! u) as [d|] eqn:Hu; [by eexists|].
  exfalso. revert Hb. unfold branch_of, entry. rewrite Hu. simpl.
  unfold elapsed_us. simpl. rewrite Z.sub_diag.
  repeat case_decide; discriminate.
Qed.

Lemma c10_witness :
  snd (check_rate_limit (5 * usec) 7 {[7 := mk_user_data 20 0]}) =
    {[7 := mk_user_data 20 0]} /\
  snd (check_rate_limit (5 * usec) 7 {[7 := mk_user_data 20 0]}) !! 7 =
    ({[7 := mk_user_data 20 0]} : gmap Z user_data) !! 7 /\
  is_Some (({[7 := mk_user_data 20 0]} : gmap Z user_data) !! 7).
Proof.
  apply (c10_denied_call_changes_nothing (5 * usec) 7 {[7 := mk_user_data 20 0]}).
  vm_compute. reflexivity.
Defined.

End RateLimitFacts.

(** ** Part V: properties of the scraper *)

Section ScraperFacts.

Import Py Scraper Samples.
Local Open Scope string_scope.

(** *** Strings and the two patterns *)

Lemma prefix_app p : forall s,
  String.prefix p s = true <-> exists rest, s = p +:+ rest.
Proof.
  induction p as [|a p IH]; intros s; simpl.
  - split; [intros _; by exists s|]. by destruct s.
  - destruct s as [|b s]; simpl.
    + split; [discriminate|]. by intros [rest [=]].
    + destruct (ascii_dec a b) as [->|Hne].
      * rewrite IH. split; intros [rest Hrest]; exists rest.
        -- by rewrite Hrest.
        -- change (String b s = String b (p +:+ rest)) in Hrest. congruence.
      * split; [discriminate|]. intros [rest [=]]. congruence.
Qed.

Lemma drop_chars_app p rest : drop_chars (String.length p) (p +:+ rest) = rest.
Proof. induction p as [|a p IH]; simpl; [by destruct rest|exact IH]. Qed.

(** The pattern matches at the start exactly when the text starts with
    [tiktok.com/@] and a segment character. *)
Lemma profile_here_Some s :
  is_Some (profile_here s) <->
  exists c after, s = "tiktok.com/@" +:+ String c after /\ segment_char c = true.
Proof.
  unfold profile_here.
  destruct (String.prefix "tiktok.com/@" s) eqn:Hp.
  - apply prefix_app in Hp as [rest ->].
    change 12%nat with (String.length "tiktok.com/@").
    rewrite drop_chars_app.
    destruct rest as [|c after]; simpl.
    + split; [by intros [? [=]]|]. intros (c & after & Heq & _). discriminate.
    + destruct (segment_char c) eqn:Hc.
      * split; [|by eexists]. intros _. by exists c, after.
      * split; [by intros [? [=]]|]. intros (c' & after' & [= <- <-] & Hc').
        congruence.
  - split; [by intros [? [=]]|]. intros (c & after & -> & _).
    assert (String.prefix "tiktok.com/@" ("tiktok.com/@" +:+ String c after) = true)
      by (apply prefix_app; by eexists).
    congruence.
Qed.

(** [re.search] finds a username segment exactly when the text has
    one. *)
Lemma search_profile_Some s :
  is_Some (search_profile s) <-> has_username_segment s.
Proof.
  induction s as [|a s IH].
  - simpl. split; [by intros [? [=]]|].
    intros (before & c & after & Heq & _). by destruct before.
  - cbn [search_profile].
    destruct (profile_here (String a s)) as [g|] eqn:Hh.
    + split; [|by eexists]. intros _.
      destruct (proj1 (profile_here_Some (String a s))) as (c & after & Heq & Hc).
      { rewrite Hh. by eexists. }
      exists EmptyString, c, after. by split.
    + rewrite IH. split.
      * intros (before & c & after & -> & Hc).
        exists (String a before), c, after. by split.
      * intros (before & c & after & Heq & Hc).
        destruct before as [|b before].
        -- exfalso. assert (Hs : is_Some (profile_here (String a s))).
           { apply profile_here_Some. exists c, after. by split. }
           rewrite Hh in Hs. by destruct Hs.
        -- simpl in Heq. injection Heq as <- ->.
           exists before, c, after. by split.
Qed.

Lemma search_profile_None s :
  search_profile s = None <-> ~ has_username_segment s.
Proof.
  rewrite <- search_profile_Some. destruct (search_profile s); split.
  - discriminate.
  - intros H. exfalso. apply H. by eexists.
  - by intros _ [? [=]].
  - done.
Qed.

(** A page without the tag has no payload for the pattern. *)
Lemma search_rehydration_no_tag html :
  contains REHYDRATION_TAG html = false -> search_rehydration html = None.
Proof.
  induction html as [|a html IH]; cbn [contains search_rehydration];
    unfold rehydration_here;
    destruct (String.prefix REHYDRATION_TAG _) eqn:Hp; try discriminate; auto.
Qed.

(** *** The shape of each block *)

(** The short-link step always yields a url and invokes no strategy. *)
Lemma resolve_short_link_shape w url :
  exists resolved made,
    resolve_short_link w url = (Return resolved, made) /\ strategies made = [].
Proof.
  unfold resolve_short_link.
  destruct (contains "vm.tiktok.com" url || contains "vt.tiktok.com" url).
  - unfold try_except, io_bind, perform, io_ret.
    destruct (client_head w url) as [r|e]; simpl; by eexists _, _.
  - by eexists _, _.
Qed.

(** Method 1 never raises; it calls yt-dlp once when the library is
    there, and nothing otherwise. *)
Lemma method_ytdlp_shape w url :
  exists r,
    method_ytdlp w url =
      (Return r, if HAS_YTDLP w then [CallYtdlp url] else []).
Proof.
  unfold method_ytdlp. destruct (HAS_YTDLP w); [|by eexists].
  unfold _ytdlp_download, try_except, io_bind, perform, pure, io_ret.
  destruct (extract_info w url) as [info|e]; simpl.
  - destruct (ytdlp_result info) as [result|e]; simpl.
    + destruct (truthy result); simpl; [|by eexists].
      destruct (py_get result "error" PNone); simpl; by eexists.
    + by eexists.
  - by eexists.
Qed.

(** Method 2 never raises and fetches the page once. *)
Lemma method_page_shape w url :
  exists r, method_page w url = (Return r, [CallGet url]).
Proof.
  unfold method_page, try_except, io_bind, perform, pure, io_ret.
  destruct (client_get w url) as [response|e]; simpl; [|by eexists].
  destruct (search_rehydration (text response)) as [group1|]; simpl; [|by eexists].
  destruct (bind (json_loads w group1) _); simpl; by eexists.
Qed.

(** Method 3 never raises and posts to the API once. *)
Lemma method_tikwm_shape w url :
  exists r,
    method_tikwm w url =
      (Return r, [CallPost (TIKWM_API +:+ "/") (tikwm_form url)]).
Proof.
  unfold method_tikwm, try_except, io_bind, perform, pure, io_ret.
  destruct (client_post w _ _) as [response|e]; simpl; [|by eexists].
  destruct (bind (json_loads w (text response)) _); simpl; by eexists.
Qed.

(** The strategies a run invokes, in the order of invocation. *)
Lemma strategies_invoked w url :
  strategies (snd (get_video_no_watermark w url)) =
    ((if HAS_YTDLP w then [1] else []) ++
     (if succeeds w 1 (working_url w url) then []
      else 2 :: (if succeeds w 2 (working_url w url) then [] else [3])))%nat%list.
Proof.
  unfold get_video_no_watermark, working_url, succeeds, method, methods_from_page.
  destruct (resolve_short_link_shape w (strip url)) as (target & made0 & -> & Hmade0).
  destruct (method_ytdlp_shape w target) as [r1 H1].
  destruct (method_page_shape w target) as [r2 H2].
  destruct (method_tikwm_shape w target) as [r3 H3].
  unfold io_bind. simpl. rewrite H1, H2, H3. simpl.
  unfold strategies in *.
  destruct r1 as [result1|]; simpl.
  - rewrite omap_app, Hmade0. destruct (HAS_YTDLP w); reflexivity.
  - destruct r2 as [result2|]; simpl.
    + rewrite !omap_app, Hmade0. destruct (HAS_YTDLP w); reflexivity.
    + destruct r3 as [result3|]; simpl;
        rewrite !omap_app, Hmade0; destruct (HAS_YTDLP w); reflexivity.
Qed.

(** ** C4 *)

(** C4: [get_video_no_watermark] invokes its strategies in the fixed
    order 1 (extraction library), 2 (page scrape), 3 (aggregation API),
    each at most once, and once a strategy has succeeded no later one
    is invoked. *)
Theorem c4_fixed_order_first_success_wins w url :
  let invoked := strategies (snd (get_video_no_watermark w url)) in
  let target := working_url w url in
  invoked =
    ((if HAS_YTDLP w then [1] else []) ++
     (if succeeds w 1 target then []
      else 2 :: (if succeeds w 2 target then [] else [3])))%nat%list /\
  StronglySorted lt invoked /\
  (forall k, k ∈ invoked -> k ∈ [1; 2; 3]%nat) /\
  (forall k j, (k < j)%nat ->
     succeeds w k (working_url w url) = true -> j ∉ invoked).
Proof.
  cbv zeta. rewrite strategies_invoked.
  set (target := working_url w url).
  assert (Hno : HAS_YTDLP w = false -> succeeds w 1 target = false).
  { intros Hy. unfold succeeds, method, method_ytdlp. by rewrite Hy. }
  assert (Hout : forall k, (3 < k)%nat -> succeeds w k target = false).
  { intros k Hk. unfold succeeds, method.
    do 4 (destruct k as [|k]; [lia|]). reflexivity. }
  assert (H0 : succeeds w 0 target = false) by reflexivity.
  split; [reflexivity|]. split; [|split].
  - destruct (HAS_YTDLP w), (succeeds w 1 target), (succeeds w 2 target); simpl;
      repeat (constructor; try lia).
  - intros k.
    destruct (HAS_YTDLP w), (succeeds w 1 target), (succeeds w 2 target); simpl;
      intros Hk; set_unfold; tauto.
  - intros k j Hkj Hk Hj.
    destruct (decide (k = 0%nat)) as [-> | ?]; [congruence|].
    destruct (decide (3 < k)%nat) as [Hbig | ?]; [rewrite Hout in Hk; [discriminate|done]|].
    assert (Hcases : k = 1%nat \/ k = 2%nat \/ k = 3%nat) by lia.
    destruct (HAS_YTDLP w) eqn:Hy.
    + destruct Hcases as [-> | [-> | ->]]; rewrite ?Hk in Hj; simpl in Hj.
      * set_unfold. lia.
      * destruct (succeeds w 1 target); simpl in Hj; rewrite ?Hk in Hj;
          set_unfold; lia.
      * destruct (succeeds w 1 target), (succeeds w 2 target); simpl in Hj;
          set_unfold; lia.
    + pose proof (Hno eq_refl) as Hn1. rewrite Hn1 in Hj. simpl in Hj.
      destruct Hcases as [-> | [-> | ->]]; [congruence| |].
      * rewrite Hk in Hj. set_unfold. lia.
      * destruct (succeeds w 2 target); set_unfold; lia.
Qed.

Lemma c4_witness :
  strategies (snd (get_video_no_watermark ytdlp_works sample_video_url)) = [1%nat] /\
  succeeds ytdlp_works 1 (working_url ytdlp_works sample_video_url) = true /\
  (2%nat ∉ strategies (snd (get_video_no_watermark ytdlp_works sample_video_url))) /\
  (3%nat ∉ strategies (snd (get_video_no_watermark ytdlp_works sample_video_url))).
Proof.
  pose proof (c4_fixed_order_first_success_wins ytdlp_works sample_video_url)
    as (_ & _ & _ & Hlater).
  split; [reflexivity|]. split; [reflexivity|].
  split; apply (Hlater 1%nat); first [lia | reflexivity].
Defined.

(** ** C5 *)

(** The sibling blocks check the media url before they return: a
    result of Method 1 carries a truthy [video_url]. *)
Lemma ytdlp_result_has_media_url info result :
  ytdlp_result info = Return result ->
  result <> PNone ->
  exists media,
    py_get result "video_url" PNone = Return media /\ truthy media = true.
Proof.
  unfold ytdlp_result. intros H Hres.
  destruct (truthy info); [|congruence].
  destruct (py_get info "url" PNone) as [url0|]; simpl in H; [|discriminate].
  destruct (py_get info "formats" PNone) as [formats0|]; simpl in H; [|discriminate].
  destruct (if negb (truthy url0) && truthy formats0 then _ else _)
    as [media|]; simpl in H; [|discriminate].
  destruct (truthy media) eqn:Hm; [|congruence].
  destruct (py_get info "title" _); simpl in H; [|discriminate].
  destruct (py_get info "uploader" _); simpl in H; [|discriminate].
  destruct (py_get info "duration" _); simpl in H; [|discriminate].
  destruct (py_get info "thumbnail" _); simpl in H; [|discriminate].
  injection H as <-. exists media. by split.
Qed.

(** A result of Method 2 carries a truthy [video_url]. *)
Lemma page_result_has_media_url data result :
  page_result data = Return (Some result) ->
  exists media,
    py_get result "video_url" PNone = Return media /\ truthy media = true.
Proof.
  unfold page_result. intros H.
  repeat match type of H with
         | bind ?m _ = _ => destruct m; simpl in H; [|discriminate]
         end.
  match type of H with
  | (if truthy ?u then _ else _) = _ => destruct (truthy u) eqn:Hm; [|discriminate]
  end.
  repeat match type of H with
         | bind ?m _ = _ => destruct m; simpl in H; [|discriminate]
         end.
  injection H as <-. eexists. by split.
Qed.

(** C5: the code at the failing input. yt-dlp raises, the page has no
    payload, and tikwm answers [{"code": 0, "data": {"title": "clip"}}]:
    Method 3 returns a result with ["error": False] whose [video_url]
    is [None]. *)
Theorem c5_tikwm_result_without_media_url :
  exists result,
    fst (get_video_no_watermark tikwm_without_play sample_video_url)
      = Return result /\
    py_get result "error" PNone = Return (PBool false) /\
    py_get result "video_url" (PStr "absent") = Return PNone /\
    succeeds tikwm_without_play 3 sample_video_url = true.
Proof. eexists. repeat split; reflexivity. Qed.

(** ** C6 *)

(** A payload whose status field does not compare equal to 0 yields no
    user info. *)
Lemma user_info_of_bad_status data status :
  status_code_field data = Return status ->
  py_eq_int status 0 = false ->
  user_info_of data = Return PNone.
Proof.
  unfold status_code_field, user_info_of. intros H Hne.
  destruct (py_get data "__DEFAULT_SCOPE__" _) as [scope|]; simpl in *; [|discriminate].
  destruct (py_get scope "webapp.user-detail" _) as [detail|]; simpl in *; [|discriminate].
  destruct detail; try discriminate. simpl in *.
  injection H as ->. rewrite Hne. by rewrite orb_true_r.
Qed.

(** Each upstream failure makes [_scrape_tiktok_page] return [None]
    after its single request. *)
Lemma scrape_page_failure w url :
  page_failure w url ->
  _scrape_tiktok_page w url = (Return PNone, [CallGet url]).
Proof.
  unfold _scrape_tiktok_page, try_except, io_bind, perform, pure, io_ret.
  intros [e He | r Hr Hs | r Hr Hm | r g e Hr Hm Hj | r g data status Hr Hm Hj Hf Hne];
    rewrite ?He, ?Hr; simpl; try reflexivity.
  - apply Z.eqb_neq in Hs. by rewrite Hs.
  - destruct (status_code r =? 200)%Z; simpl; [|reflexivity]. by rewrite Hm.
  - destruct (status_code r =? 200)%Z; simpl; [|reflexivity].
    rewrite Hm, Hj. reflexivity.
  - destruct (status_code r =? 200)%Z; simpl; [|reflexivity].
    rewrite Hm, Hj. simpl. by rewrite (user_info_of_bad_status data status).
Qed.

(** Whatever the world answers, [_scrape_tiktok_page] returns a value
    after one request: nothing raised under its [try] gets out. *)
Lemma scrape_page_never_raises w url :
  exists user_info,
    _scrape_tiktok_page w url = (Return user_info, [CallGet url]).
Proof.
  unfold _scrape_tiktok_page, try_except, io_bind, perform, pure, io_ret.
  destruct (client_get w url) as [r|e]; simpl; [|by eexists].
  destruct (status_code r =? 200)%Z; simpl; [|by eexists].
  destruct (search_rehydration (text r)) as [group1|]; simpl; [|by eexists].
  destruct (bind (json_loads w group1) _); simpl; by eexists.
Qed.

(** C6: for every input and every world in which the profile page
    fails in one of the five ways (network error, status other than
    200, no payload tag, undecodable payload, status field other than
    0), [get_user_by_username] returns the failure result
    [{"error": True}]; it does not raise. *)
Theorem c6_upstream_failure_gives_error_result w username :
  (forall name,
     normalize_username username = Some name ->
     page_failure w (profile_page name)) ->
  fst (get_user_by_username w username) = Return error_result.
Proof.
  intros Hfail. unfold get_user_by_username.
  destruct (normalize_username username) as [name|]; [|reflexivity].
  rewrite (scrape_page_failure w _ (Hfail name eq_refl)). reflexivity.
Qed.

Lemma c6_witness :
  fst (get_user_by_username plain_pages "@alice") = Return error_result.
Proof.
  apply (c6_upstream_failure_gives_error_result plain_pages "@alice").
  intros name Hname. vm_compute in Hname. injection Hname as <-.
  apply (script_tag_missing plain_pages _
           (mk_response 200 "<html></html>" (profile_page "alice")));
    reflexivity.
Defined.

(** ** C7 *)

(** C7 as stated fails: the result for a profile url without a username
    segment, returned before any request, is the very value returned
    for a name that is looked up and not found. *)
Lemma c7_counterexample :
  contains "tiktok.com" (clean_username "https://www.tiktok.com/foo") = true /\
  search_profile (clean_username "https://www.tiktok.com/foo") = None /\
  get_user_by_username offline "https://www.tiktok.com/foo"
    = (Return error_result, []) /\
  get_user_by_username offline "nobody"
    = (Return error_result, [CallGet "https://www.tiktok.com/@nobody"]) /\
  fst (get_user_by_username offline "https://www.tiktok.com/foo")
    = fst (get_user_by_username offline "nobody").
Proof. repeat split; reflexivity. Qed.

(** C7, amended: for every input that is a profile url (the cleaned
    text contains [tiktok.com]) without a username segment,
    [get_user_by_username] returns the failure result [{"error": True}]
    at once, having made no outbound call. *)
Theorem c7_malformed_url_fails_before_io w username :
  contains "tiktok.com" (clean_username username) = true ->
  ~ has_username_segment (clean_username username) ->
  get_user_by_username w username = (Return error_result, []).
Proof.
  intros Hurl Hseg. apply search_profile_None in Hseg.
  unfold get_user_by_username, normalize_username.
  by rewrite Hurl, Hseg.
Qed.

Lemma c7_witness :
  get_user_by_username plain_pages "https://www.tiktok.com/foo"
    = (Return error_result, []).
Proof.
  apply (c7_malformed_url_fails_before_io plain_pages "https://www.tiktok.com/foo").
  - reflexivity.
  - apply search_profile_None. reflexivity.
Defined.

(** ** C8 *)

Lemma lookup_key_no_null d k v :
  no_null d -> lookup_key k d = Some v -> v <> PNone.
Proof.
  unfold no_null. induction d as [|[k' v'] d IH]; simpl; [discriminate|].
  intros Hall. apply Forall_cons in Hall as [Hv Hd].
  destruct (String.eqb k k'); [|by apply IH].
  intros [= <-]. exact Hv.
Qed.

(** A copied field read with a default that is not [None] is not
    [None]. *)
Lemma copied_field_not_null user k dflt :
  copied_not_null user -> k ∈ copied_keys -> dflt <> PNone ->
  default dflt (lookup_key k user) <> PNone.
Proof.
  intros Hcopied Hk Hdflt.
  destruct (lookup_key k user) as [v|] eqn:Hv; simpl; [|exact Hdflt].
  intros ->. by apply (Hcopied k Hk).
Qed.

(** [_format_number] returns a string for everything but an infinite
    float, on which [int] raises [OverflowError], and a value with an
    [int] beyond the digit limit, on which [str] raises [ValueError]. *)
Lemma format_number_returns w num :
  (forall negative, num <> PFloat (FInf negative)) ->
  ints_in_range num = true ->
  exists s, _format_number w num = Return s.
Proof.
  intros Hfin Hrange. unfold _format_number, py_str_checked. rewrite Hrange.
  destruct num as [|b|n|[q|negative|]|s|l|d]; simpl; try by eexists.
  - destruct (str_digits_ok _); by eexists.
  - simpl in Hrange. rewrite Hrange. by eexists.
  - destruct (str_digits_ok _); by eexists.
  - by destruct (Hfin negative).
  - destruct (int_of_str s) as [n|]; [|by eexists].
    destruct (str_digits_ok n); by eexists.
Qed.

Lemma format_counter_returns w user stats k :
  counters_finite stats ->
  ints_within_limit user stats ->
  k ∈ counter_keys ->
  exists s, _format_number w (default (PInt 0) (lookup_key k stats)) = Return s.
Proof.
  intros Hfin [_ Hrange] Hk. apply format_number_returns.
  - intros negative.
    destruct (lookup_key k stats) as [v|] eqn:Hv; simpl; [|discriminate].
    intros ->. by apply (Hfin k negative Hk).
  - destruct (lookup_key k stats) as [v|] eqn:Hv; simpl; [|reflexivity].
    by apply (Hrange k v Hk).
Qed.

(** [str] returns on [id] and [uniqueId]. *)
Lemma text_field_returns w user stats k dflt :
  ints_within_limit user stats ->
  k ∈ text_keys ->
  ints_in_range dflt = true ->
  py_str_checked w (default dflt (lookup_key k user))
    = Return (py_str w (default dflt (lookup_key k user))).
Proof.
  intros [Hrange _] Hk Hdflt. unfold py_str_checked.
  destruct (lookup_key k user) as [v|] eqn:Hv; simpl.
  - by rewrite (Hrange k v Hk Hv).
  - by rewrite Hdflt.
Qed.

(** [_lang_code_to_name] returns, and not [None], when the language is
    a string, falsy or missing. *)
Lemma lang_name_returns user :
  language_is_text user ->
  exists name,
    _lang_code_to_name (py_or (default PNone (lookup_key "language" user)) PNone)
      = Return name /\ name <> PNone.
Proof.
  intros Hlang. unfold py_or.
  destruct (lookup_key "language" user) as [v|] eqn:Hk; simpl;
    [|by eexists].
  destruct (truthy v) eqn:Hv; [|by eexists].
  destruct (Hlang v Hk Hv) as [s ->].
  unfold _lang_code_to_name. rewrite Hv. cbn [negb py_lower bind].
  destruct (lookup_key (lower s) LANG_MAP); by eexists.
Qed.

Lemma bio_link_returns v :
  exists link, bio_link_of v = Return link.
Proof. destruct v; simpl; by eexists. Qed.

Lemma py_or_no_null a b : b <> PNone -> py_or a b <> PNone.
Proof.
  intros Hb. unfold py_or. destruct (truthy a) eqn:Ha; [|exact Hb].
  intros ->. discriminate.
Qed.

(** Outside the payloads of C8: a copied field the payload carries as
    null stays null in the record, because [user.get(key, default)]
    falls back only when the key is missing. *)
Lemma null_username_stays_null :
  exists record,
    _format_user offline (PDict (("uniqueId", PNone) :: bare_user)) (PDict bare_stats)
      = Return (PDict record) /\
    lookup_key "username" record = Some PNone.
Proof. eexists. split; reflexivity. Qed.

(** A language that is a number has no [lower] method: the call
    raises. *)
Lemma numeric_language_raises :
  _format_user offline (PDict (("language", PInt 7) :: bare_user)) (PDict bare_stats)
    = Raise AttributeError.
Proof. reflexivity. Qed.

(** On a counter that is an infinite float [int] raises
    [OverflowError], which [_format_number] does not catch. *)
Lemma infinite_counter_raises :
  _format_user offline (PDict bare_user)
    (PDict (("heartCount", PFloat (FInf false)) :: bare_stats))
    = Raise OverflowError.
Proof. reflexivity. Qed.

(** There are integers beyond the digit limit: the one written as a 1
    followed by 4300 zeros. *)
Lemma oversized_int_exists : exists n, str_digits_ok n = false.
Proof.
  exists (Z.of_N (N.of_uint (Decimal.D1 (Nat.iter 4300 Decimal.D0 Decimal.Nil)))).
  unfold str_digits_ok, decimal.
  rewrite Zabs2N.id, DecimalN.Unsigned.to_of.
  vm_compute. reflexivity.
Qed.

(** On a counter beyond the digit limit the format raises [ValueError],
    and so does [str] in the handler; [str] raises it on such an [id]
    too. *)
Lemma oversized_int_raises n :
  str_digits_ok n = false ->
  _format_user offline (PDict bare_user)
    (PDict (("heartCount", PInt n) :: bare_stats))
    = Raise ValueError /\
  _format_user offline (PDict (("id", PInt n) :: bare_user))
    (PDict bare_stats)
    = Raise ValueError.
Proof.
  intros Hn. split.
  - unfold _format_user, bare_user, bare_stats. cbn [py_get bind lookup_key].
    cbn -[str_digits_ok format_grouped str_of_int].
    unfold _format_number, py_str_checked.
    cbn -[str_digits_ok format_grouped str_of_int]. by rewrite !Hn.
  - unfold _format_user, bare_user, bare_stats.
    cbn -[str_digits_ok format_grouped str_of_int].
    unfold py_str_checked.
    cbn -[str_digits_ok format_grouped str_of_int]. by rewrite !Hn.
Qed.

(** Inside the payloads of C8: a null region, bio, bio link, language
    or id is replaced ([or], [isinstance], [str]), and a null counter
    comes out as the text ["None"]. *)
Lemma replaced_nulls_are_covered :
  exists record,
    _format_user offline (PDict null_user) (PDict null_stats)
      = Return (PDict record) /\
    lookup_key "region" record = Some (PStr "N/A") /\
    lookup_key "bio" record = Some (PStr "N/A") /\
    lookup_key "bio_link" record = Some (PStr "N/A") /\
    lookup_key "language" record = Some (PStr "N/A") /\
    lookup_key "user_id" record = Some (PStr "None") /\
    lookup_key "likes" record = Some (PStr "None").
Proof. eexists. repeat split; reflexivity. Qed.

(** C8 as stated fails: the record for the payload with
    [createTime = 0], [followerCount = 0] and no region has
    [created = "N/A"] and [region = "N/A"], not ["unknown"]. *)
Lemma c8_counterexample :
  exists record,
    _format_user offline (PDict bare_user) (PDict bare_stats)
      = Return (PDict record) /\
    lookup_key "followers" record = Some (PStr "0") /\
    lookup_key "created" record = Some (PStr "N/A") /\
    lookup_key "region" record = Some (PStr "N/A") /\
    lookup_key "created" record <> Some (PStr "unknown") /\
    lookup_key "region" record <> Some (PStr "unknown").
Proof. eexists. repeat split; try reflexivity; discriminate. Qed.

(** C8, amended: for a payload with [createTime = 0] and
    [followerCount = 0] whose region is missing, null or otherwise
    falsy, [_format_user] returns a record with exactly its 21 keys,
    with [followers = "0"], [created = "N/A"] and [region = "N/A"], and
    no field of the record is [None], provided that none of the five
    fields copied as they are ([uniqueId], [nickname], [verified],
    [privateAccount], [avatarLarger]) is null, that the language is a
    string where it is truthy, that no counter is an infinite float,
    and that the values turned into text ([id], [uniqueId], the
    counters) hold no integer of more than 4300 digits. Nulls elsewhere
    in the payload are allowed. *)
Theorem c8_zero_payload_fully_populated w user stats :
  lookup_key "createTime" user = Some (PInt 0) ->
  lookup_key "followerCount" stats = Some (PInt 0) ->
  truthy (default PNone (lookup_key "region" user)) = false ->
  copied_not_null user ->
  language_is_text user ->
  counters_finite stats ->
  ints_within_limit user stats ->
  exists record,
    _format_user w (PDict user) (PDict stats) = Return (PDict record) /\
    map fst record = record_keys /\
    lookup_key "followers" record = Some (PStr "0") /\
    lookup_key "created" record = Some (PStr "N/A") /\
    lookup_key "region" record = Some (PStr "N/A") /\
    no_null record.
Proof.
  intros Hcreate Hfollowers Hregion Hcopied Hlang Hfin Hrange.
  assert (Hnone : py_or (default PNone (lookup_key "region" user)) PNone = PNone).
  { unfold py_or. by rewrite Hregion. }
  unfold _format_user. cbn [py_get bind].
  rewrite Hcreate, Hfollowers, Hnone. cbn [default].
  change (created_of w (PInt 0)) with (Return (A := string) "N/A").
  change (_resolve_region PNone) with (fun _ : pyval => Return (A := string) "N/A").
  change (_format_number w (PInt 0)) with (Return (A := string) "0").
  cbn [bind].
  destruct (bio_link_returns (default PNone (lookup_key "bioLink" user)))
    as [link ->].
  destruct (format_counter_returns w user stats "friendCount" Hfin Hrange
              ltac:(compute_done)) as [friends ->].
  destruct (format_counter_returns w user stats "diggCount" Hfin Hrange
              ltac:(compute_done)) as [digg ->].
  destruct (format_counter_returns w user stats "followingCount" Hfin Hrange
              ltac:(compute_done)) as [following ->].
  destruct (format_counter_returns w user stats "heartCount" Hfin Hrange
              ltac:(compute_done)) as [likes ->].
  destruct (format_counter_returns w user stats "videoCount" Hfin Hrange
              ltac:(compute_done)) as [videos ->].
  destruct (lang_name_returns user Hlang) as (name & -> & Hname).
  rewrite (text_field_returns w user stats "id" (PStr "N/A") Hrange
             ltac:(compute_done) eq_refl).
  rewrite (text_field_returns w user stats "uniqueId" (PStr EmptyString) Hrange
             ltac:(compute_done) eq_refl).
  cbn [bind]. eexists. split; [reflexivity|].
  split; [reflexivity|]. split; [reflexivity|].
  split; [reflexivity|]. split; [reflexivity|].
  unfold no_null.
  repeat (apply List.Forall_cons; [cbn [snd]|]);
    [discriminate
    |apply copied_field_not_null; [exact Hcopied|compute_done|discriminate]
    |apply copied_field_not_null; [exact Hcopied|compute_done|discriminate]
    |discriminate
    |apply py_or_no_null; discriminate
    |apply copied_field_not_null; [exact Hcopied|compute_done|discriminate]
    |apply copied_field_not_null; [exact Hcopied|compute_done|discriminate]
    |discriminate |discriminate |discriminate |discriminate
    |discriminate |discriminate |discriminate |discriminate
    |exact Hname
    |apply py_or_no_null; discriminate
    |apply copied_field_not_null; [exact Hcopied|compute_done|discriminate]
    |discriminate |discriminate |discriminate
    |apply List.Forall_nil].
Qed.

Lemma c8_witness :
  exists record,
    _format_user offline (PDict null_user) (PDict null_stats)
      = Return (PDict record) /\
    map fst record = record_keys /\
    lookup_key "followers" record = Some (PStr "0") /\
    lookup_key "created" record = Some (PStr "N/A") /\
    lookup_key "region" record = Some (PStr "N/A") /\
    no_null record.
Proof.
  apply (c8_zero_payload_fully_populated offline null_user null_stats).
  - reflexivity.
  - reflexivity.
  - reflexivity.
  - intros k Hk Hnull.
    repeat (apply elem_of_cons in Hk as [-> | Hk];
            [vm_compute in Hnull; discriminate Hnull|]).
    by apply elem_of_nil in Hk.
  - intros v Hv Htrue. vm_compute in Hv. injection Hv as <-. discriminate Htrue.
  - intros k negative Hk Hinf.
    repeat (apply elem_of_cons in Hk as [-> | Hk];
            [vm_compute in Hinf; discriminate Hinf|]).
    by apply elem_of_nil in Hk.
  - split; intros k v Hk Hv;
      repeat (apply elem_of_cons in Hk as [-> | Hk];
              [vm_compute in Hv;
               first [discriminate Hv | injection Hv as <-; reflexivity]|]);
      by apply elem_of_nil in Hk.
Defined.

(** The four conditions of C8 on the rest of the payload cannot be
    dropped: wherever [_format_user] returns a record without [None],
    they hold. *)
Lemma fully_populated_only_if w user stats record :
  _format_user w (PDict user) (PDict stats) = Return (PDict record) ->
  no_null record ->
  copied_not_null user /\ language_is_text user /\
  counters_finite stats /\ ints_within_limit user stats.
Proof.
  intros H Hnn. unfold _format_user in H. cbn [py_get bind] in H.
  repeat match type of H with
         | bind ?m _ = _ =>
             let E := fresh "E" in
             destruct m eqn:E; cbn [bind] in H; [|discriminate H]
         end.
  injection H as <-.
  assert (Hnum : forall num s,
            _format_number w num = Return s -> ints_in_range num = true).
  { intros num s. unfold _format_number, py_str_checked.
    destruct (ints_in_range num) eqn:Hr; [done|].
    destruct num as [|b|n|[q|negative|]|t|l|d]; simpl in *;
      try discriminate.
    - by rewrite Hr. }
  split; [|split; [|split; [|split]]].
  - intros k Hk Hnull.
    pose proof (lookup_key_no_null _ "username" _ Hnn eq_refl) as H1.
    pose proof (lookup_key_no_null _ "nickname" _ Hnn eq_refl) as H2.
    pose proof (lookup_key_no_null _ "verified" _ Hnn eq_refl) as H3.
    pose proof (lookup_key_no_null _ "private" _ Hnn eq_refl) as H4.
    pose proof (lookup_key_no_null _ "profile_pic" _ Hnn eq_refl) as H5.
    repeat (apply elem_of_cons in Hk as [-> | Hk];
            [rewrite Hnull in *; simpl in *; congruence|]).
    by apply elem_of_nil in Hk.
  - intros v Hv Htrue.
    match goal with
    | E : _lang_code_to_name _ = Return _ |- _ =>
        rewrite Hv in E; change (default PNone (Some v)) with v in E;
        unfold py_or in E; rewrite Htrue in E;
        unfold _lang_code_to_name in E; rewrite Htrue in E;
        destruct v; simpl in E; try discriminate E
    end.
    by eexists.
  - intros k negative Hk Hinf.
    repeat (apply elem_of_cons in Hk as [-> | Hk];
            [match goal with
             | E : _format_number w _ = Return _ |- _ =>
                 rewrite Hinf in E; discriminate E
             end|]).
    by apply elem_of_nil in Hk.
  - intros k v Hk Hv.
    repeat (apply elem_of_cons in Hk as [-> | Hk];
            [match goal with
             | E : py_str_checked w _ = Return _ |- _ =>
                 rewrite Hv in E; unfold py_str_checked in E; simpl in E;
                 by destruct (ints_in_range v)
             end|]).
    by apply elem_of_nil in Hk.
  - intros k v Hk Hv.
    repeat (apply elem_of_cons in Hk as [-> | Hk];
            [match goal with
             | E : _format_number w _ = Return _ |- _ =>
                 rewrite Hv in E; exact (Hnum _ _ E)
             end|]).
    by apply elem_of_nil in Hk.
Qed.

End ScraperFacts.

(** ** Part VI: further properties of the rate limiter *)

Section RateLimitMore.

Import RateLimit RateLimitRuns.

Implicit Types (rl : gmap Z user_data) (d : user_data) (t u : Z).

Lemma reachable_count_bounds rl u d :
  reachable rl ->
  rl !! u = Some d ->
  1 <= count d <= RATE_LIMIT_COUNT.
Proof.
  intros Hreach. revert u d.
  induction Hreach as [|t u0 m Hm IH]; intros u d Hu.
  - by rewrite lookup_empty in Hu.
  - rewrite check_rate_limit_by_branch in Hu. cbv zeta in Hu.
    assert (Hentry : 0 <= count (entry t u0 m) <= RATE_LIMIT_COUNT).
    { unfold entry. destruct (m !! u0) as [d0|] eqn:H0; simpl.
      - specialize (IH u0 d0 H0). lia.
      - unfold RATE_LIMIT_COUNT. lia. }
    destruct (branch_of t u0 m) eqn:Hb; simpl in Hu;
      try (destruct (decide (u0 = u)) as [-> | Hne];
           [rewrite lookup_insert_eq in Hu; injection Hu as <-; simpl
           |rewrite lookup_insert_ne in Hu by done; by apply (IH u)]);
      try (unfold RATE_LIMIT_COUNT; lia).
    + by apply (IH u).
    + revert Hb. unfold branch_of. repeat case_decide; try discriminate.
      intros _. lia.
Qed.

(** X1: in every dictionary reached from the empty one by calls of
    [check_rate_limit], a stored count lies between 1 and
    [RATE_LIMIT_COUNT] = 20; and it is 20 exactly when every call of
    that user made no more than 300 s after the stored start is
    limited. *)
Theorem x_count_stays_within_limit rl u d :
  reachable rl ->
  rl !! u = Some d ->
  1 <= count d <= RATE_LIMIT_COUNT /\
  (count d = RATE_LIMIT_COUNT <->
   forall t, elapsed_us t d <= RATE_LIMIT_WINDOW * usec ->
             is_limited (fst (check_rate_limit t u rl)) = true).
Proof.
  intros Hreach Hu.
  pose proof (reachable_count_bounds rl u d Hreach Hu) as Hc.
  split; [exact Hc|]. split.
  - intros Hfull t Ht.
    by rewrite (check_rate_limit_denied t u rl d Hu Ht) by lia.
  - intros Hden.
    destruct (decide (count d = RATE_LIMIT_COUNT)) as [|Hne]; [done|].
    specialize (Hden (start_time d)).
    rewrite (check_rate_limit_counted (start_time d) u rl d Hu) in Hden;
      [discriminate Hden| |lia];
      unfold elapsed_us, RATE_LIMIT_WINDOW, usec; lia.
Qed.

Lemma x_count_witness :
  1 <= count (mk_user_data 1 0) <= RATE_LIMIT_COUNT /\
  (count (mk_user_data 1 0) = RATE_LIMIT_COUNT <->
   forall t, elapsed_us t (mk_user_data 1 0) <= RATE_LIMIT_WINDOW * usec ->
             is_limited (fst (check_rate_limit t 7 (snd (check_rate_limit 0 7 ∅))))
               = true).
Proof.
  apply (x_count_stays_within_limit (snd (check_rate_limit 0 7 ∅)) 7
           (mk_user_data 1 0)).
  - apply reachable_call, reachable_empty.
  - reflexivity.
Defined.

(** A call reads and writes the entry of its own user only. *)
Lemma check_rate_limit_other t u u' rl :
  u <> u' -> snd (check_rate_limit t u rl) !! u' = rl !! u'.
Proof.
  intros Hne. rewrite check_rate_limit_by_branch. cbv zeta.
  destruct (branch_of t u rl); simpl; by rewrite ?lookup_insert_ne.
Qed.

Lemma check_rate_limit_own t u rl1 rl2 :
  rl1 !! u = rl2 !! u ->
  fst (check_rate_limit t u rl1) = fst (check_rate_limit t u rl2) /\
  snd (check_rate_limit t u rl1) !! u = snd (check_rate_limit t u rl2) !! u.
Proof.
  intros Heq. rewrite !check_rate_limit_by_branch. cbv zeta.
  unfold branch_of, entry. rewrite Heq.
  repeat case_decide; simpl; by rewrite ?lookup_insert_eq.
Qed.

(** X2: calls of several users may interleave in any order: the
    verdicts one user gets, and the entry stored for that user at the
    end, are those the user's own calls give when made alone at the same
    clock readings. *)
Theorem x_users_do_not_interfere events : forall u rl,
  verdicts_of u (fst (run events rl)) = fst (calls (times_of u events) u rl) /\
  snd (run events rl) !! u = snd (calls (times_of u events) u rl) !! u.
Proof.
  assert (Hcalls : forall ts u rl1 rl2, rl1 !! u = rl2 !! u ->
            fst (calls ts u rl1) = fst (calls ts u rl2) /\
            snd (calls ts u rl1) !! u = snd (calls ts u rl2) !! u).
  { induction ts as [|t ts IHts]; intros u rl1 rl2 Heq; [done|].
    cbn [calls].
    destruct (check_rate_limit_own t u rl1 rl2 Heq) as [Hv Hs].
    destruct (check_rate_limit t u rl1) as [v1 m1],
             (check_rate_limit t u rl2) as [v2 m2]. simpl in Hv, Hs. subst v2.
    destruct (IHts u m1 m2 Hs) as [Hvs Hss].
    destruct (calls ts u m1) as [vs1 n1], (calls ts u m2) as [vs2 n2].
    simpl in *. by subst. }
  induction events as [|[t u0] events IH]; intros u rl; [done|].
  cbn [run]. unfold times_of, verdicts_of in *.
  destruct (check_rate_limit t u0 rl) as [v m] eqn:Hc.
  specialize (IH u m).
  destruct (run events m) as [vs m'] eqn:Hr. simpl in IH.
  destruct (decide (u0 = u)) as [-> | Hne].
  - cbn [fst snd]. rewrite !filter_cons_True by done.
    cbn [fmap list_fmap fst snd calls]. rewrite Hc.
    destruct (calls _ u m) as [ws m'']. simpl in *.
    destruct IH as [-> ->]. done.
  - cbn [fst snd]. rewrite !filter_cons_False by done.
    destruct IH as [-> ->].
    apply Hcalls. rewrite <- (check_rate_limit_other t u0 u rl Hne). by rewrite Hc.
Qed.

Lemma reported_wait_shape t u rl m s :
  fst (check_rate_limit t u rl) = Limited m s ->
  5 <= m /\ 0 <= s <= 59 /\
  60 * m + s = remaining_us t (entry t u rl) / usec.
Proof.
  rewrite check_rate_limit_by_branch. cbv zeta. unfold branch_of.
  repeat case_decide; simpl; try discriminate.
  intros [= <- <-].
  assert (Hr : 300 * usec <= remaining_us t (entry t u rl)).
  { unfold remaining_us, RATE_LIMIT_COOLDOWN, RATE_LIMIT_WINDOW, usec in *. lia. }
  split; [|split].
  - unfold minutes_of. apply Z.div_le_lower_bound; unfold usec in *; lia.
  - unfold seconds_of.
    pose proof (Z.mod_pos_bound (remaining_us t (entry t u rl)) (60 * usec)
                  ltac:(unfold usec; lia)) as Hm.
    split.
    + apply Z.div_pos; unfold usec in *; lia.
    + apply Z.lt_succ_r. apply Z.div_lt_upper_bound; unfold usec in *; lia.
  - apply minutes_seconds_total.
Qed.

(** X3: the wait a limited verdict reports is a proper split into
    minutes and seconds: at least 5 minutes, seconds between 0 and 59,
    and [60 * minutes + seconds] is the remaining cooldown in whole
    seconds. *)
Theorem x_reported_wait_is_well_formed t u rl m s :
  fst (check_rate_limit t u rl) = Limited m s ->
  5 <= m /\ 0 <= s <= 59 /\
  60 * m + s = remaining_us t (entry t u rl) / usec.
Proof. apply reported_wait_shape. Qed.

Lemma x_reported_wait_witness :
  5 <= 9 /\ 0 <= 58 <= 59 /\
  60 * 9 + 58 =
    remaining_us (3 * usec / 2) (entry (3 * usec / 2) 7 {[7 := mk_user_data 20 0]})
      / usec.
Proof.
  apply (x_reported_wait_is_well_formed (3 * usec / 2) 7 {[7 := mk_user_data 20 0]}).
  reflexivity.
Defined.

(** Every stored start time is the clock reading of some call. *)
Lemma reachable_by_start_times T rl u d :
  reachable_by T rl -> rl !! u = Some d -> start_time d <= T.
Proof.
  intros Hreach. revert u d.
  induction Hreach as [|t u0 m Ht Hm IH]; intros u d Hu.
  - by rewrite lookup_empty in Hu.
  - rewrite check_rate_limit_by_branch in Hu. cbv zeta in Hu.
    assert (Hentry : start_time (entry t u0 m) <= T).
    { unfold entry. destruct (m !! u0) as [d0|] eqn:H0; simpl; [by apply (IH u0)|done]. }
    destruct (branch_of t u0 m); simpl in Hu;
      try (destruct (decide (u0 = u)) as [-> | Hne];
           [rewrite lookup_insert_eq in Hu; by injection Hu as <-
           |rewrite lookup_insert_ne in Hu by done; by apply (IH u)]).
    by apply (IH u).
Qed.

(** X4: where the clock has not gone backwards (every earlier call was
    made no later than [now]), the wait a limited verdict reports is
    between 300 and 600 seconds, so between 5 and 10 minutes. *)
Theorem x_wait_between_five_and_ten_minutes T rl now u m s :
  reachable_by T rl ->
  T <= now ->
  fst (check_rate_limit now u rl) = Limited m s ->
  300 <= 60 * m + s <= 600 /\ 5 <= m <= 10.
Proof.
  intros Hreach Hnow Hv.
  destruct (reported_wait_shape now u rl m s Hv) as (Hm & Hs & Htot).
  assert (Hd : is_Some (rl !! u)).
  { destruct (rl !! u) eqn:Hu; [by eexists|]. exfalso.
    rewrite check_rate_limit_fresh in Hv by done. discriminate. }
  destruct Hd as [d Hu].
  pose proof (reachable_by_start_times T rl u d Hreach Hu) as Hstart.
  assert (Hrem : remaining_us now (entry now u rl) <= 600 * usec).
  { unfold entry. rewrite Hu. simpl.
    unfold remaining_us, elapsed_us, RATE_LIMIT_COOLDOWN. lia. }
  assert (Hq : remaining_us now (entry now u rl) / usec <= 600).
  { apply Z.lt_succ_r. apply Z.div_lt_upper_bound; unfold usec in *; lia. }
  lia.
Qed.

Lemma calls_reachable_by T ts : forall u rl,
  reachable_by T rl -> Forall (fun t => t <= T) ts ->
  reachable_by T (snd (calls ts u rl)).
Proof.
  induction ts as [|t ts IH]; intros u rl Hrl Hts; [exact Hrl|].
  apply Forall_cons in Hts as [Ht Hts]. cbn [calls].
  pose proof (reachable_by_call T t u rl Ht Hrl) as H1.
  destruct (check_rate_limit t u rl) as [v rl1]. simpl in H1.
  specialize (IH u rl1 H1 Hts). by destruct (calls ts u rl1).
Qed.

Lemma x_wait_bounds_witness :
  300 <= 60 * 9 + 58 <= 600 /\ 5 <= 9 <= 10.
Proof.
  apply (x_wait_between_five_and_ten_minutes 0
           (snd (calls (replicate 20 0) 7 ∅)) (3 * usec / 2) 7 9 58).
  - apply calls_reachable_by; [constructor|].
    repeat (constructor; [by vm_compute|]). constructor.
  - by vm_compute.
  - by vm_compute.
Defined.

(** Inside one window the calls let through are at most what is left
    of the quota. *)
Lemma allowed_in_window ts : forall rl u d,
  rl !! u = Some d ->
  0 <= count d <= RATE_LIMIT_COUNT ->
  Forall (fun t => t - start_time d <= RATE_LIMIT_WINDOW * usec) ts ->
  Z.of_nat (allowed_count (fst (calls ts u rl))) <= RATE_LIMIT_COUNT - count d.
Proof.
  induction ts as [|t ts IH]; intros rl u d Hu Hc Hts; [simpl; lia|].
  apply Forall_cons in Hts as [Ht Hts]. cbn [calls].
  destruct (decide (count d >= RATE_LIMIT_COUNT)) as [Hfull | Hroom].
  - rewrite (check_rate_limit_denied t u rl d Hu Ht Hfull).
    specialize (IH rl u d Hu Hc Hts).
    destruct (calls ts u rl) as [vs rl']. simpl in *. lia.
  - rewrite (check_rate_limit_counted t u rl d Hu Ht) by lia.
    specialize (IH (<[u := mk_user_data (count d + 1) (start_time d)]> rl) u
                   (mk_user_data (count d + 1) (start_time d))).
    destruct (calls ts u _) as [vs rl']. simpl in *.
    specialize (IH (lookup_insert_eq _ _ _) ltac:(lia) Hts). lia.
Qed.

(** Over a span of one window length there is at most one restart. *)
Lemma allowed_in_span ts : forall rl u d lo,
  rl !! u = Some d ->
  0 <= count d <= RATE_LIMIT_COUNT ->
  Forall (fun t => lo <= t <= lo + RATE_LIMIT_WINDOW * usec) ts ->
  Z.of_nat (allowed_count (fst (calls ts u rl)))
    <= (RATE_LIMIT_COUNT - count d) + RATE_LIMIT_COUNT.
Proof.
  induction ts as [|t ts IH]; intros rl u d lo Hu Hc Hts; [simpl; lia|].
  apply Forall_cons in Hts as [Ht Hts]. cbn [calls].
  destruct (decide (elapsed_us t d > RATE_LIMIT_WINDOW * usec)) as [Hstale | Hin].
  - rewrite (check_rate_limit_stale t u rl d Hu Hstale).
    pose proof (allowed_in_window ts (<[u := mk_user_data 1 t]> rl) u
                  (mk_user_data 1 t) (lookup_insert_eq _ _ _)
                  ltac:(simpl; unfold RATE_LIMIT_COUNT; lia)) as Hw.
    destruct (calls ts u _) as [vs rl']. simpl in *.
    assert (Hts' : Forall (fun t0 => t0 - t <= RATE_LIMIT_WINDOW * usec) ts).
    { eapply Forall_impl; [exact Hts|]. simpl. intros. lia. }
    specialize (Hw Hts'). lia.
  - destruct (decide (count d >= RATE_LIMIT_COUNT)) as [Hfull | Hroom].
    + rewrite (check_rate_limit_denied t u rl d Hu ltac:(lia) Hfull).
      specialize (IH rl u d lo Hu Hc Hts).
      destruct (calls ts u rl) as [vs rl']. simpl in *. lia.
    + rewrite (check_rate_limit_counted t u rl d Hu ltac:(lia)) by lia.
      specialize (IH (<[u := mk_user_data (count d + 1) (start_time d)]> rl) u
                     (mk_user_data (count d + 1) (start_time d)) lo).
      destruct (calls ts u _) as [vs rl']. simpl in *.
      specialize (IH (lookup_insert_eq _ _ _) ltac:(lia) Hts). lia.
Qed.

(** X5: among calls of one user whose clock readings all lie in a span
    of one window length (300 s), at most [2 * RATE_LIMIT_COUNT - 1] = 39
    are let through, from any reachable dictionary: the span can hold
    the end of one window and the start of the next. Lemma
    [rate_bound_attained] reaches the bound. *)
Theorem x_allowed_per_span_below_twice_the_limit rl u lo ts :
  reachable rl ->
  Forall (fun t => lo <= t <= lo + RATE_LIMIT_WINDOW * usec) ts ->
  Z.of_nat (allowed_count (fst (calls ts u rl))) <= 2 * RATE_LIMIT_COUNT - 1.
Proof.
  intros Hreach Hts.
  destruct (rl !! u) as [d|] eqn:Hu.
  - pose proof (reachable_count_bounds rl u d Hreach Hu) as Hc.
    pose proof (allowed_in_span ts rl u d lo Hu ltac:(lia) Hts) as H.
    unfold RATE_LIMIT_COUNT in *. lia.
  - destruct ts as [|t ts]; [simpl; unfold RATE_LIMIT_COUNT; lia|].
    apply Forall_cons in Hts as [Ht Hts]. cbn [calls].
    rewrite (check_rate_limit_fresh t u rl Hu).
    pose proof (allowed_in_window ts (<[u := mk_user_data 1 t]> rl) u
                  (mk_user_data 1 t) (lookup_insert_eq _ _ _)
                  ltac:(simpl; unfold RATE_LIMIT_COUNT; lia)) as Hw.
    destruct (calls ts u _) as [vs rl']. simpl in *.
    assert (Hts' : Forall (fun t0 => t0 - t <= RATE_LIMIT_WINDOW * usec) ts).
    { eapply Forall_impl; [exact Hts|]. simpl. intros. lia. }
    specialize (Hw Hts'). unfold RATE_LIMIT_COUNT in *. lia.
Qed.

Lemma x_rate_bound_witness :
  Z.of_nat
    (allowed_count
       (fst (calls (replicate 19 (300 * usec) ++ replicate 20 (300 * usec + 1)) 7
               (snd (check_rate_limit 0 7 ∅))))) <= 2 * RATE_LIMIT_COUNT - 1.
Proof.
  apply (x_allowed_per_span_below_twice_the_limit (snd (check_rate_limit 0 7 ∅)) 7
           (300 * usec)).
  - apply reachable_call, reachable_empty.
  - repeat (constructor; [by vm_compute|]). constructor.
Defined.

(** The bound is reached: one call at time 0, 19 calls at 300 s and 20
    calls a microsecond later are all let through. *)
Lemma rate_bound_attained :
  allowed_count
    (fst (calls (0 :: replicate 19 (300 * usec) ++ replicate 20 (300 * usec + 1)) 7 ∅))
  = 40%nat /\
  allowed_count
    (fst (calls (replicate 19 (300 * usec) ++ replicate 20 (300 * usec + 1)) 7
            (snd (check_rate_limit 0 7 ∅))))
  = 39%nat.
Proof. split; by vm_compute. Qed.

(** Calls made while the user is limited are all denied and leave the
    dictionary as it is. *)
Lemma calls_while_limited ts : forall rl u d,
  rl !! u = Some d ->
  count d >= RATE_LIMIT_COUNT ->
  Forall (fun t => elapsed_us t d <= RATE_LIMIT_WINDOW * usec) ts ->
  calls ts u rl =
    ((fun t => Limited (minutes_of (remaining_us t d))
                       (seconds_of (remaining_us t d))) <$> ts, rl).
Proof.
  induction ts as [|t ts IH]; intros rl u d Hu Hc Hts; [done|].
  apply Forall_cons in Hts as [Ht Hts]. cbn [calls].
  rewrite (check_rate_limit_denied t u rl d Hu Ht Hc).
  by rewrite (IH rl u d Hu Hc Hts).
Qed.

(** X6: calls made while a user is limited (count at the limit, at
    most 300 s after the window start) are all limited and leave the
    dictionary as it was, however many they are; the first call more
    than 300 s after the window start is then allowed and restarts the
    count at 1. *)
Theorem x_denied_calls_do_not_prolong_the_denial rl u d ts t' :
  rl !! u = Some d ->
  count d >= RATE_LIMIT_COUNT ->
  Forall (fun t => elapsed_us t d <= RATE_LIMIT_WINDOW * usec) ts ->
  elapsed_us t' d > RATE_LIMIT_WINDOW * usec ->
  Forall (fun v => is_limited v = true) (fst (calls ts u rl)) /\
  snd (calls ts u rl) = rl /\
  check_rate_limit t' u (snd (calls ts u rl)) =
    (Allowed, <[u := mk_user_data 1 t']> rl).
Proof.
  intros Hu Hc Hts Ht'.
  rewrite (calls_while_limited ts rl u d Hu Hc Hts). simpl.
  split; [|split; [reflexivity|]].
  - apply Forall_fmap. by apply Forall_true.
  - by apply (check_rate_limit_stale t' u rl d).
Qed.

Lemma x_denied_calls_witness :
  Forall (fun v => is_limited v = true)
    (fst (calls [usec; 2 * usec; 300 * usec] 7 {[7 := mk_user_data 20 0]})) /\
  snd (calls [usec; 2 * usec; 300 * usec] 7 {[7 := mk_user_data 20 0]})
    = {[7 := mk_user_data 20 0]} /\
  check_rate_limit (300 * usec + 1) 7
    (snd (calls [usec; 2 * usec; 300 * usec] 7 {[7 := mk_user_data 20 0]})) =
    (Allowed, <[7 := mk_user_data 1 (300 * usec + 1)]> {[7 := mk_user_data 20 0]}).
Proof.
  apply (x_denied_calls_do_not_prolong_the_denial
           {[7 := mk_user_data 20 0]} 7 (mk_user_data 20 0)
           [usec; 2 * usec; 300 * usec] (300 * usec + 1)).
  - reflexivity.
  - by vm_compute.
  - repeat (constructor; [by vm_compute|]). constructor.
  - by vm_compute.
Defined.

End RateLimitMore.

(** ** Part VII: further properties of the scraper *)

Section ScraperMoreFacts.

Import Py Scraper ScraperById Samples.
Local Open Scope string_scope.

(** *** Video lookup *)

Lemma ytdlp_result_record info result :
  ytdlp_result info = Return result ->
  result = PNone \/ is_video_record result.
Proof.
  unfold ytdlp_result. intros H.
  destruct (truthy info); [|left; congruence].
  destruct (py_get info "url" PNone) as [url0|]; simpl in H; [|discriminate].
  destruct (py_get info "formats" PNone) as [formats0|]; simpl in H; [|discriminate].
  destruct (if negb (truthy url0) && truthy formats0 then _ else _)
    as [media|]; simpl in H; [|discriminate].
  destruct (truthy media); [|left; congruence].
  destruct (py_get info "title" _); simpl in H; [|discriminate].
  destruct (py_get info "uploader" _); simpl in H; [|discriminate].
  destruct (py_get info "duration" _); simpl in H; [|discriminate].
  destruct (py_get info "thumbnail" _); simpl in H; [|discriminate].
  injection H as <-. right. by eexists.
Qed.

Lemma page_result_record data result :
  page_result data = Return (Some result) -> is_video_record result.
Proof.
  unfold page_result. intros H.
  repeat match type of H with
         | bind ?m _ = _ => destruct m; simpl in H; [|discriminate]
         end.
  match type of H with
  | (if truthy ?u then _ else _) = _ => destruct (truthy u); [|discriminate]
  end.
  repeat match type of H with
         | bind ?m _ = _ => destruct m; simpl in H; [|discriminate]
         end.
  injection H as <-. by eexists.
Qed.

Lemma tikwm_result_record data result :
  tikwm_result data = Return (Some result) -> is_video_record result.
Proof.
  unfold tikwm_result. intros H.
  repeat match type of H with
         | bind ?m _ = _ => destruct m; simpl in H; [|discriminate]
         end.
  match type of H with
  | (if ?c then _ else _) = _ => destruct c; [|discriminate]
  end.
  repeat match type of H with
         | bind ?m _ = _ => destruct m; simpl in H; [|discriminate]
         end.
  injection H as <-. by eexists.
Qed.

Lemma method_ytdlp_record w url result :
  fst (method_ytdlp w url) = Return (Some result) -> is_video_record result.
Proof.
  unfold method_ytdlp. destruct (HAS_YTDLP w); [|discriminate].
  unfold _ytdlp_download, try_except, io_bind, perform, pure, io_ret.
  destruct (extract_info w url) as [info|e]; simpl; [|discriminate].
  destruct (ytdlp_result info) as [r|e] eqn:Hr; simpl; [|discriminate].
  destruct (truthy r) eqn:Ht; simpl; [|discriminate].
  destruct (py_get r "error" PNone) as [err|]; simpl; [|discriminate].
  destruct (truthy err); simpl; [discriminate|].
  intros [= <-]. destruct (ytdlp_result_record info r Hr) as [-> | Hrec]; [discriminate|done].
Qed.

Lemma method_page_record w url result :
  fst (method_page w url) = Return (Some result) -> is_video_record result.
Proof.
  unfold method_page, try_except, io_bind, perform, pure, io_ret.
  destruct (client_get w url) as [response|e]; simpl; [|discriminate].
  destruct (search_rehydration (text response)) as [group1|]; simpl; [|discriminate].
  destruct (json_loads w group1) as [data|]; simpl; [|discriminate].
  destruct (page_result data) as [[r|]|] eqn:Hr; simpl; try discriminate.
  intros [= <-]. by apply (page_result_record data).
Qed.

Lemma method_tikwm_record w url result :
  fst (method_tikwm w url) = Return (Some result) -> is_video_record result.
Proof.
  unfold method_tikwm, try_except, io_bind, perform, pure, io_ret.
  destruct (client_post w _ _) as [response|e]; simpl; [|discriminate].
  destruct (json_loads w (text response)) as [data|]; simpl; [|discriminate].
  destruct (tikwm_result data) as [[r|]|] eqn:Hr; simpl; try discriminate.
  intros [= <-]. by apply (tikwm_result_record data).
Qed.

Lemma video_record_not_error result :
  is_video_record result -> result <> error_result.
Proof. intros (fields & -> & Hkeys & _) [= ->]. discriminate. Qed.

(** X7: [get_video_no_watermark] never raises. It returns either
    [{"error": True}] or a record with the seven keys of a video result
    and ["error": False], and it returns [{"error": True}] exactly when
    none of the three methods succeeds on the working url. *)
Theorem x_video_lookup_never_raises w url :
  exists result,
    fst (get_video_no_watermark w url) = Return result /\
    (result = error_result \/ is_video_record result) /\
    (result = error_result <->
     succeeds w 1 (working_url w url) = false /\
     succeeds w 2 (working_url w url) = false /\
     succeeds w 3 (working_url w url) = false).
Proof.
  unfold get_video_no_watermark, working_url, succeeds, method, methods_from_page.
  destruct (resolve_short_link_shape w (strip url)) as (target & made0 & -> & _).
  pose proof (method_ytdlp_record w target) as R1.
  pose proof (method_page_record w target) as R2.
  pose proof (method_tikwm_record w target) as R3.
  destruct (method_ytdlp_shape w target) as [r1 H1].
  destruct (method_page_shape w target) as [r2 H2].
  destruct (method_tikwm_shape w target) as [r3 H3].
  unfold io_bind. simpl. rewrite H1, H2, H3 in *. simpl in *.
  destruct r1 as [result1|]; simpl.
  { specialize (R1 result1 eq_refl). eexists. split; [reflexivity|].
    split; [by right|]. split; [by intros ?%video_record_not_error|].
    by intros [? _]. }
  destruct r2 as [result2|]; simpl.
  { specialize (R2 result2 eq_refl). eexists. split; [reflexivity|].
    split; [by right|]. split; [by intros ?%video_record_not_error|].
    by intros (_ & ? & _). }
  destruct r3 as [result3|]; simpl.
  { specialize (R3 result3 eq_refl). eexists. split; [reflexivity|].
    split; [by right|]. split; [by intros ?%video_record_not_error|].
    by intros (_ & _ & ?). }
  eexists. split; [reflexivity|]. split; [by left|]. done.
Qed.



(** *** The format yt-dlp's answer is read from *)

Lemma first_format_url_skips skipped : forall rest init,
  Forall (fun fmt => exists v, py_get fmt "url" PNone = Return v /\ truthy v = false)
         skipped ->
  first_format_url (skipped ++ rest) init = first_format_url rest init.
Proof.
  induction skipped as [|fmt skipped IH]; intros rest init Hall; [done|].
  apply Forall_cons in Hall as [(v & Hv & Hfalse) Hall].
  cbn [app first_format_url]. rewrite Hv. simpl. rewrite Hfalse. by apply IH.
Qed.

(** X9: when yt-dlp's answer has no top-level ["url"], the media url
    of the result is the ["url"] of the last entry of ["formats"] that
    has one: entries after it without a url are passed over, entries
    before it are not looked at. *)
Theorem x_ytdlp_takes_the_last_format_with_a_url info before fmt after media :
  (forall v, lookup_key "url" info = Some v -> truthy v = false) ->
  lookup_key "formats" info = Some (PList (before ++ fmt :: after)) ->
  py_get fmt "url" PNone = Return media ->
  truthy media = true ->
  Forall (fun f => exists v, py_get f "url" PNone = Return v /\ truthy v = false)
         after ->
  exists result,
    ytdlp_result (PDict info) = Return result /\
    py_get result "video_url" PNone = Return media.
Proof.
  intros Hurl Hformats Hfmt Hmedia Hafter.
  assert (Hinfo : truthy (PDict info) = true).
  { destruct info; [discriminate Hformats|done]. }
  unfold ytdlp_result. rewrite Hinfo. cbn [py_get bind].
  assert (Hu : truthy (default PNone (lookup_key "url" info)) = false).
  { destruct (lookup_key "url" info) eqn:H0; simpl; [by apply Hurl|done]. }
  rewrite Hu, Hformats. cbn [default from_option id negb andb truthy].
  assert (Hne : match (before ++ fmt :: after)%list with [] => false | _ => true end = true)
    by (by destruct before).
  rewrite Hne. cbn [py_index]. rewrite Hformats. cbn [bind scan_formats].
  rewrite rev_app_distr. cbn [rev]. rewrite <- app_assoc.
  rewrite first_format_url_skips by (by apply Forall_rev).
  cbn [app first_format_url]. rewrite Hfmt. cbn [bind]. rewrite Hmedia.
  assert (Hidx : py_index fmt "url" = Return media).
  { destruct fmt; try discriminate. simpl in *.
    destruct (lookup_key "url" d) eqn:Hd; simpl in *; [congruence|].
    injection Hfmt as <-. discriminate. }
  rewrite Hidx. cbn [bind]. rewrite Hmedia. by eexists.
Qed.

Lemma x_ytdlp_format_witness :
  exists result,
    ytdlp_result
      (PDict [("title", PStr "clip");
              ("formats", PList [PDict [("url", PStr "low")];
                                 PDict [("url", PStr "high")];
                                 PDict [("format_id", PStr "audio")]])])
      = Return result /\
    py_get result "video_url" PNone = Return (PStr "high").
Proof.
  apply (x_ytdlp_takes_the_last_format_with_a_url
           [("title", PStr "clip");
            ("formats", PList [PDict [("url", PStr "low")];
                               PDict [("url", PStr "high")];
                               PDict [("format_id", PStr "audio")]])]
           [PDict [("url", PStr "low")]]
           (PDict [("url", PStr "high")])
           [PDict [("format_id", PStr "audio")]]
           (PStr "high")).
  - intros v Hv. discriminate Hv.
  - reflexivity.
  - reflexivity.
  - reflexivity.
  - repeat constructor. by exists PNone.
Defined.

(** *** Lookup by username *)

(** X10: on an input of ASCII characters [get_user_by_username] makes
    exactly one outbound call, the [get] of
    [https://www.tiktok.com/@name] for the name it read from the input,
    whatever the answer is; and none where the input is a [tiktok.com]
    url without a name. *)
Theorem x_profile_lookup_makes_one_request w username :
  ascii_text username = true ->
  snd (get_user_by_username w username) =
    match normalize_username username with
    | Some name => [CallGet (profile_page name)]
    | None => []
    end.
Proof.
  intros _. unfold get_user_by_username.
  destruct (normalize_username username) as [name|]; [|reflexivity].
  destruct (scrape_page_never_raises w (profile_page name)) as [user_info ->].
  unfold io_bind, pure, io_ret. by destruct (truthy user_info).
Qed.

Lemma x_profile_lookup_request_witness :
  snd (get_user_by_username plain_pages " @alice/ ") =
    [CallGet "https://www.tiktok.com/@alice"].
Proof.
  apply (x_profile_lookup_makes_one_request plain_pages " @alice/ ").
  reflexivity.
Defined.

(** What the page scrape returns when the page is served with status
    200 and a payload that decodes. *)
Lemma scrape_page_payload w url r group1 data :
  client_get w url = Return r ->
  status_code r = 200%Z ->
  search_rehydration (text r) = Some group1 ->
  json_loads w group1 = Return data ->
  fst (_scrape_tiktok_page w url) =
    Return (match user_info_of data with
            | Return user_info => user_info
            | Raise _ => PNone
            end).
Proof.
  intros Hget Hstatus Hsearch Hjson.
  unfold _scrape_tiktok_page, try_except, io_bind, perform, pure, io_ret.
  rewrite Hget. simpl. rewrite Hstatus. simpl. rewrite Hsearch, Hjson. simpl.
  by destruct (user_info_of data).
Qed.

(** X11: [get_user_by_username] raises [AttributeError] when the page
    is served with status 200 and its payload has status code 0 and a
    ["userInfo"] that is truthy but not a dictionary (a string, a number,
    a list): [_scrape_tiktok_page] hands the value over and
    [user_info.get] is applied to it outside any [try]. *)
Theorem x_profile_lookup_raises_on_odd_user_info w username name r group1 data user_info :
  normalize_username username = Some name ->
  client_get w (profile_page name) = Return r ->
  status_code r = 200%Z ->
  search_rehydration (text r) = Some group1 ->
  json_loads w group1 = Return data ->
  user_info_of data = Return user_info ->
  truthy user_info = true ->
  (forall d, user_info <> PDict d) ->
  fst (get_user_by_username w username) = Raise AttributeError.
Proof.
  intros Hname Hget Hstatus Hsearch Hjson Hinfo Htruthy Hshape.
  pose proof (scrape_page_payload w _ r group1 data Hget Hstatus Hsearch Hjson) as Hs.
  rewrite Hinfo in Hs.
  unfold get_user_by_username. rewrite Hname.
  destruct (_scrape_tiktok_page w (profile_page name)) as [o made].
  simpl in Hs. subst o. unfold io_bind. rewrite Htruthy. simpl.
  destruct user_info; try reflexivity. by destruct (Hshape d).
Qed.

Lemma x_profile_lookup_raises_witness :
  fst (get_user_by_username odd_user_info "alice") = Raise AttributeError.
Proof.
  apply (x_profile_lookup_raises_on_odd_user_info odd_user_info "alice" "alice"
           (mk_response 200 (REHYDRATION_TAG +:+ ">payload</script>")
              (profile_page "alice"))
           "payload" odd_payload (PStr "x")).
  - reflexivity.
  - reflexivity.
  - reflexivity.
  - reflexivity.
  - reflexivity.
  - reflexivity.
  - reflexivity.
  - intros d. discriminate.
Defined.

(** Nothing is stripped from the right of a text whose characters all
    pass a test that the stripped ones fail. *)
Lemma rstrip_by_none (p q : ascii -> bool) s :
  (forall c, p c = true -> q c = false) ->
  take_while p s = s -> rstrip_by q s = s.
Proof.
  intros Hpq. induction s as [|c s IH]; [done|].
  cbn [take_while rstrip_by]. destruct (p c) eqn:Hc; [|discriminate].
  intros [= Hs]. rewrite (IH Hs). destruct s; [|done].
  by rewrite (Hpq c Hc).
Qed.

(** Nothing is stripped from the right of a text that ends in one that
    has nothing to strip. *)
Lemma rstrip_by_app_keep p before s :
  rstrip_by p s = s -> s <> EmptyString ->
  rstrip_by p (before +:+ s) = before +:+ s.
Proof.
  intros Hs Hne. induction before as [|c before IH]; [exact Hs|].
  change (String c before +:+ s) with (String c (before +:+ s)).
  cbn [rstrip_by]. rewrite IH.
  destruct (before +:+ s) eqn:He; [|done].
  destruct before as [|b before'].
  - change (s = EmptyString) in He. congruence.
  - change (String b (before' +:+ s) = EmptyString) in He. discriminate.
Qed.

(** X12: the profile link built for a name, given back to
    [get_user_by_username], is read as that name: for a non-empty name
    of ASCII characters without [/] or [?], without a leading [@] and
    without trailing white space. *)
Theorem x_profile_link_leads_back_to_the_name name :
  ascii_text name = true ->
  name <> EmptyString ->
  take_while segment_char name = name ->
  lstrip_char "@" name = name ->
  rstrip_by is_space name = name ->
  normalize_username (profile_page name) = Some name.
Proof.
  intros _ Hne Hseg Hat Hspace.
  assert (Hslash : rstrip_by (is_char "/") name = name).
  { apply (rstrip_by_none segment_char); [|done].
    intros c. unfold segment_char. by destruct (is_char "/" c). }
  assert (Hclean : clean_username (profile_page name) = profile_page name).
  { unfold clean_username, profile_page, strip, strip_char, lstrip_char, strip_by.
    change (lstrip_by is_space ("https://www.tiktok.com/@" +:+ name))
      with ("https://www.tiktok.com/@" +:+ name).
    rewrite (rstrip_by_app_keep _ _ _ Hspace Hne).
    change (lstrip_by (is_char "@") ("https://www.tiktok.com/@" +:+ name))
      with ("https://www.tiktok.com/@" +:+ name).
    change (lstrip_by (is_char "/") ("https://www.tiktok.com/@" +:+ name))
      with ("https://www.tiktok.com/@" +:+ name).
    by rewrite (rstrip_by_app_keep _ _ _ Hslash Hne). }
  unfold normalize_username. rewrite Hclean. unfold profile_page.
  destruct name as [|c rest]; [done|].
  assert (Hsearch : search_profile ("https://www.tiktok.com/@" +:+ String c rest)
                    = Some (String c rest)).
  { cbv -[take_while segment_char]. by rewrite Hseg. }
  change (contains "tiktok.com" ("https://www.tiktok.com/@" +:+ String c rest))
    with true.
  cbv iota. rewrite Hsearch. by rewrite Hat.
Qed.

Lemma x_profile_link_witness :
  normalize_username (profile_page "alice.b_1") = Some "alice.b_1".
Proof.
  apply (x_profile_link_leads_back_to_the_name "alice.b_1").
  - reflexivity.
  - discriminate.
  - reflexivity.
  - reflexivity.
  - reflexivity.
Defined.

(** *** Lookup by id *)

(** The tikwm block never raises and posts once. *)
Lemma lookup_by_api_shape w user_id :
  exists r,
    lookup_by_api w user_id =
      (Return r, [CallPost (TIKWM_API +:+ "/user/info") (user_info_form user_id)]).
Proof.
  unfold lookup_by_api, try_except, io_bind, perform, pure, io_ret.
  destruct (client_post w _ _) as [response|e]; simpl; [|by eexists].
  destruct (bind (json_loads w (text response)) _); simpl; by eexists.
Qed.



(** *** The record of a profile *)

Ltac split_binds H :=
  repeat match type of H with
         | bind ?m _ = _ => destruct m eqn:?; simpl in H; [|discriminate]
         end.

Lemma format_user_record w user stats result :
  _format_user w user stats = Return result ->
  exists record,
    result = PDict record /\
    fst <$> record = record_keys /\
    lookup_key "error" record = Some (PBool false) /\
    lookup_key "raw_user" record = Some user /\
    lookup_key "raw_stats" record = Some stats /\
    (forall k, k ∈ ["user_id"; "followers"; "following"; "likes"; "videos";
                    "friends"; "digg"; "created"; "region"; "profile_link"] ->
       exists s, lookup_key k record = Some (PStr s)) /\
    (forall k, k ∈ ["bio"; "bio_link"] ->
       exists v, lookup_key k record = Some v /\ truthy v = true).
Proof.
  unfold _format_user. intros H. split_binds H.
  injection H as <-. eexists. split; [reflexivity|].
  split; [reflexivity|]. split; [reflexivity|].
  split; [reflexivity|]. split; [reflexivity|]. split.
  - intros k Hk. set_unfold. repeat destruct Hk as [-> | Hk]; try done;
      by eexists.
  - intros k Hk. set_unfold. destruct Hk as [-> | [-> | []]];
      (eexists; split; [reflexivity|]); unfold py_or;
      match goal with |- truthy (if truthy ?x then _ else _) = _ =>
        destruct (truthy x) eqn:Hx; [exact Hx|reflexivity] end.
Qed.

(** X14: whenever [_format_user] returns, the result has the 21 keys
    of a profile record in the order of the source, with ["error": False]
    and the two inputs unchanged under ["raw_user"] and ["raw_stats"];
    the id, the six counters, the creation date, the region and the
    profile link are strings, and the bio and the bio link are never
    empty. *)
Theorem x_profile_record_has_every_field w user stats result :
  _format_user w user stats = Return result ->
  exists record,
    result = PDict record /\
    fst <$> record = record_keys /\
    lookup_key "error" record = Some (PBool false) /\
    lookup_key "raw_user" record = Some user /\
    lookup_key "raw_stats" record = Some stats /\
    (forall k, k ∈ ["user_id"; "followers"; "following"; "likes"; "videos";
                    "friends"; "digg"; "created"; "region"; "profile_link"] ->
       exists s, lookup_key k record = Some (PStr s)) /\
    (forall k, k ∈ ["bio"; "bio_link"] ->
       exists v, lookup_key k record = Some v /\ truthy v = true).
Proof. apply format_user_record. Qed.

Lemma x_profile_record_witness :
  exists record,
    PDict [("error", PBool false); ("username", PStr "N/A");
           ("nickname", PStr "N/A"); ("user_id", PStr "N/A");
           ("bio", PStr "N/A"); ("verified", PBool false);
           ("private", PBool false); ("followers", PStr "0");
           ("following", PStr "0"); ("likes", PStr "0");
           ("videos", PStr "0"); ("friends", PStr "0");
           ("digg", PStr "0"); ("created", PStr "N/A");
           ("region", PStr "N/A"); ("language", PStr "N/A");
           ("bio_link", PStr "N/A"); ("profile_pic", PStr EmptyString);
           ("profile_link", PStr "https://www.tiktok.com/@");
           ("raw_user", PDict bare_user);
           ("raw_stats", PDict bare_stats)] = PDict record /\
    fst <$> record = record_keys /\
    lookup_key "error" record = Some (PBool false) /\
    lookup_key "raw_user" record = Some (PDict bare_user) /\
    lookup_key "raw_stats" record = Some (PDict bare_stats) /\
    (forall k, k ∈ ["user_id"; "followers"; "following"; "likes"; "videos";
                    "friends"; "digg"; "created"; "region"; "profile_link"] ->
       exists s, lookup_key k record = Some (PStr s)) /\
    (forall k, k ∈ ["bio"; "bio_link"] ->
       exists v, lookup_key k record = Some v /\ truthy v = true).
Proof.
  apply (x_profile_record_has_every_field offline (PDict bare_user) (PDict bare_stats)).
  reflexivity.
Defined.

(** *** Region and language tables *)

Lemma upper_lower_char c : upper_char (lower_char c) = upper_char c.
Proof. destruct c as [[] [] [] [] [] [] [] []]; reflexivity. Qed.

Lemma lower_upper_char c : lower_char (upper_char c) = lower_char c.
Proof. destruct c as [[] [] [] [] [] [] [] []]; reflexivity. Qed.

Lemma upper_lower s : upper (lower s) = upper s.
Proof.
  unfold upper, lower. induction s as [|c s IH]; [done|].
  cbn [map_chars]. by rewrite upper_lower_char, IH.
Qed.

Lemma lower_upper s : lower (upper s) = lower s.
Proof.
  unfold upper, lower. induction s as [|c s IH]; [done|].
  cbn [map_chars]. by rewrite lower_upper_char, IH.
Qed.

Lemma upper_upper s : upper (upper s) = upper s.
Proof.
  unfold upper. induction s as [|c s IH]; [done|].
  cbn [map_chars]. rewrite IH. f_equal.
  destruct c as [[] [] [] [] [] [] [] []]; reflexivity.
Qed.

(** X15: for a region code of ASCII characters [_resolve_region] gives
    the same answer in lower case, in upper case and as given; every
    entry of [REGION_MAP] is found from any spelling of its key in
    upper and lower case, and every entry of [LANG_MAP] from any such
    spelling of its key. *)
Theorem x_region_and_language_ignore_case :
  (forall s language,
     ascii_text s = true ->
     _resolve_region (PStr (lower s)) language = _resolve_region (PStr s) language /\
     _resolve_region (PStr (upper s)) language = _resolve_region (PStr s) language) /\
  Forall (fun entry =>
            forall s language, upper s = fst entry ->
              _resolve_region (PStr s) language = Return (snd entry)) REGION_MAP /\
  Forall (fun entry =>
            forall s, lower s = fst entry ->
              _lang_code_to_name (PStr s) = Return (PStr (snd entry))) LANG_MAP.
Proof.
  split; [|split].
  - intros s language _. unfold _resolve_region. cbn [truthy py_upper bind].
    rewrite upper_lower, upper_upper. split; by destruct s.
  - unfold REGION_MAP.
    repeat (apply List.Forall_cons;
            [intros s language Hs; unfold _resolve_region;
             cbn [truthy py_upper bind fst snd] in *;
             rewrite Hs; by destruct s|]).
    apply List.Forall_nil.
  - unfold LANG_MAP.
    repeat (apply List.Forall_cons;
            [intros s Hs; unfold _lang_code_to_name;
             cbn [truthy py_lower bind fst snd negb] in *;
             rewrite Hs; by destruct s|]).
    apply List.Forall_nil.
Qed.

(** *** Grouping of digits *)

Lemma string_of_uint_digits u :
  Forall (fun c => is_digit c = true)
         (list_ascii_of_string (NilEmpty.string_of_uint u)).
Proof. induction u; simpl; constructor; done. Qed.

Lemma decimal_digits n :
  Forall (fun c => is_digit c = true) (list_ascii_of_string (decimal n)).
Proof.
  unfold decimal, NilZero.string_of_uint.
  destruct (N.to_uint n) eqn:Hu; try (rewrite <- Hu; apply string_of_uint_digits).
  by repeat constructor.
Qed.

Lemma without_char_list x s :
  list_ascii_of_string (without_char x s) =
    List.filter (fun c => negb (is_char x c)) (list_ascii_of_string s).
Proof.
  induction s as [|c s IH]; [done|]. simpl.
  destruct (is_char x c); simpl; by rewrite IH.
Qed.

(** The grouping adds commas and nothing else. *)
Lemma commas_filter l : forall i,
  Forall (fun c => is_digit c = true) l ->
  List.filter (fun c => negb (is_char "," c)) (commas l i) = l.
Proof.
  induction l as [|d l IH]; intros i Hl; [done|].
  apply Forall_cons in Hl as [Hd Hl]. cbn [commas].
  assert (Hnc : negb (is_char "," d) = true).
  { unfold is_char. destruct (Ascii.eqb_spec "," d) as [<-|]; [discriminate Hd|done]. }
  destruct (i =? 3)%nat; cbn [List.filter]; change (is_char "," ",") with true;
    cbn [negb]; rewrite Hnc; by rewrite IH.
Qed.

(** Where the commas sit, counted from the last character. *)
Lemma commas_positions l : forall i j,
  (i <= 3)%nat ->
  Forall (fun c => is_digit c = true) l ->
  commas l i !! j = Some ","%char <->
  (j < length (commas l i))%nat /\ ((j + i) mod 4 = 3)%nat.
Proof.
  induction l as [|d l IH]; intros i j Hi Hl.
  - simpl. rewrite lookup_nil. split; [done|]. intros [? _]. lia.
  - apply Forall_cons in Hl as [Hd Hl]. cbn [commas].
    assert (Hnc : d <> ","%char) by (intros ->; discriminate Hd).
    destruct (Nat.eqb_spec i 3) as [-> | Hne].
    + destruct j as [|[|j]]; cbn [lookup list_lookup length].
      * split; [intros _; split; [lia|done]|done].
      * split; [by intros [= ?]|]. intros [_ H]. simpl in H. lia.
      * rewrite (IH 1%nat j) by (done || lia).
        replace ((S (S j) + 3) mod 4)%nat with ((j + 1) mod 4)%nat
          by (rewrite <- (Nat.Div0.mod_add (j + 1) 1 4); f_equal; lia).
        split; intros [? ?]; split; (done || lia).
    + destruct j as [|j]; cbn [lookup list_lookup length].
      * split; [by intros [= ?]|]. intros [_ H].
        rewrite Nat.add_0_l, Nat.mod_small in H by lia. lia.
      * rewrite (IH (S i) j) by (done || lia).
        replace (S j + i)%nat with (j + S i)%nat by lia.
        split; intros [? ?]; split; (done || lia).
Qed.

Lemma last_cons_cons {A} (x y : A) l : last (x :: y :: l) = last (y :: l).
Proof. done. Qed.

Lemma commas_last l : forall i,
  l <> [] -> last (commas l i) = last l.
Proof.
  induction l as [|d l IH]; intros i Hne; [done|].
  cbn [commas]. destruct l as [|d' l].
  - by destruct (i =? 3)%nat.
  - rewrite last_cons_cons. rewrite <- (IH (if (i =? 3)%nat then 1 else S i))%nat by done.
    destruct (i =? 3)%nat.
    + rewrite last_cons_cons.
      destruct (commas (d' :: l) 1) eqn:Hc; [|done].
      cbn [commas] in Hc. by destruct (1 =? 3)%nat.
    + destruct (commas (d' :: l) (S i)) eqn:Hc; [|done].
      cbn [commas] in Hc. by destruct (S i =? 3)%nat.
Qed.

(** X16: the text [f"{n:,}"] is the decimal text of [n] with commas
    added: taking the commas out gives [str(n)]; and for [n >= 0],
    counting from the right, the commas are exactly at the positions 3,
    7, 11, ... inside the text, so the text never starts with a
    comma. *)
Theorem x_grouping_puts_a_comma_every_three_digits n :
  without_char "," (format_grouped n) = str_of_int n /\
  (0 <= n ->
   let shown := rev (list_ascii_of_string (format_grouped n)) in
   (forall j, shown !! j = Some ","%char <->
              (j < length shown)%nat /\ (j mod 4 = 3)%nat) /\
   last shown = head (list_ascii_of_string (decimal (Z.abs_N n)))).
Proof.
  pose proof (decimal_digits (Z.abs_N n)) as Hd.
  split.
  - unfold format_grouped, str_of_int. cbv zeta.
    assert (Hbody : without_char ","
              (string_of_list_ascii
                 (rev (commas (rev (list_ascii_of_string (decimal (Z.abs_N n)))) 0)))
            = decimal (Z.abs_N n)).
    { rewrite <- (string_of_list_ascii_of_string (without_char _ _)).
      rewrite without_char_list, list_ascii_of_string_of_list_ascii.
      rewrite <- (rev_involutive (List.filter _ _)).
      rewrite <- List.filter_rev, rev_involutive.
      rewrite commas_filter by (by apply Forall_rev).
      by rewrite rev_involutive, string_of_list_ascii_of_string. }
    destruct (n <? 0)%Z; [|exact Hbody].
    cbn [without_char]. change (is_char "," "-") with false. cbv iota.
    by rewrite Hbody.
  - intros Hn. cbv zeta. unfold format_grouped. cbv zeta.
    assert (Hpos : (n <? 0)%Z = false) by (apply Z.ltb_ge; lia).
    rewrite Hpos. rewrite list_ascii_of_string_of_list_ascii, rev_involutive.
    split.
    + intros j. rewrite commas_positions by (lia || by apply Forall_rev).
      by rewrite Nat.add_0_r.
    + destruct (list_ascii_of_string (decimal (Z.abs_N n))) as [|d ds] eqn:Hds;
        [done|].
      rewrite commas_last by (simpl; by destruct (rev ds)).
      simpl. by rewrite last_snoc.
Qed.

(** *** The payload pattern *)

Lemma prefix_app_r p s rest :
  String.prefix p s = true -> String.prefix p (s +:+ rest) = true.
Proof.
  intros (r & ->)%prefix_app. apply prefix_app. exists (r +:+ rest).
  clear. induction p as [|c p IH]; [done|].
  change (String c (p +:+ r) +:+ rest = String c (p +:+ r +:+ rest)).
  by rewrite <- IH.
Qed.

(** [find_sub] splits the text at the first occurrence of the needle. *)
Lemma find_sub_first needle s before after :
  needle <> EmptyString ->
  find_sub needle s = Some (before, after) ->
  s = before +:+ needle +:+ after /\ contains needle before = false.
Proof.
  intros Hne. revert before after.
  induction s as [|c s IH]; intros before after; cbn [find_sub].
  - destruct (String.prefix needle EmptyString) eqn:Hp; [|discriminate].
    intros [= <- <-]. apply prefix_app in Hp as [rest Hrest].
    destruct needle; [done|discriminate].
  - destruct (String.prefix needle (String c s)) eqn:Hp.
    + intros [= <- <-]. split.
      * apply prefix_app in Hp as [rest Hrest]. rewrite Hrest at 2.
        by rewrite drop_chars_app.
      * by destruct needle.
    + destruct (find_sub needle s) as [[b a]|] eqn:Hf; [|discriminate].
      intros [= <- <-]. destruct (IH b a eq_refl) as [Hs Hb]. split.
      * change (String c s = String c (b +:+ needle +:+ a)). by rewrite <- Hs.
      * cbn [contains]. rewrite Hb.
        destruct (String.prefix needle (String c b)) eqn:Hpb; [|done].
        apply (prefix_app_r _ _ (needle +:+ a)) in Hpb.
        change (String c b +:+ needle +:+ a) with (String c (b +:+ needle +:+ a)) in Hpb.
        rewrite <- Hs in Hpb. congruence.
Qed.

(** [take_while] splits the text before the first character that
    fails the test. *)
Lemma take_while_split p s :
  s = take_while p s +:+ drop_chars (String.length (take_while p s)) s /\
  take_while p (take_while p s) = take_while p s.
Proof.
  induction s as [|c s [IH1 IH2]]; [done|].
  cbn [take_while]. destruct (p c) eqn:Hc; [|done].
  cbn [String.length drop_chars take_while]. rewrite Hc, IH2. split; [|done].
  change (String c s =
          String c (take_while p s +:+ drop_chars (String.length (take_while p s)) s)).
  by rewrite <- IH1.
Qed.

Lemma rehydration_here_sound s group1 :
  rehydration_here s = Some group1 ->
  exists attrs after,
    s = REHYDRATION_TAG +:+ attrs +:+ ">" +:+ group1 +:+ "</script>" +:+ after /\
    take_while (fun c => negb (is_char ">" c)) attrs = attrs /\
    contains "</script>" group1 = false.
Proof.
  unfold rehydration_here.
  destruct (String.prefix REHYDRATION_TAG s) eqn:Hp; [|discriminate].
  apply prefix_app in Hp as [rest ->]. rewrite drop_chars_app.
  destruct (take_while_split (fun c => negb (is_char ">" c)) rest) as [Hrest Hattrs].
  set (attrs := take_while _ rest) in *.
  destruct (drop_chars (String.length attrs) rest) as [|c body] eqn:Hd; [discriminate|].
  destruct (Ascii.eqb_spec c ">") as [-> | Hne];
    [|destruct c as [[] [] [] [] [] [] [] []]; try discriminate; by destruct Hne].
  destruct (find_sub "</script>" body) as [[g after]|] eqn:Hf; [|discriminate].
  intros [= <-].
  destruct (find_sub_first "</script>" body g after ltac:(discriminate) Hf)
    as [Hbody Hg].
  exists attrs, after. split; [|by split].
  rewrite Hrest at 1. by rewrite Hbody.
Qed.

(** X17: where the search for the rehydration script succeeds, the
    page is [before ++ tag ++ attrs ++ ">" ++ payload ++ "</script>" ++
    after], with no [>] in [attrs] and no ["</script>"] inside the
    payload: the payload ends at the first closing tag. *)
Theorem x_payload_is_the_text_up_to_the_first_closing_tag html group1 :
  search_rehydration html = Some group1 ->
  exists before attrs after,
    html = before +:+ REHYDRATION_TAG +:+ attrs +:+ ">" +:+ group1
             +:+ "</script>" +:+ after /\
    take_while (fun c => negb (is_char ">" c)) attrs = attrs /\
    contains "</script>" group1 = false.
Proof.
  induction html as [|c html IH]; cbn [search_rehydration].
  - destruct (rehydration_here EmptyString) eqn:Hh; [|discriminate].
    intros [= ->]. destruct (rehydration_here_sound _ _ Hh) as (attrs & after & H).
    by exists EmptyString, attrs, after.
  - destruct (rehydration_here (String c html)) eqn:Hh.
    + intros [= ->]. destruct (rehydration_here_sound _ _ Hh) as (attrs & after & H).
      by exists EmptyString, attrs, after.
    + intros Hs. destruct (IH Hs) as (before & attrs & after & -> & Ha & Hg).
      by exists (String c before), attrs, after.
Qed.

Lemma x_payload_witness :
  exists before attrs after,
    (REHYDRATION_TAG +:+ ">payload</script>") =
      before +:+ REHYDRATION_TAG +:+ attrs +:+ ">" +:+ "payload"
        +:+ "</script>" +:+ after /\
    take_while (fun c => negb (is_char ">" c)) attrs = attrs /\
    contains "</script>" "payload" = false.
Proof.
  apply (x_payload_is_the_text_up_to_the_first_closing_tag
           (REHYDRATION_TAG +:+ ">payload</script>") "payload").
  reflexivity.
Defined.

(** *** Numbers given as text *)

(** One digit read. *)
Lemma digits_acc_step c s acc d :
  is_digit c = true -> digit_value c = d ->
  digits_acc (String c s) acc true = digits_acc s (10 * acc + d) true.
Proof. intros Hc <-. cbn [digits_acc]. by rewrite Hc. Qed.

(** Reading digits after a positive prefix. *)
Lemma digits_acc_of_uint_acc u : forall p,
  digits_acc (NilEmpty.string_of_uint u) (Z.pos p) true
    = Some (Z.pos (Pos.of_uint_acc u p)).
Proof.
  induction u; intros p; cbn [NilEmpty.string_of_uint Pos.of_uint_acc];
    [reflexivity|..];
    (erewrite digits_acc_step; [|reflexivity|vm_compute; reflexivity]);
    rewrite <- IHu; f_equal; lia.
Qed.

(** Reading digits from the start, leading zeros included. *)
Lemma digits_acc_of_uint u :
  digits_acc (NilEmpty.string_of_uint u) 0 true = Some (Z.of_N (Pos.of_uint u)).
Proof.
  induction u; cbn [NilEmpty.string_of_uint Pos.of_uint];
    [reflexivity|exact IHu|..];
    cbn [digits_acc]; cbv [is_digit nat_of_ascii]; simpl;
    unfold digit_value; simpl; apply digits_acc_of_uint_acc.
Qed.

Lemma digits_acc_decimal n :
  digits_acc (decimal n) 0 false = Some (Z.of_N n).
Proof.
  unfold decimal, NilZero.string_of_uint.
  rewrite <- (DecimalN.Unsigned.of_to n) at 2.
  unfold N.of_uint.
  destruct (N.to_uint n) as [|u|u|u|u|u|u|u|u|u|u]; [reflexivity|..];
    match goal with
    | |- digits_acc (NilEmpty.string_of_uint ?d) _ _ = _ =>
        rewrite <- (digits_acc_of_uint d)
    end; reflexivity.
Qed.

Lemma decimal_not_empty n : decimal n <> EmptyString.
Proof.
  unfold decimal, NilZero.string_of_uint. by destruct (N.to_uint n).
Qed.

Lemma decimal_all_digits n : take_while is_digit (decimal n) = decimal n.
Proof.
  pose proof (decimal_digits n) as H. revert H.
  generalize (decimal n). intros s. induction s as [|c s IH]; [done|].
  cbn [list_ascii_of_string take_while]. intros [Hc Hs]%Forall_cons.
  by rewrite Hc, IH.
Qed.

Lemma digit_count_all_digits s :
  take_while is_digit s = s -> digit_count s = String.length s.
Proof.
  induction s as [|c s IH]; [done|].
  cbn [take_while digit_count String.length].
  destruct (is_digit c); [|discriminate].
  intros [= Hs]. by rewrite (IH Hs).
Qed.

Lemma int_of_str_of_int n :
  str_digits_ok n = true -> int_of_str (str_of_int n) = Some n.
Proof.
  intros Hok.
  pose proof (decimal_not_empty (Z.abs_N n)) as Hne.
  pose proof (decimal_all_digits (Z.abs_N n)) as Hdig.
  assert (Hr : rstrip_by is_int_space (decimal (Z.abs_N n)) = decimal (Z.abs_N n)).
  { apply (rstrip_by_none is_digit); [|done].
    intros c. destruct c as [[] [] [] [] [] [] [] []]; done. }
  assert (Hfirst : exists c rest,
            decimal (Z.abs_N n) = String c rest /\ is_digit c = true).
  { destruct (decimal (Z.abs_N n)) as [|c rest]; [done|].
    cbn [take_while] in Hdig. destruct (is_digit c) eqn:Hc; [|discriminate].
    by exists c, rest. }
  destruct Hfirst as (c & rest & Hdec & Hc).
  assert (Hl : lstrip_by is_int_space (decimal (Z.abs_N n)) = decimal (Z.abs_N n)).
  { rewrite Hdec. cbn [lstrip_by].
    destruct c as [[] [] [] [] [] [] [] []]; done. }
  assert (Hcap : (INT_MAX_STR_DIGITS <? digit_count (decimal (Z.abs_N n)))%nat
                 = false).
  { rewrite (digit_count_all_digits _ Hdig). apply Nat.ltb_ge.
    by apply Nat.leb_le. }
  unfold int_of_str, str_of_int, strip_by. cbv zeta.
  destruct (n <? 0)%Z eqn:Hneg.
  - change (lstrip_by is_int_space (String "-" (decimal (Z.abs_N n))))
      with (String "-" (decimal (Z.abs_N n))).
    pose proof (rstrip_by_app_keep is_int_space "-" _ Hr Hne) as Hm.
    change ("-" +:+ decimal (Z.abs_N n))
      with (String "-" (decimal (Z.abs_N n))) in Hm.
    rewrite Hm.
    change (digit_count (String "-" (decimal (Z.abs_N n))))
      with (digit_count (decimal (Z.abs_N n))).
    rewrite Hcap, digits_acc_decimal. cbn [fmap option_fmap option_map]. f_equal.
    apply Z.ltb_lt in Hneg. rewrite N2Z.inj_abs_N. lia.
  - rewrite Hl, Hr, Hcap.
    assert (Hgoal : digits_acc (decimal (Z.abs_N n)) 0 false = Some n).
    { rewrite digits_acc_decimal. f_equal.
      apply Z.ltb_ge in Hneg. rewrite N2Z.inj_abs_N. lia. }
    rewrite Hdec in *.
    destruct c as [[] [] [] [] [] [] [] []]; try discriminate Hc; exact Hgoal.
Qed.

(** [int] does not skip U+001C, which [strip] removes. *)
Lemma int_of_str_keeps_separators :
  int_of_str (String "028" "1234") = None /\
  strip (String "028" "1234") = "1234" /\
  int_of_str " 1_234 " = Some 1234.
Proof. repeat split; reflexivity. Qed.

(** X18: for a number of at most [INT_MAX_STR_DIGITS] = 4300 digits,
    [_format_number] groups the digits of the number sent as decimal
    text as it does for the number itself; an ASCII text that [int]
    does not read is returned unchanged; and on a value that holds no
    integer beyond 4300 digits the only case in which it raises is an
    infinite float, with [OverflowError], which its [except] clause
    does not catch. *)
Theorem x_counts_given_as_text_are_grouped_too w :
  (forall n, str_digits_ok n = true ->
     _format_number w (PStr (str_of_int n)) = Return (format_grouped n) /\
     _format_number w (PInt n) = Return (format_grouped n)) /\
  (forall s, ascii_text s = true -> int_of_str s = None ->
     _format_number w (PStr s) = Return s) /\
  (forall num e,
     ints_in_range num = true ->
     _format_number w num = Raise e ->
     e = OverflowError /\ exists negative, num = PFloat (FInf negative)).
Proof.
  split; [|split].
  - intros n Hok. unfold _format_number. cbn [py_int].
    rewrite (int_of_str_of_int n Hok). by rewrite Hok.
  - intros s _ Hs. unfold _format_number. cbn [py_int]. by rewrite Hs.
  - intros num e Hrange. unfold _format_number, py_str_checked. rewrite Hrange.
    destruct num as [|b|n|[q|negative|]|s|l|d]; simpl; try discriminate.
    + destruct (str_digits_ok _); discriminate.
    + simpl in Hrange. rewrite Hrange. discriminate.
    + destruct (str_digits_ok _); discriminate.
    + intros [= <-]. split; [done|by eexists].
    + destruct (int_of_str s) as [n|]; [|discriminate].
      destruct (str_digits_ok n); discriminate.
Qed.

(** *** What a lookup returns *)

(** A complete profile record: the 21 keys, with ["error": False]. *)
Lemma profile_result_kinds w user_info :
  forall result,
    (user <~ py_get user_info "user" (PDict []) ;;
     stats <~ py_get user_info "stats" (PDict []) ;;
     _format_user w user stats) = Return result ->
    exists record,
      result = PDict record /\ fst <$> record = record_keys /\
      lookup_key "error" record = Some (PBool false).
Proof.
  intros result H.
  destruct (py_get user_info "user" _) as [user|]; simpl in H; [|discriminate].
  destruct (py_get user_info "stats" _) as [stats|]; simpl in H; [|discriminate].
  destruct (format_user_record w user stats result H) as (record & -> & Hk & He & _).
  by exists record.
Qed.

(** X19: a result returned by [get_user_by_username] or
    [get_user_by_id] is either [{"error": True}] or a record with all 21
    keys and ["error": False]: [result.get("error")] tells the two
    apart, and the keys the bot reads are present in the second
    case. *)
Theorem x_lookup_returns_failure_or_full_record w input result :
  fst (get_user_by_username w input) = Return result \/
  fst (get_user_by_id w input) = Return result ->
  (result = error_result /\ py_get result "error" PNone = Return (PBool true)) \/
  (exists record,
     result = PDict record /\ fst <$> record = record_keys /\
     py_get result "error" PNone = Return (PBool false)).
Proof.
  assert (Hrec : forall record, fst <$> record = record_keys ->
            lookup_key "error" record = Some (PBool false) ->
            exists record0, PDict record = PDict record0 /\
              fst <$> record0 = record_keys /\
              py_get (PDict record) "error" PNone = Return (PBool false)).
  { intros record Hk He. exists record. simpl. by rewrite He. }
  assert (Hpage : forall url r,
            fst (user_info <- _scrape_tiktok_page w url ;;
                 if negb (truthy user_info) then io_ret error_result
                 else pure (user <~ py_get user_info "user" (PDict []) ;;
                            stats <~ py_get user_info "stats" (PDict []) ;;
                            _format_user w user stats)) = Return r ->
            (r = error_result /\ py_get r "error" PNone = Return (PBool true)) \/
            (exists record, r = PDict record /\ fst <$> record = record_keys /\
               py_get r "error" PNone = Return (PBool false))).
  { intros url r.
    destruct (scrape_page_never_raises w url) as [user_info ->].
    unfold io_bind, pure, io_ret. destruct (truthy user_info); simpl.
    - destruct (bind _ _) as [r0|] eqn:Hb; simpl; [|discriminate].
      intros [= <-]. right.
      destruct (profile_result_kinds w user_info r0 Hb) as (record & -> & Hk & He).
      by apply Hrec.
    - intros [= <-]. by left. }
  intros [H | H].
  - unfold get_user_by_username in H.
    destruct (normalize_username input) as [name|].
    + by apply (Hpage (profile_page name)).
    + injection H as <-. by left.
  - unfold get_user_by_id in H.
    destruct (lookup_by_api_shape w (strip input)) as [r Hr].
    rewrite Hr in H. unfold io_bind at 1 in H.
    destruct r as [record|].
    + simpl in H. injection H as <-. right.
      revert Hr. unfold lookup_by_api, try_except, io_bind, perform, pure, io_ret.
      destruct (client_post w _ _) as [response|]; simpl; [|discriminate].
      destruct (json_loads w (text response)) as [data|]; simpl; [|discriminate].
      destruct (tikwm_user w data) as [[r0|]|] eqn:Ht; simpl; try discriminate.
      intros [= ->]. revert Ht. unfold tikwm_user. intros Ht.
      split_binds Ht.
      destruct (_ && _); [|discriminate]. split_binds Ht.
      injection Ht as <-.
      match goal with
      | Hf : _format_user w _ _ = Return _ |- _ =>
          destruct (format_user_record w _ _ _ Hf) as (rec & -> & Hk & He & _)
      end.
      by apply Hrec.
    + unfold io_ret in H. cbn [fst app] in H.
      apply (Hpage (profile_page (strip input))).
      revert H. unfold lookup_by_page.
      destruct (scrape_page_never_raises w (profile_page (strip input)))
        as [user_info ->].
      unfold io_bind, pure, io_ret. by destruct (truthy user_info).
Qed.

Lemma x_lookup_result_witness :
  (error_result = error_result /\
   py_get error_result "error" PNone = Return (PBool true)) \/
  (exists record,
     error_result = PDict record /\ fst <$> record = record_keys /\
     py_get error_result "error" PNone = Return (PBool false)).
Proof.
  apply (x_lookup_returns_failure_or_full_record plain_pages " 42 " error_result).
  right. reflexivity.
Defined.

End ScraperMoreFacts.

(** ** Part VIII: properties of histories, favourites and messages *)

Section BotFacts.

Import Py Scraper Samples Bot.
Local Open Scope string_scope.

Implicit Types (h : gmap Z (list history_entry)) (m : gmap Z (list string)).

(** *** Search history *)

(** The history of the user after one save. *)
Lemma save_to_history_own now u name h :
  save_to_history now u name h !! u =
    Some (take 20 (mk_history_entry name now :: default [] (h !! u))).
Proof.
  unfold save_to_history.
  set (h1 := match h !! u with None => _ | Some _ => _ end).
  assert (H1 : default [] (h1 !! u) = default [] (h !! u)).
  { unfold h1. destruct (h !! u) eqn:Hu; [by rewrite Hu|by rewrite lookup_insert_eq]. }
  rewrite H1. case_decide as Hlen.
  - by rewrite lookup_insert_eq.
  - rewrite lookup_insert_eq. by rewrite take_ge by lia.
Qed.

Lemma save_to_history_other now u u' name h :
  u <> u' -> save_to_history now u name h !! u' = h !! u'.
Proof.
  intros Hne. unfold save_to_history.
  case_decide; rewrite ?lookup_insert_ne by done;
    destruct (h !! u); by rewrite ?lookup_insert_ne by done.
Qed.

Lemma take_app_take {A} n (a b : list A) :
  take n (a ++ take n b) = take n (a ++ b).
Proof.
  rewrite !take_app. f_equal. rewrite take_take. f_equal. lia.
Qed.

(** The history of the user after several saves: the new entries,
    newest first, before the old ones, cut to 20. *)
Lemma saves_own items : forall u h,
  items <> [] ->
  saves items u h !! u =
    Some (take 20 (rev (entries_of items) ++ default [] (h !! u))%list).
Proof.
  induction items as [|[now name] items IH]; intros u h Hne; [done|].
  cbn [saves]. destruct items as [|item items].
  - simpl. apply save_to_history_own.
  - rewrite IH by done. rewrite save_to_history_own. cbn [default].
    f_equal. unfold entries_of, id. cbn [fmap list_fmap rev fst snd].
    rewrite take_app_take. by rewrite <- !app_assoc.
Qed.

Lemma saves_other items : forall u u' h,
  u <> u' -> saves items u h !! u' = h !! u'.
Proof.
  induction items as [|[now name] items IH]; intros u u' h Hne; [done|].
  cbn [saves]. rewrite IH by done. by apply save_to_history_other.
Qed.

(** X20: after one or more [save_to_history] calls for a user, the
    stored history is the new entries, newest first, followed by the old
    ones, cut to 20: it is never empty, never longer than 20, starts
    with the last search saved, holds only new entries once 20 or more
    were saved, and the histories of other users are untouched. *)
Theorem x_history_keeps_the_20_newest items u h :
  items <> [] ->
  exists entries,
    saves items u h !! u = Some entries /\
    entries = take 20 (rev (entries_of items) ++ default [] (h !! u))%list /\
    (0 < length entries <= 20)%nat /\
    head entries = last (entries_of items) /\
    ((20 <= length items)%nat -> entries = take 20 (rev (entries_of items))) /\
    (forall u', u <> u' -> saves items u h !! u' = h !! u').
Proof.
  intros Hne. eexists. split; [by apply saves_own|].
  split; [reflexivity|].
  assert (Hlen : length (entries_of items) = length items)
    by (unfold entries_of; apply length_fmap).
  assert (Hpos : (0 < length items)%nat) by (destruct items; [done|simpl; lia]).
  split; [|split; [|split]].
  - rewrite length_take, length_app, length_rev, Hlen. lia.
  - destruct (entries_of items) as [|e es] eqn:He using rev_ind;
      [simpl in Hlen; lia|].
    rewrite rev_app_distr. simpl. by rewrite last_snoc.
  - intros Hfull. rewrite take_app_le; [done|]. rewrite length_rev. lia.
  - intros u' Hu'. by apply saves_other.
Qed.

Lemma x_history_witness :
  exists entries,
    saves [("2024-01-01 10:00", "alice"); ("2024-01-01 10:05", "bob")] 7 ∅ !! 7
      = Some entries /\
    entries =
      take 20 (rev (entries_of [("2024-01-01 10:00", "alice");
                                ("2024-01-01 10:05", "bob")])
               ++ default [] ((∅ : gmap Z (list history_entry)) !! 7))%list /\
    (0 < length entries <= 20)%nat /\
    head entries =
      last (entries_of [("2024-01-01 10:00", "alice"); ("2024-01-01 10:05", "bob")]) /\
    ((20 <= length [("2024-01-01 10:00", "alice"); ("2024-01-01 10:05", "bob")])%nat ->
     entries = take 20 (rev (entries_of [("2024-01-01 10:00", "alice");
                                          ("2024-01-01 10:05", "bob")]))) /\
    (forall u', 7 <> u' ->
       saves [("2024-01-01 10:00", "alice"); ("2024-01-01 10:05", "bob")] 7 ∅ !! u'
         = (∅ : gmap Z (list history_entry)) !! u').
Proof.
  apply (x_history_keeps_the_20_newest
           [("2024-01-01 10:00", "alice"); ("2024-01-01 10:05", "bob")] 7 ∅).
  discriminate.
Defined.

(** X21: after one or more saves for a user, [history_command] lists
    the first 10 entries of the new searches, newest first, followed by
    the old ones: the cut to 20 of [save_to_history] does not change
    what is listed. *)
Theorem x_history_command_shows_the_10_newest items u h :
  items <> [] ->
  history_shown u (saves items u h) =
    Some (take 10 (rev (entries_of items) ++ default [] (h !! u))%list).
Proof.
  intros Hne. unfold history_shown. rewrite saves_own by done.
  assert (Hpos : (0 < length (rev (entries_of items)))%nat).
  { rewrite length_rev. unfold entries_of. rewrite length_fmap.
    destruct items; [done|simpl; lia]. }
  destruct (rev (entries_of items)) as [|e es] eqn:He; [simpl in Hpos; lia|].
  cbn [app take]. f_equal. cbn [take]. f_equal. rewrite take_take. f_equal.
Qed.

Lemma x_history_command_witness :
  history_shown 7 (saves [("2024-01-01 10:00", "alice")] 7 ∅) =
    Some (take 10 (rev (entries_of [("2024-01-01 10:00", "alice")])
                   ++ default [] ((∅ : gmap Z (list history_entry)) !! 7))%list).
Proof.
  apply (x_history_command_shows_the_10_newest [("2024-01-01 10:00", "alice")] 7 ∅).
  discriminate.
Defined.

(** *** Favourites *)

Lemma fav_known_spec name l :
  fav_known name l = true <-> exists f, f ∈ l /\ lower f = lower name.
Proof.
  unfold fav_known. rewrite bool_decide_eq_true, list_elem_of_fmap.
  split; intros (f & H1 & H2); exists f; by split.
Qed.

(** The list of the user after an add. *)
Lemma fav_add_own u name m :
  snd (fav_add u name m) !! u =
    Some (if fav_known name (default [] (m !! u))
          then default [] (m !! u)
          else (default [] (m !! u) ++ [name])%list).
Proof.
  unfold fav_add.
  set (m1 := match m !! u with None => _ | Some _ => _ end).
  assert (H1 : m1 !! u = Some (default [] (m !! u))).
  { unfold m1. destruct (m !! u) eqn:Hu; [by rewrite Hu|by rewrite lookup_insert_eq]. }
  rewrite H1. cbn [default from_option]. unfold id.
  destruct (fav_known name _); simpl; [exact H1|by rewrite lookup_insert_eq].
Qed.

Lemma fav_add_list u name m :
  default [] (snd (fav_add u name m) !! u) =
    if fav_known name (default [] (m !! u))
    then default [] (m !! u)
    else (default [] (m !! u) ++ [name])%list.
Proof. by rewrite fav_add_own. Qed.

Lemma fav_add_other u u' name m :
  u <> u' -> snd (fav_add u name m) !! u' = m !! u'.
Proof.
  intros Hne. unfold fav_add.
  destruct (fav_known name _); simpl; rewrite ?lookup_insert_ne by done;
    destruct (m !! u); by rewrite ?lookup_insert_ne by done.
Qed.

Lemma fav_remove_own u name m :
  snd (fav_remove u name m) !! u =
    filter (fun f => lower f <> lower name) <$> (m !! u).
Proof.
  unfold fav_remove. simpl.
  destruct (m !! u) eqn:Hu; [by rewrite lookup_insert_eq|by rewrite Hu].
Qed.

Lemma fav_remove_other u u' name m :
  u <> u' -> snd (fav_remove u name m) !! u' = m !! u'.
Proof.
  intros Hne. unfold fav_remove. simpl.
  destruct (m !! u); by rewrite ?lookup_insert_ne by done.
Qed.

Lemma filter_all {A} (P : A -> Prop) `{!forall x, Decision (P x)} (l : list A) :
  Forall P l -> filter P l = l.
Proof.
  induction 1 as [|x l Hx Hl IH]; [done|].
  rewrite filter_cons_True by done. by rewrite IH.
Qed.

Lemma NoDup_fmap_filter {A B} (f : A -> B) (P : A -> Prop)
    `{!forall x, Decision (P x)} (l : list A) :
  NoDup (f <$> l) -> NoDup (f <$> filter P l).
Proof.
  induction l as [|x l IH]; [done|].
  cbn [fmap list_fmap]. intros [Hx Hl]%NoDup_cons.
  destruct (decide (P x)).
  - rewrite filter_cons_True by done. cbn [fmap list_fmap].
    apply NoDup_cons. split; [|by apply IH].
    intros (y & Hy1 & Hy2)%list_elem_of_fmap. apply Hx.
    apply list_elem_of_fmap. exists y. split; [done|].
    by apply list_elem_of_filter in Hy2 as [_ ?].
  - rewrite filter_cons_False by done. by apply IH.
Qed.

(** X22: whatever adds and removes were made, no list of favourites
    holds the same name twice, names compared without case. *)
Theorem x_favourites_hold_no_name_twice m u l :
  fav_reachable m ->
  m !! u = Some l ->
  NoDup (lower <$> l).
Proof.
  intros Hreach. revert u l.
  induction Hreach as [|u0 name m Hm IH|u0 name m Hm IH]; intros u l Hu.
  - by rewrite lookup_empty in Hu.
  - destruct (decide (u0 = u)) as [-> | Hne].
    + rewrite fav_add_own in Hu. injection Hu as <-.
      assert (Hold : NoDup (lower <$> default [] (m !! u))).
      { destruct (m !! u) as [l0|] eqn:H0; simpl; [by apply (IH u)|constructor]. }
      destruct (fav_known name _) eqn:Hk; [exact Hold|].
      rewrite fmap_app. apply NoDup_app. split; [exact Hold|].
      split; [|apply NoDup_singleton].
      intros x Hx1 Hx2%list_elem_of_singleton. subst x.
      unfold fav_known in Hk. by apply bool_decide_eq_false in Hk.
    + rewrite fav_add_other in Hu by done. by apply (IH u).
  - destruct (decide (u0 = u)) as [-> | Hne].
    + rewrite fav_remove_own in Hu.
      destruct (m !! u) as [l0|] eqn:H0; [|discriminate].
      injection Hu as <-. apply NoDup_fmap_filter. by apply (IH u).
    + rewrite fav_remove_other in Hu by done. by apply (IH u).
Qed.

Lemma x_favourites_witness :
  NoDup (lower <$> ["Alice"; "bob"]).
Proof.
  apply (x_favourites_hold_no_name_twice
           (snd (fav_add 7 "BOB" (snd (fav_add 7 "bob" (snd (fav_add 7 "Alice" ∅))))))
           7 ["Alice"; "bob"]).
  - repeat apply fav_reachable_add. apply fav_reachable_empty.
  - reflexivity.
Defined.

(** X23: adding a name a second time, in any spelling of upper and
    lower case, answers ["fav_exists"] and leaves the favourites as they
    were. *)
Theorem x_add_again_in_any_case_changes_nothing u name name' m :
  lower name' = lower name ->
  fst (fav_add u name' (snd (fav_add u name m))) = "fav_exists" /\
  snd (fav_add u name' (snd (fav_add u name m))) = snd (fav_add u name m).
Proof.
  intros Hcase.
  assert (Hknown : fav_known name'
            (default [] (snd (fav_add u name m) !! u)) = true).
  { rewrite fav_add_list. apply fav_known_spec.
    destruct (fav_known name (default [] (m !! u))) eqn:Hk.
    - apply fav_known_spec in Hk as (f & Hf & Hlow). exists f. split; [done|congruence].
    - exists name. split; [|done]. apply elem_of_app. right.
      by apply list_elem_of_singleton. }
  unfold fav_add at 1 3.
  set (m1 := snd (fav_add u name m)) in *.
  assert (Hsome : is_Some (m1 !! u)).
  { unfold m1. rewrite fav_add_own. by eexists. }
  destruct Hsome as [l1 Hl1]. rewrite Hl1 in *. rewrite Hl1. simpl in *.
  by rewrite Hknown.
Qed.

Lemma x_add_again_witness :
  fst (fav_add 7 "ALICE" (snd (fav_add 7 "Alice" ∅))) = "fav_exists" /\
  snd (fav_add 7 "ALICE" (snd (fav_add 7 "Alice" ∅))) = snd (fav_add 7 "Alice" ∅).
Proof.
  apply (x_add_again_in_any_case_changes_nothing 7 "Alice" "ALICE" ∅).
  reflexivity.
Defined.

(** X24: for a user who has a list of favourites, all of ASCII
    characters, adding an ASCII name that is not in the list and then
    removing it, in any spelling of upper and lower case, gives back
    the favourites as they were; the name is then in the list under no
    spelling. *)
Theorem x_remove_undoes_add u name name' m l :
  m !! u = Some l ->
  ascii_text name = true ->
  Forall (fun f => ascii_text f = true) l ->
  fav_known name l = false ->
  lower name' = lower name ->
  fst (fav_add u name m) = "fav_added" /\
  snd (fav_remove u name' (snd (fav_add u name m))) = m /\
  (forall name'', lower name'' = lower name ->
     fav_known name'' (default [] (snd (fav_remove u name' (snd (fav_add u name m))) !! u))
       = false).
Proof.
  intros Hu _ _ Hk Hcase.
  assert (Hadd : fav_add u name m = ("fav_added", <[u := (l ++ [name])%list]> m)).
  { unfold fav_add. rewrite Hu. cbv beta iota zeta. rewrite Hu.
    change (default [] (Some l)) with l. by rewrite Hk. }
  assert (Hfilter : filter (fun f => lower f <> lower name') (l ++ [name])%list = l).
  { rewrite filter_app, filter_cons_False, filter_nil, app_nil_r by (intros H; by apply H).
    apply filter_all. apply Forall_forall. intros f Hf Heq.
    assert (fav_known name l = true); [|congruence].
    apply fav_known_spec. exists f. split; [done|congruence]. }
  assert (Hrem : snd (fav_remove u name' (snd (fav_add u name m))) = m).
  { rewrite Hadd. unfold fav_remove. simpl. rewrite lookup_insert_eq.
    rewrite Hfilter, insert_insert_eq. by apply insert_id. }
  split; [by rewrite Hadd|]. split; [exact Hrem|].
  intros name'' Hcase''. rewrite Hrem, Hu. simpl.
  destruct (fav_known name'' l) eqn:Hk''; [|done].
  apply fav_known_spec in Hk'' as (f & Hf & Hlow).
  assert (fav_known name l = true); [|congruence].
  apply fav_known_spec. exists f. split; [done|congruence].
Qed.

Lemma x_remove_undoes_add_witness :
  fst (fav_add 7 "Bob" {[7 := ["Alice"]]}) = "fav_added" /\
  snd (fav_remove 7 "BOB" (snd (fav_add 7 "Bob" {[7 := ["Alice"]]})))
    = {[7 := ["Alice"]]} /\
  (forall name'', lower name'' = lower "Bob" ->
     fav_known name''
       (default [] (snd (fav_remove 7 "BOB" (snd (fav_add 7 "Bob" {[7 := ["Alice"]]}))) !! 7))
       = false).
Proof.
  apply (x_remove_undoes_add 7 "Bob" "BOB" {[7 := ["Alice"]]} ["Alice"]).
  - reflexivity.
  - reflexivity.
  - repeat constructor.
  - reflexivity.
  - reflexivity.
Defined.

(** *** Stripping *)

Lemma lstrip_by_length p s :
  (String.length (lstrip_by p s) <= String.length s)%nat.
Proof. induction s as [|c s IH]; simpl; [lia|]. destruct (p c); simpl; lia. Qed.

Lemma rstrip_by_length p s :
  (String.length (rstrip_by p s) <= String.length s)%nat.
Proof.
  induction s as [|c s IH]; simpl; [lia|].
  destruct (rstrip_by p s); [destruct (p c)|]; simpl in *; lia.
Qed.

Lemma lstrip_by_same_length p s :
  String.length (lstrip_by p s) = String.length s -> lstrip_by p s = s.
Proof.
  destruct s as [|c s]; simpl; [done|].
  destruct (p c); [|done].
  pose proof (lstrip_by_length p s). lia.
Qed.

(** A text that [strip] leaves alone has nothing to strip at either
    end. *)
Lemma strip_by_fixed p s :
  strip_by p s = s -> lstrip_by p s = s /\ rstrip_by p s = s.
Proof.
  unfold strip_by. intros H.
  assert (Hl : lstrip_by p s = s).
  { apply lstrip_by_same_length.
    pose proof (lstrip_by_length p s).
    pose proof (rstrip_by_length p (lstrip_by p s)).
    rewrite H in *. lia. }
  split; [exact Hl|]. by rewrite Hl in H.
Qed.

(** *** The /fav command *)

(** X25: for a [NAME] of ASCII characters and a user whose favourites
    are of ASCII characters, [/fav add NAME] and [/fav rm NAME] act on
    the whole rest of the message, white space inside included, less
    its leading [@]s: the add and the remove run on that name and the
    reply carries it. *)
Theorem x_fav_command_takes_the_rest_as_the_name name u m :
  ascii_text name = true ->
  Forall (fun f => ascii_text f = true) (default [] (m !! u)) ->
  strip name = name ->
  name <> EmptyString ->
  fav_command ("/fav add " +:+ name) u m =
    (FavMessage (fst (fav_add u (lstrip_char "@" name) m)) (lstrip_char "@" name),
     snd (fav_add u (lstrip_char "@" name) m)) /\
  fav_command ("/fav rm " +:+ name) u m =
    (FavMessage "fav_removed" (lstrip_char "@" name),
     snd (fav_remove u (lstrip_char "@" name) m)).
Proof.
  intros _ _ Hstrip Hne.
  destruct (strip_by_fixed is_space name Hstrip) as [Hl Hr].
  assert (Hargs : split_ws 0 (String " " name) = [name]).
  { cbn [split_ws lstrip_by]. change (is_space " ") with true.
    cbv iota. rewrite Hl. by destruct name. }
  split.
  - unfold fav_command, strip, strip_by.
    change (lstrip_by is_space ("/fav add " +:+ name)) with ("/fav add " +:+ name).
    rewrite (rstrip_by_app_keep is_space "/fav add " name Hr Hne).
    change (split_ws 2 ("/fav add " +:+ name))
      with ("/fav" :: "add" :: split_ws 0 (String " " name)).
    rewrite Hargs. cbv beta iota zeta.
    change (String.eqb (lower "add") "add") with true. cbv iota.
    by destruct (fav_add u (lstrip_char "@" name) m).
  - unfold fav_command, strip, strip_by.
    change (lstrip_by is_space ("/fav rm " +:+ name)) with ("/fav rm " +:+ name).
    rewrite (rstrip_by_app_keep is_space "/fav rm " name Hr Hne).
    change (split_ws 2 ("/fav rm " +:+ name))
      with ("/fav" :: "rm" :: split_ws 0 (String " " name)).
    rewrite Hargs. cbv beta iota zeta.
    change (String.eqb (lower "rm") "add") with false. cbv iota.
    rewrite bool_decide_eq_true_2 by set_solver.
    reflexivity.
Qed.

Lemma x_fav_command_witness :
  fav_command ("/fav add " +:+ "@Some Name") 7 {[7 := ["Alice"]]} =
    (FavMessage (fst (fav_add 7 (lstrip_char "@" "@Some Name") {[7 := ["Alice"]]}))
                (lstrip_char "@" "@Some Name"),
     snd (fav_add 7 (lstrip_char "@" "@Some Name") {[7 := ["Alice"]]})) /\
  fav_command ("/fav rm " +:+ "@Some Name") 7 {[7 := ["Alice"]]} =
    (FavMessage "fav_removed" (lstrip_char "@" "@Some Name"),
     snd (fav_remove 7 (lstrip_char "@" "@Some Name") {[7 := ["Alice"]]})).
Proof.
  apply (x_fav_command_takes_the_rest_as_the_name "@Some Name" 7
           {[7 := ["Alice"]]}).
  - reflexivity.
  - repeat constructor.
  - reflexivity.
  - discriminate.
Defined.

(** *** Callback data *)

Lemma split_colon_head s :
  exists parts, split_colon s = before_colon s :: parts.
Proof.
  induction s as [|c s [parts IH]]; [by eexists|].
  cbn [split_colon before_colon take_while].
  destruct (is_char ":" c); simpl; [by eexists|].
  fold (before_colon s). rewrite IH. by eexists.
Qed.

Lemma before_colon_all s :
  contains ":" s = false -> before_colon s = s.
Proof.
  induction s as [|c s IH]; [done|].
  cbn [contains before_colon take_while String.prefix].
  unfold is_char. destruct (ascii_dec ":" c) as [<-|Hne]; [by destruct s|].
  intros H. apply Ascii.eqb_neq in Hne. rewrite Hne. simpl.
  f_equal. by apply IH.
Qed.

(** X26: the callback data the keyboards are built with is decoded
    back by [callback_handler]: [addfav:NAME] and [favsearch:NAME] give
    the whole [NAME], colons included; [refresh:username:NAME] and
    [raw:username:NAME] give [NAME] up to its first colon, which is
    [NAME] where it has none. *)
Theorem x_callback_data_round_trip username :
  callback_route ("addfav:" +:+ username) = Some (RouteAddFav username) /\
  callback_route ("favsearch:" +:+ username) = Some (RouteFavSearch username) /\
  callback_route ("refresh:username:" +:+ username)
    = Some (RouteRefresh "username" (before_colon username)) /\
  callback_route ("raw:username:" +:+ username)
    = Some (RouteRaw "username" (before_colon username)) /\
  (contains ":" username = false -> before_colon username = username).
Proof.
  split; [by destruct username|]. split; [by destruct username|].
  destruct (split_colon_head username) as [parts Hparts].
  split; [|split; [|apply before_colon_all]].
  - assert (Hsplit : split_colon ("refresh:username:" +:+ username)
                     = "refresh" :: "username" :: split_colon username).
    { reflexivity. }
    unfold callback_route. rewrite Hsplit, Hparts. by destruct username.
  - assert (Hsplit : split_colon ("raw:username:" +:+ username)
                     = "raw" :: "username" :: split_colon username).
    { reflexivity. }
    unfold callback_route. rewrite Hsplit, Hparts. by destruct username.
Qed.

(** *** Messages *)


Section MessageFacts.

Variable user_langs : gmap Z string.
Variable lang_strings : gmap string (gmap string string).
Variable str_format : string -> list (string * pyval) -> outcome string.
Variable escape_markdown : string -> string.
Variable w : world.

Hypothesis arabic_loaded : is_Some (lang_strings !! "ar").




End MessageFacts.



End BotFacts.
